(* ===== verification/_CoqProject ===== *)
-Q . S2P
Prelude.v
Types.v
Regex.v
Calendar.v
DateFns.v
Ledger.v
Storage.v
JsonText.v
App.v
View.v
Liveness.v
TextStore.v
Refinement.v
Dashboard.v
Registration.v
