(* ===== verification/Prelude.v ===== *)
(** * SpendWise: a verification development of the expense tracker

    The repository is a single-page React application ([src/App.tsx],
    with its data types in [src/types.ts] and constants in
    [src/constants.ts]).  All state is held by the top-level [App]
    component in React state hooks and mirrored into the browser's
    [localStorage] under three keys.  The development models the program
    as a shallow embedding: every hook becomes a field of a record, every
    handler a Rocq function on that record, every effect an explicit
    function on the storage map, and the user interface's possible
    actions an inductive step relation.

    ** Parts of the program and where they are modelled

    - [Prelude.v] (this file): JavaScript's [||] defaulting ("falsy"
      values), the [reduce]-style sums over JavaScript numbers, the
      shared hint database [spend] and tactics.
    - [Types.v]: the interfaces of [src/types.ts] ([UserProfile],
      [Expense], [AppSettings], [AppTab], [Partial<Expense>]) and the
      constants of [src/constants.ts], including the mobile-number
      regular expression [INDIAN_MOBILE_REGEX] as a boolean matcher.
    - [Regex.v]: the literal [/^[6-9]\d{9}$/] of [src/constants.ts] with
      ECMAScript's meaning: a pattern syntax, a reference semantics of
      matches between positions, an executable matcher and
      [RegExp.prototype.test].
    - [Calendar.v]: the date arithmetic the ledger relies on ([new
      Date()], [toISOString], [subMonths], [isAfter] of date-fns) over
      instants in milliseconds and a fixed time-zone offset, with the
      day-count conversions between day numbers and proleptic Gregorian
      dates ([days_from_civil], [civil_from_days]) and the zero-padded
      printer of ISO strings.
    - [DateFns.v]: date-fns's [parseISO] (the load filter at App.tsx
      line 51 and the History rows at line 196 call it) as the library
      computes it with its default [additionalDigits] of 2:
      [splitDateString] cuts date, time and timezone apart,
      [parseYear], [parseDate] (calendar, ordinal and ISO-week dates,
      with their validators), [parseTime] (fractional fields) and
      [parseTimezone] read them, and a string without a timezone is
      local wall-clock time, moved there the way [setFullYear] and
      [setHours] do; the result is clipped like [new Date(t)].  The
      library's regular expressions are matched by a backtracking
      list-of-successes parser, the first success being the match.
    - [Ledger.v]: the expense ledger: [addExpense]'s record
      construction and prepend, the [reduce] total, the limit check and
      its alert text, and the two-month retention filter of the load
      effect.
    - [Storage.v]: [localStorage] as a map from keys to stored texts,
      behind a typeclass interface with its laws; JSON values with the
      encoders and decoders of the three stores.
    - [App.v]: the [App] component: its state record, the load and save
      effects, the handlers ([handleRegister], [addExpense],
      [handleManualAdd], the settings and form [onChange]s, dismiss,
      reset), the guards the rendered UI puts on each action, and the
      step relation with its reachable states, and an executable [run]
      of a list of events with concrete scenarios; then its theorems:
      storage mirrors the state after every step, the invariant of
      reachable states, reload and reset, and the divergences between
      code and specification.
    - [View.v]: the JSX [App] returns, as a function [render] from the
      state to a view record: the registration form, the header, the
      banner with the first notification, the panel of the active tab
      (the History rows with date-fns's [format] and
      [toLocaleString('en-IN')]), the add button, the navigation and the
      modal add form, with the controls a user can reach; and the page
      as React shows it ([Screen]): a render that throws blanks the
      page, which can then only be reloaded.
    - [Liveness.v]: rounds of the add form driven through [App.run],
      for the progress side of the limit alert.
    - [JsonText.v]: [JSON.stringify] and [JSON.parse] at the level of
      characters: the printer of JSON values (string escapes, the
      shortest decimal of a number, commas and brackets) and a
      recursive-descent reader of the JSON grammar, run on fuel.
    - [TextStore.v]: [localStorage] as what the browser keeps, a map from
      keys to strings, as a second instance of the storage interface:
      [getItem] parses the string it finds and [setItem] writes
      [JSON.stringify] of the value.
    - [Refinement.v]: the page over the store of strings against the
      page over the store of JSON values: the two machines stay related
      by every event (states equal up to numbers in lowest terms), with
      [Proper] instances showing that every handler respects that
      equivalence.
    - [Dashboard.v]: the [Dashboard] component [App] renders on its first
      tab with the ledger and the settings (line 170).  Its source is not
      in the repository, so its contract from the specification (section
      4.3) is modelled: [weeklyBreakdown] buckets the ledger by local
      weekday over a window of days into one [WeeklyData] per label of
      [DAYS_OF_WEEK], [monthlySummary] buckets it by local calendar
      month into [MonthlySummary] rows.  The window and the savings
      formula, which the specification leaves to the implementer, are
      section variables: the theorems hold for every choice.
    - [Registration.v]: the [RegistrationForm] [App] renders while there
      is no user (lines 123-125), modelled from the specification (its
      source is not in the repository): the name and mobile inputs, an
      error flag, and a submit that calls [onRegister] only for a mobile
      passing [INDIAN_MOBILE_REGEX]; [reg_step] puts it in front of
      [App]'s page, [onRegister] being the [Register] event.

    Dependencies: [Types] and [Calendar] need only this file; [DateFns]
    reads strings into [Calendar]'s instants; [Ledger] uses all three;
    [Storage] uses [Types]; [App] composes [Ledger] and
    [Storage] the way [App.tsx] calls them, and its properties are
    proved against the [KVStoreLaws] interface of [Storage], so that
    every lawful store (the [gmap] instance among them) has them.  The
    store of strings is not lawful (a number read back is in lowest
    terms, not the rational that was written); [TextStore] and
    [Refinement] carry the theorems over to it through the abstraction
    [abs_store], which parses every string.  [Regex] uses [Types] only;
    [View] renders the state of [App] with the date and number
    formatting of [Calendar] and [JsonText]; [Liveness] runs [App]'s
    machine; [Dashboard] reads [App]'s state with [DateFns]'s
    [parseISO] and [View]'s month names; [Registration] drives [App]'s
    [handle].

    ** Numbers, dates, identifiers

    JavaScript numbers are modelled as exact rationals [Q]: every value
    the app reads is a decimal literal typed in a number field, and the
    model does not reproduce IEEE rounding of sums.  Instants are integer
    milliseconds since the epoch, as JavaScript's [Date] time values; the
    local time zone is a fixed offset in minutes (no daylight saving).
    Fractional seconds read by [parseISO] are exact rationals too: the
    double of [parseFloat] can round a fraction such as [.001] below
    its value, which truncation only shows on instants a few seconds
    after the epoch; the model does not reproduce it.
    [crypto.randomUUID] and the clock are inputs of the step relation:
    an event carries the identifier and the instant it observes.

    ** What the theorems show

    The properties are stated per component: the functional behaviour of
    [addExpense] on every field default, the threshold alert exactly when
    the total exceeds the limit, the retention filter's safety and
    idempotence, the storage interface laws and the save/load round trip,
    the invariants of every reachable application state (storage mirrors
    the state, categories are non-empty, identifiers stay distinct when
    the generator yields fresh ones), and the divergences between the
    code and its specification (negative amounts are accepted, malformed
    storage aborts the load instead of being ignored).

    The calendar theorems carry the ledger's date handling: the
    conversions between day numbers and civil dates are inverse on valid
    dates; [parseISO] reads back what [toISOString] prints; the date
    part of [toISOString] (the add form's default date) reads as local
    midnight of the UTC day; a date and time without a timezone (the
    shape an older client or a bill scanner may store) reads as local
    wall-clock time, and so does a bare date picked in the date input
    (local midnight); a date whose month or day does not exist is an
    Invalid Date, not rolled over; [subMonths t 2] lies at least 59
    days before [t].  The add form's default date is therefore read as
    the start of the local day except in the first minutes of the local
    day east of UTC, where it is the day before.
    The local readings assume an offset of less than a day (1440
    minutes), as every real one is: the intermediate [Date] of the local
    branch is then inside the clipping range.  From these the ledger shows that entries dated by the
    app itself survive the retention filter of the loads that follow
    within 57 days (form date) or 59 days (timestamp).

    The view: [enabled], the guard of the step relation, is exactly the
    set of events whose controls the rendered page offers; rendering
    throws exactly on the History tab of a ledger holding a date
    [parseISO] cannot read, which a bill scanner can deliver, so such a
    scanned expense blanks the page and is lost at the next load; the
    History list shows a form-dated expense under its UTC day but a
    date picked in the date input under exactly that date, rounds
    amounts to the nearest thousandth, groups the digits of the integer
    part the Indian way ([#,##,##0]: a first group of one or two digits,
    then groups of two, then the last three) without losing a digit,
    and prints a negative amount with two minus signs.

    The registration check: the executable [test] of a pattern is its
    reference semantics, and the hand-written matcher answers what the
    literal's [test] answers on every string; whatever is typed into the
    registration form, the page either stays as it was or registers a
    profile whose mobile passes the pattern, saved at once.  The alert's progress:
    rounds of positive expenses through the form raise the alert once
    their sum passes the limit.

    The text layer: the reader stops on every input with the fuel
    [2 * length + 2] and gives the same result with any larger fuel;
    the reader reads back the printer's output, numbers in lowest terms
    ([JSON_parse_text_stringify]); a page load after the save effect on
    strings restores the saved state; every run of the page on strings
    refines the run on JSON values, and on strings the page never
    crashes and its storage parses back to its state.

    The dashboard: the weekly chart always has the seven rows of
    [DAYS_OF_WEEK] in order and its amounts add up to the in-window
    part of the ledger; the monthly summary has each month once, covers
    every readable date and its totals add up to the dated part of the
    ledger; an [addExpense] grows exactly the row of the new record's
    weekday by its amount.  The bucket sums rest on one lemma
    ([reduce_sum_buckets]): summing the buckets of distinct keys that
    cover the list adds up its keyed part.

    ** Bounds and finite checks

    The day-count conversions repeat every 400 years (146097 days).
    Three facts about one cycle are checked by evaluation
    ([check_range]): the 400 year starts, the 366 days of a year and
    the 12 x 31 month-day pairs; everything else is proved by
    arithmetic, and carried to every era by the shift lemmas, so the
    round trips hold for every integer day and every year.  The ISO
    printer pads years to four digits, which is why the string round
    trips assume a year between 0 and 9999, the range in which
    [toISOString] prints four digits.  The rendering of numbers in the
    alert text searches at most 40 fractional digits (a decimal typed
    with more digits would be printed truncated, which no theorem
    relies on).  The JSON reader is a mutual recursion on fuel: each
    call of [parse_value], [parse_elements] or [parse_members] costs one
    unit and every nested call starts on a strictly shorter text, so
    [2 * length + 2] units are enough for any text ([parse_terminates]).
    The Indian grouping runs [group2] on the fuel of the number's digit
    count, more than the groups of two it can need ([group2_layout]).
    The strings of the model are byte strings: the reader rejects a
    [\u] escape above [00FF], which the printer never writes.

    ** Not modelled

    CSS classes, icons, animations and the style block; HTML constraint
    validation other than the [required] amount (the [step="0.01"]
    check, whose step base React moves with the input's value
    attribute); the markup of the registration form and of the
    [Dashboard] (their sources are not in the repository; their
    contracts are modelled from the specification).  The bill scanner's
    source is not in the repository either and its image processing is
    an external service: it is modelled only as a producer of partial
    expenses through [onExpenseExtracted], a failed scan producing no
    event.  The image editor is rendered without props (line 174) and
    exchanges no data with the page or the stores, so nothing of it
    beyond its tab can be modelled.  The time zone's daylight-saving
    rules (the offset is fixed), IEEE rounding of sums and of
    [parseFloat], and React's scheduling beyond the order of effects
    within one commit. *)

From stdpp Require Export base list strings gmap.
From Stdlib Require Export ZArith QArith Lqa.

Declare Scope spend_scope.
Delimit Scope spend_scope with spend.
Open Scope spend_scope.

Create HintDb spend.
Create Rewrite HintDb spend_rw.

(** ** JavaScript truthiness and the [||] default

    [x || d] evaluates to [x] when [x] is truthy and to [d] otherwise.
    A field of a [Partial<T>] is [undefined] (here [None]) or a value;
    [undefined], [""] and [0] are falsy. *)

Class JsTruthy (A : Type) := truthy : A -> bool.

#[export] Instance string_truthy : JsTruthy string :=
  fun s => negb (String.eqb s "").

#[export] Instance number_truthy : JsTruthy Q :=
  fun q => negb (Qeq_bool q 0).

Definition js_or {A} `{JsTruthy A} (x : option A) (d : A) : A :=
  match x with
  | Some v => if truthy v then v else d
  | None => d
  end.

Notation "x '||?' d" := (js_or x d) (at level 50, left associativity) : spend_scope.

(** ** Sums computed with [Array.prototype.reduce]

    [xs.reduce((sum, x) => sum + f(x), 0)] folds from the left with the
    accumulator as the first operand. *)

Definition reduce_sum {A} (f : A -> Q) (xs : list A) : Q :=
  fold_left (fun acc x => acc + f x) xs 0.

(** [Qlt] as the boolean comparison JavaScript's [>] computes. *)
Definition js_gt (a b : Q) : bool := negb (Qle_bool a b).

(** ** Generic lemmas shared by the components *)

Lemma js_or_some {A} `{JsTruthy A} (v d : A) :
  truthy v = true -> Some v ||? d = v.
Proof. intros Hv. unfold js_or. by rewrite Hv. Qed.

Lemma js_or_falsy {A} `{JsTruthy A} (v d : A) :
  truthy v = false -> Some v ||? d = d.
Proof. intros Hv. unfold js_or. by rewrite Hv. Qed.

Lemma js_or_none {A} `{JsTruthy A} (d : A) : None ||? d = d.
Proof. reflexivity. Qed.

Lemma string_truthy_iff (s : string) : truthy s = true <-> s <> "".
Proof.
  unfold truthy, string_truthy. rewrite negb_true_iff, String.eqb_neq. done.
Qed.

(** The result of a string default is truthy when the default is. *)
Lemma js_or_string_truthy (x : option string) (d : string) :
  d <> "" -> x ||? d <> "".
Proof.
  intros Hd. destruct x as [v|]; [|done]. unfold js_or.
  destruct (truthy v) eqn:Hv; [by apply string_truthy_iff|done].
Qed.

(** The number default agrees with the value up to [Qeq]: a falsy number
    is [0] already. *)
Lemma js_or_number_eq (x : option Q) :
  (x ||? 0) == default 0 x.
Proof.
  destruct x as [q|]; simpl; [|reflexivity]. unfold js_or, truthy, number_truthy.
  destruct (Qeq_bool q 0) eqn:E; simpl; [|reflexivity].
  apply Qeq_bool_iff in E. by rewrite E.
Qed.

Lemma fold_left_sum_acc {A} (f : A -> Q) (xs : list A) (a : Q) :
  fold_left (fun acc x => acc + f x) xs a == a + reduce_sum f xs.
Proof.
  unfold reduce_sum. revert a. induction xs as [|x xs IH]; intros a; simpl.
  - lra.
  - rewrite (IH (a + f x)), (IH (0 + f x)). lra.
Qed.

Lemma reduce_sum_nil {A} (f : A -> Q) : reduce_sum f [] = 0.
Proof. reflexivity. Qed.

Lemma reduce_sum_cons {A} (f : A -> Q) (x : A) (xs : list A) :
  reduce_sum f (x :: xs) == f x + reduce_sum f xs.
Proof. unfold reduce_sum at 1. simpl. rewrite fold_left_sum_acc. lra. Qed.

Lemma reduce_sum_app {A} (f : A -> Q) (xs ys : list A) :
  reduce_sum f (xs ++ ys) == reduce_sum f xs + reduce_sum f ys.
Proof.
  unfold reduce_sum at 1. rewrite fold_left_app.
  rewrite fold_left_sum_acc. reflexivity.
Qed.

Lemma reduce_sum_nonneg {A} (f : A -> Q) (xs : list A) :
  Forall (fun x => 0 <= f x) xs -> 0 <= reduce_sum f xs.
Proof.
  induction 1 as [|x xs Hx _ IH]; [apply Qle_refl|].
  rewrite reduce_sum_cons. lra.
Qed.

Lemma reduce_sum_filter_le {A} (f : A -> Q) (P : A -> bool) (xs : list A) :
  Forall (fun x => 0 <= f x) xs ->
  reduce_sum f (List.filter P xs) <= reduce_sum f xs.
Proof.
  induction 1 as [|x xs Hx _ IH]; simpl; [apply Qle_refl|].
  destruct (P x); rewrite !reduce_sum_cons; lra.
Qed.

(** stdpp makes [String.append] [simpl never]; its equations. *)
Lemma string_app_nil_l (s : string) : "" +:+ s = s.
Proof. reflexivity. Qed.

Lemma string_app_cons (c : Ascii.ascii) (s1 s2 : string) :
  String c s1 +:+ s2 = String c (s1 +:+ s2).
Proof. reflexivity. Qed.

Lemma string_app_assoc (s1 s2 s3 : string) : (s1 +:+ s2) +:+ s3 = s1 +:+ (s2 +:+ s3).
Proof. induction s1 as [|c s1 IH]; [done|]. rewrite !string_app_cons. congruence. Qed.

Lemma string_app_nil_r (s : string) : s +:+ "" = s.
Proof. induction s as [|c s IH]; [done|]. rewrite string_app_cons. congruence. Qed.

Lemma string_length_cons (c : Ascii.ascii) (s : string) :
  String.length (String c s) = S (String.length s).
Proof. reflexivity. Qed.

Lemma string_length_app (s1 s2 : string) :
  String.length (s1 +:+ s2) = (String.length s1 + String.length s2)%nat.
Proof. induction s1 as [|c s1 IH]; [done|]. rewrite string_app_cons, !string_length_cons. lia. Qed.

#[export] Hint Resolve js_or_string_truthy reduce_sum_nonneg : spend.
#[export] Hint Rewrite string_length_cons string_length_app : spend_rw.
#[export] Hint Rewrite @reduce_sum_cons @reduce_sum_app : spend_rw.

Lemma js_gt_iff (a b : Q) : js_gt a b = true <-> b < a.
Proof.
  unfold js_gt. rewrite negb_true_iff.
  split; intros H.
  - apply Qnot_le_lt. intros Hle. apply Qle_bool_iff in Hle. congruence.
  - destruct (Qle_bool a b) eqn:E; [|done]. apply Qle_bool_iff in E. lra.
Qed.

#[export] Instance js_gt_proper : Proper (Qeq ==> Qeq ==> eq) js_gt.
Proof.
  intros a a' Ha b b' Hb.
  destruct (js_gt a b) eqn:E1, (js_gt a' b') eqn:E2; try done; exfalso.
  - apply js_gt_iff in E1.
    assert (Hf : js_gt a' b' = true) by (apply js_gt_iff; lra). congruence.
  - apply js_gt_iff in E2.
    assert (Hf : js_gt a b = true) by (apply js_gt_iff; lra). congruence.
Qed.

(** Case analysis on a boolean comparison in the goal. *)
Ltac case_js_gt :=
  match goal with
  | |- context [js_gt ?a ?b] =>
      let E := fresh "Egt" in destruct (js_gt a b) eqn:E;
      [apply js_gt_iff in E | ]
  end.

(** Linear integer arithmetic with division and modulo by constants. *)
Ltac zlia := Z.div_mod_to_equations; lia.

(** [lia] on string lengths: [String.length] of a cons or an append
    first. *)
Ltac slia := change (String.length EmptyString) with 0%nat in *;
  rewrite ?string_length_cons, ?string_length_app in *; lia.
