(* ===== verification/Types.v ===== *)
(** * Types: the data of [src/types.ts] and the constants of [src/constants.ts]

    Interfaces become records with the same field names, the [AppTab]
    enum an inductive type, [Partial<Expense>] a record of options, and
    the regular expression [INDIAN_MOBILE_REGEX] a boolean matcher that
    reads the pattern [^[6-9]\d{9}$] character by character. *)

From S2P Require Import Prelude.
From Stdlib Require Import Ascii.

Record UserProfile := {
  name : string;
  mobile : string;
}.

Record Expense := {
  id : string;
  amount : Q;
  category : string;
  date : string;
  description : string;
}.

(** The two shapes the [Dashboard] component works on; its source is
    not in the repository, and nothing in [App.tsx] builds them. *)
Record WeeklyData := {
  day : string;
  wd_amount : Q;           (** [amount] *)
}.

Record MonthlySummary := {
  month : string;
  total : Q;
  savings : Q;
}.

Record AppSettings := {
  weeklyLimit : Q;
  phoneNumber : string;
}.

Inductive AppTab := DASHBOARD | HISTORY | SCANNER | EDITOR | SETTINGS.

(** [Partial<Expense>]: every field may be [undefined]. *)
Record PartialExpense := {
  p_id : option string;
  p_amount : option Q;
  p_category : option string;
  p_date : option string;
  p_description : option string;
}.

#[export] Instance Q_eq_dec : EqDecision Q.
Proof. solve_decision. Defined.
#[export] Instance UserProfile_eq_dec : EqDecision UserProfile.
Proof. solve_decision. Defined.
#[export] Instance Expense_eq_dec : EqDecision Expense.
Proof. solve_decision. Defined.
#[export] Instance AppSettings_eq_dec : EqDecision AppSettings.
Proof. solve_decision. Defined.
#[export] Instance AppTab_eq_dec : EqDecision AppTab.
Proof. solve_decision. Defined.
#[export] Instance PartialExpense_eq_dec : EqDecision PartialExpense.
Proof. solve_decision. Defined.

(** ** Constants *)

Definition DAYS_OF_WEEK : list string :=
  ["Monday"; "Tuesday"; "Wednesday"; "Thursday"; "Friday"; "Saturday"; "Sunday"].

Definition CATEGORIES : list string :=
  ["Food"; "Transport"; "Utilities"; "Shopping"; "Entertainment"; "Health"; "Other"].

Definition STORAGE_KEY : string := "spendwise_data_v1".
Definition SETTINGS_KEY : string := "spendwise_settings_v1".
Definition USER_KEY : string := "spendwise_user_v1".

(** [/^[6-9]\d{9}$/]: without the [m] flag, [^] and [$] anchor at the
    ends of the input; [\d] is [[0-9]]. *)
Definition is_digit (c : ascii) : bool :=
  let n := nat_of_ascii c in (48 <=? n)%nat && (n <=? 57)%nat.

Definition is_6_to_9 (c : ascii) : bool :=
  let n := nat_of_ascii c in (54 <=? n)%nat && (n <=? 57)%nat.

Fixpoint digits_exactly (k : nat) (s : string) : bool :=
  match k, s with
  | O, EmptyString => true
  | S k', String c rest => is_digit c && digits_exactly k' rest
  | _, _ => false
  end.

Definition INDIAN_MOBILE_REGEX (s : string) : bool :=
  match s with
  | String c rest => is_6_to_9 c && digits_exactly 9 rest
  | EmptyString => false
  end.

(** ** Lemmas *)

Lemma storage_keys_distinct :
  STORAGE_KEY <> SETTINGS_KEY /\ STORAGE_KEY <> USER_KEY /\ SETTINGS_KEY <> USER_KEY.
Proof. repeat split; discriminate. Qed.

Lemma digits_exactly_length (k : nat) (s : string) :
  digits_exactly k s = true -> String.length s = k.
Proof.
  revert s. induction k as [|k IH]; intros [|c s]; simpl; try done.
  intros [_ H]%andb_prop. by rewrite (IH s H).
Qed.

(** The pattern accepts exactly ten-character strings. *)
Lemma INDIAN_MOBILE_REGEX_length (s : string) :
  INDIAN_MOBILE_REGEX s = true -> String.length s = 10%nat.
Proof.
  destruct s as [|c s]; [done|]. unfold INDIAN_MOBILE_REGEX.
  intros [_ H]%andb_prop. simpl. by rewrite (digits_exactly_length _ _ H).
Qed.
