(* ===== verification/Regex.v ===== *)
(** * Regex: [INDIAN_MOBILE_REGEX] as ECMAScript reads it

    [src/constants.ts] declares [INDIAN_MOBILE_REGEX = /^[6-9]\d{9}$/],
    which the registration form tests against the mobile number
    ([Types.INDIAN_MOBILE_REGEX] is the boolean matcher the development
    uses).  This file gives the literal its meaning: the fragment of
    ECMAScript patterns it is written in (character classes, [^], [$],
    concatenation, a counted repetition [{n}], alternation) as an
    inductive syntax; a reference semantics [match_at], the relation
    saying that the pattern matches the input between two positions;
    an executable matcher [matchb] computing the end positions of the
    matches from a start position; and [RegExp.prototype.test], which
    tries every start position (without the [m] flag [^] and [$] match
    at the ends of the input only).

    The theorems: the matcher computes exactly the end positions the
    reference semantics allows, and the hand-written matcher of
    [Types.v] answers what [test] answers on the literal, on every
    string. *)

From S2P Require Import Prelude Types.
From Stdlib Require Import Ascii.

(** ** Patterns *)

Inductive regex :=
  | RClass (ranges : list (ascii * ascii))   (** [[a-b...]] and [\d] *)
  | RBegin                                    (** [^] *)
  | REnd                                      (** [$] *)
  | RSeq (r1 r2 : regex)
  | RAlt (r1 r2 : regex)                      (** [r1|r2] *)
  | RRepeat (n : nat) (r : regex).            (** [r{n}] *)

Definition in_range (c : ascii) (rg : ascii * ascii) : bool :=
  (nat_of_ascii rg.1 <=? nat_of_ascii c)%nat && (nat_of_ascii c <=? nat_of_ascii rg.2)%nat.

Definition in_class (ranges : list (ascii * ascii)) (c : ascii) : bool :=
  existsb (in_range c) ranges.

(** [\d] is [[0-9]]. *)
Definition digit_class : regex := RClass [("0"%char, "9"%char)].

(** [/^[6-9]\d{9}$/] *)
Definition mobile_regex : regex :=
  RSeq RBegin (RSeq (RClass [("6"%char, "9"%char)]) (RSeq (RRepeat 9 digit_class) REnd)).

(** ** Reference semantics: a match of [r] from position [i] to [j] *)

Inductive match_at (inp : string) : regex -> nat -> nat -> Prop :=
  | match_class ranges i c :
      String.get i inp = Some c -> in_class ranges c = true ->
      match_at inp (RClass ranges) i (S i)
  | match_begin : match_at inp RBegin 0 0
  | match_end : match_at inp REnd (String.length inp) (String.length inp)
  | match_seq r1 r2 i k j :
      match_at inp r1 i k -> match_at inp r2 k j -> match_at inp (RSeq r1 r2) i j
  | match_alt_l r1 r2 i j : match_at inp r1 i j -> match_at inp (RAlt r1 r2) i j
  | match_alt_r r1 r2 i j : match_at inp r2 i j -> match_at inp (RAlt r1 r2) i j
  | match_repeat_O r i : match_at inp (RRepeat 0 r) i i
  | match_repeat_S n r i k j :
      match_at inp r i k -> match_at inp (RRepeat n r) k j -> match_at inp (RRepeat (S n) r) i j.

(** [test] finds a match starting at some position of the input. *)
Definition regex_test_spec (r : regex) (inp : string) : Prop :=
  exists i j, match_at inp r i j.

(** ** The matcher: the end positions of the matches from [i] *)

(** [r{n}] from [i], given the end positions [m] of [r] from each
    position. *)
Fixpoint repeat_ends (m : nat -> list nat) (n i : nat) : list nat :=
  match n with
  | O => [i]
  | S n' => m i ≫= repeat_ends m n'
  end.

Fixpoint matchb (r : regex) (inp : string) (i : nat) : list nat :=
  match r with
  | RClass ranges =>
      match String.get i inp with
      | Some c => if in_class ranges c then [S i] else []
      | None => []
      end
  | RBegin => if (i =? 0)%nat then [i] else []
  | REnd => if (i =? String.length inp)%nat then [i] else []
  | RSeq r1 r2 => matchb r1 inp i ≫= matchb r2 inp
  | RAlt r1 r2 => matchb r1 inp i ++ matchb r2 inp i
  | RRepeat n r' => repeat_ends (matchb r' inp) n i
  end.

(** The characters at [i .. i + k - 1] all exist and are in the class. *)
Fixpoint class_run (ranges : list (ascii * ascii)) (inp : string) (i k : nat) : bool :=
  match k with
  | O => true
  | S k' =>
      match String.get i inp with
      | Some c => in_class ranges c && class_run ranges inp (S i) k'
      | None => false
      end
  end.

(** [RegExp.prototype.test]: some start position [0 .. length] gives a
    match. *)
Definition regex_test (r : regex) (inp : string) : bool :=
  existsb (fun i => negb (bool_decide (matchb r inp i = []))) (seq 0 (S (String.length inp))).

(** ** The matcher computes the reference semantics *)

Lemma repeat_ends_spec (inp : string) (r : regex) (m : nat -> list nat)
    (Hm : forall i j, j ∈ m i <-> match_at inp r i j) (n i j : nat) :
  j ∈ repeat_ends m n i <-> match_at inp (RRepeat n r) i j.
Proof.
  revert i. induction n as [|n IH]; intros i; cbn [repeat_ends].
  - rewrite list_elem_of_singleton. split; [intros ->; constructor|].
    by inversion 1.
  - rewrite list_elem_of_bind. split.
    + intros (k & Hj & Hk). apply IH in Hj. apply Hm in Hk. by econstructor.
    + inversion 1; subst. exists k. rewrite IH, Hm. auto.
Qed.

Lemma matchb_spec (r : regex) (inp : string) (i j : nat) :
  j ∈ matchb r inp i <-> match_at inp r i j.
Proof.
  revert i j. induction r as [rg| | |r1 IH1 r2 IH2|r1 IH1 r2 IH2|n r IH]; intros i j; cbn [matchb].
  - destruct (String.get i inp) as [c|] eqn:E; [destruct (in_class rg c) eqn:Ec|].
    + rewrite list_elem_of_singleton. split; [intros ->; by econstructor|].
      by inversion 1.
    + split; [by intros ?%elem_of_nil|]. inversion 1; congruence.
    + split; [by intros ?%elem_of_nil|]. inversion 1; congruence.
  - destruct (Nat.eqb_spec i 0) as [->|Hi].
    + rewrite list_elem_of_singleton. split; [intros ->; constructor|]. by inversion 1.
    + split; [by intros ?%elem_of_nil|]. by inversion 1.
  - destruct (Nat.eqb_spec i (String.length inp)) as [->|Hi].
    + rewrite list_elem_of_singleton. split; [intros ->; constructor|]. by inversion 1.
    + split; [by intros ?%elem_of_nil|]. by inversion 1.
  - rewrite list_elem_of_bind. split.
    + intros (k & Hj & Hk). apply IH2 in Hj. apply IH1 in Hk. by econstructor.
    + inversion 1; subst. exists k. rewrite IH1, IH2. auto.
  - rewrite elem_of_app, IH1, IH2. split; [intros [?|?]; by constructor|].
    inversion 1; auto.
  - by apply repeat_ends_spec.
Qed.

(** The executable [test] holds exactly when the reference
    semantics has a match of the pattern from some start position up
    to the length of the input, for every pattern of the fragment. *)
Theorem regex_test_iff (r : regex) (inp : string) :
  regex_test r inp = true <->
  exists i j, (i <= String.length inp)%nat /\ match_at inp r i j.
Proof.
  unfold regex_test. rewrite existsb_exists. split.
  - intros (i & Hi & Hne). apply in_seq in Hi.
    destruct (matchb r inp i) as [|j l] eqn:E; [done|].
    exists i, j. split; [lia|]. apply matchb_spec. rewrite E. left.
  - intros (i & j & Hi & Hm). exists i. split; [apply in_seq; lia|].
    apply matchb_spec in Hm. destruct (matchb r inp i); [by apply elem_of_nil in Hm|done].
Qed.

(** ** The literal [/^[6-9]\d{9}$/] *)

Lemma repeat_ends_class (rg : list (ascii * ascii)) (inp : string) (k i : nat) :
  repeat_ends (matchb (RClass rg) inp) k i = if class_run rg inp i k then [(i + k)%nat] else [].
Proof.
  revert i. induction k as [|k IH]; intros i; cbn [repeat_ends class_run matchb].
  - by rewrite Nat.add_0_r.
  - destruct (String.get i inp); [|done]. destruct (in_class rg a); [|done].
    rewrite bind_singleton, IH. cbn [andb]. by replace (S i + k)%nat with (i + S k)%nat by lia.
Qed.

Lemma class_run_shift (rg : list (ascii * ascii)) (c : ascii) (s : string) (i k : nat) :
  class_run rg (String c s) (S i) k = class_run rg s i k.
Proof. revert i. induction k as [|k IH]; intros i; [done|]. cbn. by rewrite IH. Qed.

Lemma digits_exactly_class_run (k : nat) (s : string) :
  digits_exactly k s = class_run [("0"%char, "9"%char)] s 0 k && (String.length s =? k)%nat.
Proof.
  revert s. induction k as [|k IH]; intros [|c s]; cbn; try done.
  rewrite class_run_shift, IH. unfold in_class, in_range, is_digit. cbn.
  by rewrite orb_false_r, andb_assoc.
Qed.

Lemma in_class_6_to_9 (c : ascii) : in_class [("6"%char, "9"%char)] c = is_6_to_9 c.
Proof. unfold in_class, in_range, is_6_to_9. cbn. by rewrite orb_false_r. Qed.

Lemma matchb_begin_S (r : regex) (inp : string) (i : nat) :
  matchb (RSeq RBegin r) inp (S i) = [].
Proof. reflexivity. Qed.

Lemma existsb_begin_late (r : regex) (inp : string) (a n : nat) :
  existsb (fun i => negb (bool_decide (matchb (RSeq RBegin r) inp i = []))) (seq (S a) n) = false.
Proof. revert a. induction n as [|n IH]; intros a; [done|]. cbn [seq existsb]. by rewrite IH. Qed.

(** The boolean matcher of [Types.v] answers exactly what
    [INDIAN_MOBILE_REGEX.test] answers, on every string. *)
Theorem INDIAN_MOBILE_REGEX_test (s : string) :
  INDIAN_MOBILE_REGEX s = regex_test mobile_regex s.
Proof.
  unfold regex_test, mobile_regex. cbn [seq existsb]. rewrite existsb_begin_late, orb_false_r.
  cbn [matchb Nat.eqb]. rewrite bind_singleton.
  destruct s as [|c rest]; [done|]. cbn [String.get matchb].
  rewrite in_class_6_to_9. unfold INDIAN_MOBILE_REGEX. destruct (is_6_to_9 c); [|done].
  rewrite bind_singleton. unfold digit_class.
  rewrite repeat_ends_class, class_run_shift, digits_exactly_class_run.
  destruct (class_run _ rest 0 9); [|done]. rewrite bind_singleton.
  replace (1 + 9 =? String.length (String c rest))%nat with (String.length rest =? 9)%nat.
  2: { rewrite (Nat.eqb_sym (String.length rest) 9). reflexivity. }
  by destruct (String.length rest =? 9)%nat.
Qed.
