(* ===== verification/Calendar.v ===== *)
(** * Calendar: the date arithmetic of [src/App.tsx]

    The load effect keeps the expenses with
    [isAfter(parseISO(e.date), subMonths(new Date(), 2))], and
    [addExpense] and the add form take their default dates from
    [new Date().toISOString()].  This file gives those library calls
    their meaning on JavaScript time values: an instant is an integer
    number of milliseconds since 1970-01-01T00:00:00Z, and local time is
    UTC shifted by a fixed offset [tzo] in minutes east of Greenwich (the
    negation of [Date.prototype.getTimezoneOffset]; daylight saving is not
    modelled).

    Civil dates are converted with the proleptic Gregorian day-count
    algorithms ([days_from_civil], [civil_from_days]), which is the
    calendar ECMAScript specifies for [Date].  [toISOString] is printed
    with zero-padded fields; the reader of ISO strings, date-fns's
    [parseISO], is modelled in [DateFns.v] on top of this file.

    The theorems: the two day-count conversions are inverse on valid
    dates (proved from three finite checks over one 400-year cycle and
    arithmetic); [subMonths t 2] is at least 59 days before [t]. *)

From S2P Require Import Prelude Types.
From Stdlib Require Import Ascii ZArith.

Local Open Scope Z_scope.

Definition ms_per_day : Z := 86400000.
Definition ms_per_minute : Z := 60000.

Definition is_leap_year (y : Z) : bool :=
  ((y mod 4 =? 0) && negb (y mod 100 =? 0)) || (y mod 400 =? 0).

Definition days_in_month (y m : Z) : Z :=
  if m =? 2 then (if is_leap_year y then 29 else 28)
  else if (m =? 4) || (m =? 6) || (m =? 9) || (m =? 11) then 30
  else 31.

(** The day-count algorithms count from 0000-03-01 in eras of 400 years
    (146097 days); inside an era a year [yoe] runs from March 1 of year
    [yoe] to the end of February of year [yoe + 1], and its days are
    numbered [doy] from 0 (March 1). *)

(** First day of year [yoe] of an era. *)
Definition year_start (yoe : Z) : Z := 365 * yoe + yoe / 4 - yoe / 100.

(** The year of an era containing day [doe] of the era. *)
Definition yoe_of (doe : Z) : Z := (doe - doe / 1460 + doe / 36524 - doe / 146096) / 365.

(** Day of the March-based year of month [m], day [d]. *)
Definition doy_of_md (m d : Z) : Z := (153 * ((m + 9) mod 12) + 2) / 5 + d - 1.

(** Calendar month of the March-based month index [mp]. *)
Definition month_of_mp (mp : Z) : Z := if mp <? 10 then mp + 3 else mp - 9.

(** Days since 1970-01-01 of the civil date [y-m-d], [1 <= m <= 12]. *)
Definition days_from_civil (y m d : Z) : Z :=
  let y' := if m <=? 2 then y - 1 else y in
  let era := y' / 400 in
  let yoe := y' - era * 400 in
  era * 146097 + (year_start yoe + doy_of_md m d) - 719468.

(** The civil date of a day number, inverse of [days_from_civil]. *)
Definition civil_from_days (z : Z) : Z * Z * Z :=
  let z' := z + 719468 in
  let era := z' / 146097 in
  let doe := z' - era * 146097 in
  let yoe := yoe_of doe in
  let doy := doe - year_start yoe in
  let mp := (5 * doy + 2) / 153 in
  let d := doy - (153 * mp + 2) / 5 + 1 in
  let m := month_of_mp mp in
  let y := yoe + era * 400 in
  (if m <=? 2 then y + 1 else y, m, d).

(** A broken-down date and time: [c_ms] is the time of day in ms. *)
Record Civil := {
  c_year : Z;
  c_month : Z;
  c_day : Z;
  c_ms : Z;
}.

Definition civil_of_ms (t : Z) : Civil :=
  let '(y, m, d) := civil_from_days (t / ms_per_day) in
  {| c_year := y; c_month := m; c_day := d; c_ms := t mod ms_per_day |}.

Definition ms_of_civil (c : Civil) : Z :=
  days_from_civil (c_year c) (c_month c) (c_day c) * ms_per_day + c_ms c.

Definition local_civil (tzo t : Z) : Civil := civil_of_ms (t + tzo * ms_per_minute).

Definition instant_of_local (tzo : Z) (c : Civil) : Z := ms_of_civil c - tzo * ms_per_minute.

(** ** date-fns [addMonths] and [subMonths]

    [addMonths] moves the local date by [amount] months, keeps the local
    time of day, and clamps the day to the length of the target month
    ([setMonth(month + amount + 1, 0)] gives the last day of the target
    month, used when the original day does not fit). *)
Definition addMonths (tzo t amount : Z) : Z :=
  if amount =? 0 then t else
  let c := local_civil tzo t in
  let idx := c_year c * 12 + (c_month c - 1) + amount in
  let y' := idx / 12 in
  let m' := idx mod 12 + 1 in
  instant_of_local tzo
    {| c_year := y'; c_month := m';
       c_day := Z.min (c_day c) (days_in_month y' m'); c_ms := c_ms c |}.

Definition subMonths (tzo t amount : Z) : Z := addMonths tzo t (- amount).

(** [isAfter(date, dateToCompare)]: [date.getTime() > dateToCompare.getTime()];
    an invalid date compares [NaN], which is never greater. *)
Definition isAfter (a : option Z) (b : Z) : bool :=
  match a with
  | Some x => b <? x
  | None => false
  end.

(** ** Strings: [toISOString] and its date part *)

Definition digit_char (n : Z) : ascii := ascii_of_nat (48 + Z.to_nat n).

(** [k]-digit zero-padded decimal of [0 <= n < 10^k]. *)
Fixpoint pad_digits (k : nat) (n : Z) : string :=
  match k with
  | O => EmptyString
  | S k' => pad_digits k' (n / 10) +:+ String (digit_char (n mod 10)) EmptyString
  end.

(** [Date.prototype.toISOString] for years 0 to 9999. *)
Definition toISOString (t : Z) : string :=
  let c := civil_of_ms t in
  let ms := c_ms c in
  pad_digits 4 (c_year c) +:+ "-" +:+ pad_digits 2 (c_month c) +:+ "-" +:+
  pad_digits 2 (c_day c) +:+ "T" +:+ pad_digits 2 (ms / 3600000) +:+ ":" +:+
  pad_digits 2 (ms / 60000 mod 60) +:+ ":" +:+ pad_digits 2 (ms / 1000 mod 60) +:+
  "." +:+ pad_digits 3 (ms mod 1000) +:+ "Z".

(** [s.split('T')[0]]: the prefix before the first ["T"]. *)
Fixpoint split_T_first (s : string) : string :=
  match s with
  | EmptyString => EmptyString
  | String c rest => if Ascii.eqb c "T"%char then EmptyString else String c (split_T_first rest)
  end.

Definition digit_val (c : ascii) : option Z :=
  if is_digit c then Some (Z.of_nat (nat_of_ascii c) - 48) else None.

Definition expect (c : ascii) (s : string) : option string :=
  match s with
  | String c' rest => if Ascii.eqb c c' then Some rest else None
  | EmptyString => None
  end.

(** date-fns [validateDate] and [validateTime]. *)
Definition valid_date (y m d : Z) : bool :=
  (1 <=? m) && (m <=? 12) && (1 <=? d) && (d <=? days_in_month y m).

(** The day number of the first day of the month with index [idx]
    (year [idx / 12], month [idx mod 12 + 1]), the index [addMonths]
    computes. *)
Definition month_start (idx : Z) : Z := days_from_civil (idx / 12) (idx mod 12 + 1) 1.

(** ** Exhaustive checks over one 400-year cycle

    The Gregorian calendar repeats every 400 years, which are 146097
    days; the round trips between day numbers and civil dates are
    checked on one cycle by evaluation and carried to every cycle by the
    shift lemmas below. *)

Fixpoint check_range (fuel : nat) (k : Z) (f : Z -> bool) : bool :=
  match fuel with
  | O => true
  | S fuel' => f k && check_range fuel' (k + 1) f
  end.

(** The end (exclusive) of year [yoe] of an era: the last year of an
    era ends with the 29 February of a year divisible by 400. *)
Definition year_end (yoe : Z) : Z := if yoe =? 399 then 146097 else year_start (yoe + 1).

Definition year_ok (yoe : Z) : bool :=
  (yoe_of (year_start yoe) =? yoe) && (yoe_of (year_end yoe - 1) =? yoe) &&
  (year_end yoe - year_start yoe =? if is_leap_year (yoe + 1) then 366 else 365).

Definition doy_ok (doy : Z) : bool :=
  let mp := (5 * doy + 2) / 153 in
  let d := doy - (153 * mp + 2) / 5 + 1 in
  let m := month_of_mp mp in
  (0 <=? mp) && (mp <=? 11) && (1 <=? d) &&
  (if doy =? 365 then (m =? 2) && (d =? 29) else d <=? days_in_month 2001 m).

Definition md_ok (m d : Z) : bool :=
  implb (d <=? days_in_month 2000 m)
    (let doy := doy_of_md m d in
     (0 <=? doy) && (doy <=? 365) && implb (doy =? 365) ((m =? 2) && (d =? 29)) &&
     ((5 * doy + 2) / 153 =? (m + 9) mod 12)).

(** ** Lemmas *)

Lemma days_in_month_bounds (y m : Z) : 28 <= days_in_month y m <= 31.
Proof.
  unfold days_in_month.
  destruct (m =? 2), (is_leap_year y); simpl; try lia;
    destruct ((m =? 4) || (m =? 6) || (m =? 9) || (m =? 11)); lia.
Qed.

Lemma isAfter_true (a : option Z) (b : Z) :
  isAfter a b = true <-> exists x, a = Some x /\ b < x.
Proof.
  destruct a as [x|]; simpl; split.
  - intros H%Z.ltb_lt. eauto.
  - intros (x' & [= <-] & H). by apply Z.ltb_lt.
  - done.
  - by intros (? & ? & _).
Qed.

Lemma check_range_spec (fuel : nat) (k : Z) (f : Z -> bool) :
  check_range fuel k f = true -> forall j, k <= j < k + Z.of_nat fuel -> f j = true.
Proof.
  revert k. induction fuel as [|fuel IH]; intros k Hc j Hj; simpl in *; [lia|].
  apply andb_prop in Hc as [Hk Hrest].
  destruct (Z.eq_dec j k) as [->|Hne]; [done|]. apply (IH (k + 1)); [done|lia].
Qed.

Lemma years_all : check_range 400 0 year_ok = true.
Proof. vm_compute. reflexivity. Qed.

Lemma doys_all : check_range 366 0 doy_ok = true.
Proof. vm_compute. reflexivity. Qed.

Lemma mds_all : check_range 12 1 (fun m => check_range 31 1 (md_ok m)) = true.
Proof. vm_compute. reflexivity. Qed.

(** *** Monotonicity of the year formula on one era *)

Lemma div_succ_bounds (x k : Z) : 0 < k -> 0 <= x -> x / k <= (x + 1) / k <= x / k + 1.
Proof.
  intros Hk Hx. split; [apply Z.div_le_mono; lia|].
  pose proof (Z.div_mod x k ltac:(lia)). pose proof (Z.div_mod (x + 1) k ltac:(lia)).
  pose proof (Z.mod_pos_bound x k Hk). pose proof (Z.mod_pos_bound (x + 1) k Hk). nia.
Qed.

Lemma yoe_num_step (x : Z) : 0 <= x -> x + 1 <= 146096 ->
  x - x / 1460 + x / 36524 - x / 146096 <=
  (x + 1) - (x + 1) / 1460 + (x + 1) / 36524 - (x + 1) / 146096.
Proof.
  intros Hx Hy. destruct (Z.eq_dec (x + 1) 146096) as [E|E].
  - replace x with 146095 by lia. compute. discriminate.
  - assert ((x + 1) / 146096 = x / 146096) by (rewrite !Z.div_small; lia).
    pose proof (div_succ_bounds x 1460 ltac:(lia) Hx).
    pose proof (div_succ_bounds x 36524 ltac:(lia) Hx). lia.
Qed.

Lemma yoe_of_mono (x y : Z) : 0 <= x <= y -> y <= 146096 -> yoe_of x <= yoe_of y.
Proof.
  intros [Hx Hxy] Hy. unfold yoe_of. apply Z.div_le_mono; [lia|].
  replace y with (x + Z.of_nat (Z.to_nat (y - x))) by lia.
  assert (Hn : x + Z.of_nat (Z.to_nat (y - x)) <= 146096) by lia. revert Hn.
  induction (Z.to_nat (y - x)) as [|n IH]; intros Hn; [rewrite Z.add_0_r; lia|].
  rewrite Nat2Z.inj_succ. replace (x + Z.succ (Z.of_nat n)) with (x + Z.of_nat n + 1) by lia.
  eapply Z.le_trans; [apply IH; lia|apply yoe_num_step; lia].
Qed.

(** *** The years of an era *)

Lemma year_ok_spec (k : Z) : 0 <= k < 400 ->
  yoe_of (year_start k) = k /\ yoe_of (year_end k - 1) = k /\
  year_end k - year_start k = (if is_leap_year (k + 1) then 366 else 365).
Proof.
  intros Hk. pose proof (check_range_spec _ _ _ years_all k ltac:(simpl; lia)) as H.
  unfold year_ok in H. apply andb_prop in H as [H H3]. apply andb_prop in H as [H1 H2].
  apply Z.eqb_eq in H1, H2, H3. done.
Qed.

Lemma year_start_bounds (k : Z) : 0 <= k <= 400 -> 0 <= year_start k <= 146096.
Proof.
  unfold year_start. zlia.
Qed.

Lemma year_end_bounds (k : Z) : 0 <= k < 400 -> year_start k < year_end k <= 146097.
Proof.
  intros Hk. destruct (year_ok_spec k Hk) as (_ & _ & Hlen).
  unfold year_end in *. destruct (k =? 399) eqn:E; [|pose proof (year_start_bounds (k + 1))];
    destruct (is_leap_year (k + 1)); lia.
Qed.

Lemma yoe_of_in_year (k doe : Z) : 0 <= k < 400 ->
  year_start k <= doe < year_end k -> yoe_of doe = k.
Proof.
  intros Hk Hd. destruct (year_ok_spec k Hk) as (H1 & H2 & _).
  pose proof (year_start_bounds k ltac:(lia)). pose proof (year_end_bounds k Hk).
  apply Z.le_antisymm.
  - pose proof (yoe_of_mono doe (year_end k - 1) ltac:(lia) ltac:(lia)). lia.
  - pose proof (yoe_of_mono (year_start k) doe ltac:(lia) ltac:(lia)). lia.
Qed.

Lemma year_of_doe (doe : Z) : 0 <= doe < 146097 ->
  0 <= yoe_of doe < 400 /\ year_start (yoe_of doe) <= doe < year_end (yoe_of doe).
Proof.
  intros Hd.
  assert (Hk : 0 <= yoe_of doe < 400).
  { pose proof (yoe_of_mono 0 doe ltac:(lia) ltac:(lia)).
    pose proof (yoe_of_mono doe 146096 ltac:(lia) ltac:(lia)).
    change (yoe_of 0) with 0 in *. change (yoe_of 146096) with 399 in *. lia. }
  split; [done|]. set (k := yoe_of doe) in *. split.
  - destruct (Z_lt_le_dec doe (year_start k)) as [Hlt|]; [exfalso|done].
    assert (Hk1 : 0 <= k - 1 < 400) by (unfold year_start in Hlt; zlia).
    destruct (year_ok_spec (k - 1) Hk1) as (_ & H2 & _).
    unfold year_end in H2. destruct (k - 1 =? 399) eqn:E; [lia|].
    replace (k - 1 + 1) with k in H2 by lia.
    pose proof (year_start_bounds k ltac:(lia)).
    pose proof (yoe_of_mono doe (year_start k - 1) ltac:(lia) ltac:(lia)). lia.
  - destruct (Z_lt_le_dec doe (year_end k)) as [|Hge]; [done|exfalso].
    unfold year_end in Hge. destruct (k =? 399) eqn:E; [lia|].
    destruct (year_ok_spec (k + 1) ltac:(lia)) as (H1 & _ & _).
    pose proof (yoe_of_mono (year_start (k + 1)) doe ltac:(split; [apply year_start_bounds; lia|lia])
      ltac:(lia)). lia.
Qed.

(** *** Months of a March-based year *)

Ltac bool_facts H :=
  repeat match type of H with
         | (_ && _) = true => let H' := fresh H in apply andb_prop in H as [H H']; bool_facts H'
         end;
  rewrite ?Z.leb_le, ?Z.ltb_lt, ?Z.eqb_eq in *.

Lemma doy_decode (doy : Z) : 0 <= doy < 366 ->
  0 <= (5 * doy + 2) / 153 <= 11 /\ 1 <= doy - (153 * ((5 * doy + 2) / 153) + 2) / 5 + 1 /\
  (doy = 365 -> month_of_mp ((5 * doy + 2) / 153) = 2 /\
                doy - (153 * ((5 * doy + 2) / 153) + 2) / 5 + 1 = 29) /\
  (doy < 365 -> doy - (153 * ((5 * doy + 2) / 153) + 2) / 5 + 1 <=
                days_in_month 2001 (month_of_mp ((5 * doy + 2) / 153))).
Proof.
  intros Hd. pose proof (check_range_spec _ _ _ doys_all doy ltac:(simpl; lia)) as H.
  unfold doy_ok in H. apply andb_prop in H as [H Hlast]. bool_facts H.
  split; [lia|]. split; [lia|]. split.
  - intros ->. split; reflexivity.
  - intros Hlt. destruct (Z.eqb_spec doy 365); [lia|]. by apply Z.leb_le.
Qed.

Lemma md_decode (m d : Z) : 1 <= m <= 12 -> 1 <= d <= days_in_month 2000 m ->
  0 <= doy_of_md m d <= 365 /\ (doy_of_md m d = 365 -> m = 2 /\ d = 29) /\
  (5 * doy_of_md m d + 2) / 153 = (m + 9) mod 12.
Proof.
  intros Hm Hd. pose proof (days_in_month_bounds 2000 m) as Hb.
  pose proof (check_range_spec _ _ _ mds_all m ltac:(simpl; lia)) as H.
  pose proof (check_range_spec _ _ _ H d ltac:(simpl; lia)) as H'.
  unfold md_ok in H'.
  assert (Hd' : (d <=? days_in_month 2000 m) = true) by (apply Z.leb_le; lia).
  rewrite Hd' in H'.
  cbn [implb] in H'. apply andb_prop in H' as [H1 H2]. apply andb_prop in H1 as [H1 H3].
  bool_facts H1. split; [lia|]. split; [|done].
  intros E. rewrite (proj2 (Z.eqb_eq _ _) E) in H3. cbn [implb] in H3. bool_facts H3. done.
Qed.

Lemma month_of_mp_mod (m : Z) : 1 <= m <= 12 -> month_of_mp ((m + 9) mod 12) = m.
Proof. intros Hm. unfold month_of_mp. destruct (Z.ltb_spec ((m + 9) mod 12) 10); zlia. Qed.

Lemma mod_month_of_mp (mp : Z) : 0 <= mp <= 11 -> (month_of_mp mp + 9) mod 12 = mp.
Proof. intros Hmp. unfold month_of_mp. destruct (Z.ltb_spec mp 10); zlia. Qed.

Lemma month_of_mp_range (mp : Z) : 0 <= mp <= 11 -> 1 <= month_of_mp mp <= 12.
Proof. intros Hmp. unfold month_of_mp. destruct (Z.ltb_spec mp 10); lia. Qed.

Lemma doy_of_md_month_of_mp (mp d : Z) : 0 <= mp <= 11 ->
  doy_of_md (month_of_mp mp) d = (153 * mp + 2) / 5 + d - 1.
Proof. intros Hmp. unfold doy_of_md. by rewrite mod_month_of_mp. Qed.

(** *** Leap years *)

Lemma is_leap_year_shift (y k : Z) : is_leap_year (y + k * 400) = is_leap_year y.
Proof.
  unfold is_leap_year.
  replace (y + k * 400) with (y + (k * 100) * 4) by lia. rewrite Z.mod_add by lia.
  replace (y + k * 100 * 4) with (y + (k * 4) * 100) by lia. rewrite Z.mod_add by lia.
  replace (y + k * 4 * 100) with (y + k * 400) by lia. rewrite Z.mod_add by lia. done.
Qed.

Lemma days_in_month_leap_bounds (y m : Z) :
  days_in_month 2001 m <= days_in_month y m <= days_in_month 2000 m.
Proof.
  unfold days_in_month. destruct (m =? 2); [destruct (is_leap_year y); simpl; lia|].
  destruct ((m =? 4) || (m =? 6) || (m =? 9) || (m =? 11)); lia.
Qed.

Lemma days_in_month_feb_29 (y : Z) : 29 <= days_in_month y 2 -> is_leap_year y = true.
Proof. unfold days_in_month. simpl. destruct (is_leap_year y); [done|lia]. Qed.

Lemma days_in_month_leap (y m : Z) :
  is_leap_year y = true -> days_in_month y m = days_in_month 2000 m.
Proof. intros Hl. unfold days_in_month. by rewrite Hl. Qed.

(** *** The round trips between day numbers and civil dates *)

Lemma days_from_civil_parts (era yoe m d : Z) : 0 <= yoe < 400 -> 1 <= m <= 12 ->
  days_from_civil (if m <=? 2 then yoe + era * 400 + 1 else yoe + era * 400) m d =
  era * 146097 + year_start yoe + doy_of_md m d - 719468.
Proof.
  intros Hy Hm. unfold days_from_civil.
  assert (Hdiv : (yoe + era * 400) / 400 = era) by zlia.
  destruct (m <=? 2).
  - replace (yoe + era * 400 + 1 - 1) with (yoe + era * 400) by lia. rewrite Hdiv.
    replace (yoe + era * 400 - era * 400) with yoe by lia. lia.
  - rewrite Hdiv. replace (yoe + era * 400 - era * 400) with yoe by lia. lia.
Qed.

(** The parts [civil_from_days] computes, with their ranges. *)
Lemma civil_from_days_parts (z : Z) :
  let z' := z + 719468 in
  let era := z' / 146097 in
  let doe := z' - era * 146097 in
  let yoe := yoe_of doe in
  let doy := doe - year_start yoe in
  let mp := (5 * doy + 2) / 153 in
  0 <= doe < 146097 /\ 0 <= yoe < 400 /\ 0 <= doy < year_end yoe - year_start yoe /\
  0 <= mp <= 11 /\
  civil_from_days z =
    (if month_of_mp mp <=? 2 then yoe + era * 400 + 1 else yoe + era * 400,
     month_of_mp mp, doy - (153 * mp + 2) / 5 + 1).
Proof.
  intros z' era doe yoe doy mp.
  assert (Hdoe : 0 <= doe < 146097) by (unfold doe, era; zlia).
  destruct (year_of_doe doe Hdoe) as [Hk Hin].
  change (yoe_of doe) with yoe in Hk, Hin.
  pose proof (year_ok_spec yoe Hk) as (_ & _ & Hlen).
  assert (Hdoy : 0 <= doy < year_end yoe - year_start yoe) by (unfold doy; lia).
  assert (Hdoy' : 0 <= doy < 366) by (destruct (is_leap_year (yoe + 1)); lia).
  destruct (doy_decode doy Hdoy') as (Hmp & _).
  repeat split; try lia.
Qed.

(** Every day number is the day number of the civil date computed for it. *)
Theorem days_from_civil_civil_from_days (z : Z) :
  let '(y, m, d) := civil_from_days z in days_from_civil y m d = z.
Proof.
  destruct (civil_from_days_parts z) as (Hdoe & Hk & Hdoy & Hmp & ->).
  rewrite days_from_civil_parts by (try apply month_of_mp_range; lia).
  rewrite doy_of_md_month_of_mp by lia. lia.
Qed.

(** The civil date computed for a day number is a valid date. *)
Lemma civil_from_days_valid (z : Z) :
  let '(y, m, d) := civil_from_days z in valid_date y m d = true.
Proof.
  destruct (civil_from_days_parts z) as (Hdoe & Hk & Hdoy & Hmp & ->).
  set (yoe := yoe_of _) in *. set (doy := _ - year_start yoe) in *.
  pose proof (year_ok_spec yoe Hk) as (_ & _ & Hlen).
  assert (Hdoy' : 0 <= doy < 366) by (destruct (is_leap_year (yoe + 1)); lia).
  destruct (doy_decode doy Hdoy') as (Hmp' & Hd1 & H365 & Hlt).
  pose proof (month_of_mp_range _ Hmp'). unfold valid_date.
  destruct (Z.eq_dec doy 365) as [E|E].
  - destruct (H365 E) as [Hm2 Hd29]. rewrite Hm2, Hd29. simpl.
    assert (Hleap : is_leap_year (yoe + 1) = true)
      by (destruct (is_leap_year (yoe + 1)); [done|lia]).
    replace (yoe + (z + 719468) / 146097 * 400 + 1) with
      (yoe + 1 + (z + 719468) / 146097 * 400) by lia.
    rewrite (days_in_month_leap _ _ (eq_trans (is_leap_year_shift _ _) Hleap)). done.
  - pose proof (Hlt ltac:(lia)) as Hle.
    pose proof (days_in_month_leap_bounds
      (if month_of_mp ((5 * doy + 2) / 153) <=? 2 then yoe + (z + 719468) / 146097 * 400 + 1
       else yoe + (z + 719468) / 146097 * 400) (month_of_mp ((5 * doy + 2) / 153))).
    apply andb_true_intro; split; [apply andb_true_intro; split|]; [apply andb_true_intro; split| |];
      apply Z.leb_le; lia.
Qed.

(** Every valid civil date (month 1 to 12, day within the month of
    that year) is the civil date [civil_from_days] computes for its day
    number [days_from_civil]: the two day-count conversions behind
    date-fns' dates are inverse on valid dates. *)
Theorem civil_from_days_days_from_civil (y m d : Z) :
  valid_date y m d = true -> civil_from_days (days_from_civil y m d) = (y, m, d).
Proof.
  intros Hv. unfold valid_date in Hv. bool_facts Hv.
  pose proof (days_in_month_leap_bounds y m) as Hdim.
  set (y' := if m <=? 2 then y - 1 else y).
  set (era := y' / 400). set (yoe := y' - era * 400).
  assert (Hk : 0 <= yoe < 400) by (unfold yoe, era; zlia).
  assert (Hy : y = if m <=? 2 then yoe + era * 400 + 1 else yoe + era * 400)
    by (unfold yoe, y'; destruct (m <=? 2); lia).
  destruct (md_decode m d ltac:(lia) ltac:(lia)) as (Hdoy & H365 & Hmp).
  set (doy := doy_of_md m d) in *.
  pose proof (year_ok_spec yoe Hk) as (Hs & He & Hlen).
  assert (Hin : 0 <= doy < year_end yoe - year_start yoe).
  { destruct (Z.eq_dec doy 365) as [E|E]; [|destruct (is_leap_year (yoe + 1)); lia].
    destruct (H365 E) as [-> ->].
    assert (Hl : is_leap_year y = true) by (apply days_in_month_feb_29; lia).
    rewrite Hy in Hl. simpl in Hl.
    replace (yoe + era * 400 + 1) with (yoe + 1 + era * 400) in Hl by lia.
    rewrite is_leap_year_shift in Hl. rewrite Hl in Hlen. lia. }
  assert (Hz : days_from_civil y m d = era * 146097 + year_start yoe + doy - 719468)
    by (rewrite Hy at 1; apply days_from_civil_parts; lia).
  destruct (civil_from_days_parts (days_from_civil y m d)) as (_ & _ & _ & _ & ->).
  rewrite Hz.
  pose proof (year_start_bounds yoe ltac:(lia)). pose proof (year_end_bounds yoe Hk).
  assert (Hera : (era * 146097 + year_start yoe + doy - 719468 + 719468) / 146097 = era) by zlia.
  rewrite Hera.
  replace (era * 146097 + year_start yoe + doy - 719468 + 719468 - era * 146097)
    with (year_start yoe + doy) by lia.
  rewrite (yoe_of_in_year yoe) by lia.
  replace (year_start yoe + doy - year_start yoe) with doy by lia.
  rewrite Hmp, month_of_mp_mod by lia.
  rewrite Hy. f_equal. unfold doy, doy_of_md. lia.
Qed.

(** *** Printing and parsing ISO strings *)

(** The local calendar date and time of the instant [instant_of_local]
    gives a valid date and time of day are that date and time. *)
Lemma local_civil_instant_of_local (tzo : Z) (c : Civil) :
  valid_date (c_year c) (c_month c) (c_day c) = true -> 0 <= c_ms c < ms_per_day ->
  local_civil tzo (instant_of_local tzo c) = c.
Proof.
  destruct c as [y m d ms]. cbn [c_year c_month c_day c_ms]. intros Hv Hms.
  unfold local_civil, instant_of_local, civil_of_ms, ms_of_civil. cbn [c_year c_month c_day c_ms].
  replace (days_from_civil y m d * ms_per_day + ms - tzo * ms_per_minute + tzo * ms_per_minute)
    with (ms + days_from_civil y m d * ms_per_day) by lia.
  unfold ms_per_day in *.
  rewrite Z.div_add by lia. rewrite Z.div_small by lia.
  rewrite Z.add_0_l, civil_from_days_days_from_civil by done.
  rewrite Z.mod_add by lia. rewrite Z.mod_small by lia. done.
Qed.

Lemma digit_val_digit_char (v : Z) : 0 <= v < 10 -> digit_val (digit_char v) = Some v.
Proof.
  intros Hv.
  assert (v = 0 \/ v = 1 \/ v = 2 \/ v = 3 \/ v = 4 \/ v = 5 \/ v = 6 \/ v = 7 \/ v = 8 \/ v = 9)
    as Hc by lia.
  destruct Hc as [->|[->|[->|[->|[->|[->|[->|[->|[->| ->]]]]]]]]]; reflexivity.
Qed.

Lemma pad_digits_length (k : nat) (n : Z) : String.length (pad_digits k n) = k.
Proof.
  revert n. induction k as [|k IH]; intros n; [done|]. cbn [pad_digits].
  rewrite string_length_app, IH. cbn. lia.
Qed.

(** *** Month arithmetic: [subMonths] moves back at least 59 days *)

Lemma days_from_civil_shift (y m m' d d' : Z) : (m <=? 2) = (m' <=? 2) ->
  days_from_civil y m' d' = days_from_civil y m d + (doy_of_md m' d' - doy_of_md m d).
Proof. intros Hm. unfold days_from_civil. rewrite Hm. lia. Qed.

Lemma days_from_civil_dec_jan (y : Z) : days_from_civil (y + 1) 1 1 = days_from_civil y 12 1 + 31.
Proof.
  unfold days_from_civil. change (1 <=? 2) with true. change (12 <=? 2) with false.
  cbv beta iota zeta. replace (y + 1 - 1) with y by lia.
  change (doy_of_md 1 1) with 306. change (doy_of_md 12 1) with 275. lia.
Qed.

Lemma days_from_civil_feb_mar (y : Z) :
  days_from_civil y 3 1 = days_from_civil y 2 1 + days_in_month y 2.
Proof.
  unfold days_from_civil. change (3 <=? 2) with false. change (2 <=? 2) with true.
  cbv beta iota zeta. change (doy_of_md 3 1) with 0. change (doy_of_md 2 1) with 337.
  set (era := (y - 1) / 400). set (yoe := y - 1 - era * 400).
  assert (Hk : 0 <= yoe < 400) by (unfold yoe, era; zlia).
  assert (Hy : y = yoe + 1 + era * 400) by (unfold yoe; lia).
  pose proof (year_ok_spec yoe Hk) as (_ & _ & Hlen).
  unfold days_in_month. change (2 =? 2) with true. cbv iota.
  replace (is_leap_year y) with (is_leap_year (yoe + 1)) by (rewrite Hy; symmetry; apply is_leap_year_shift).
  destruct (Z.eq_dec yoe 399) as [E|E].
  - assert (Hd : y / 400 = era + 1) by zlia.
    rewrite Hd. replace (y - (era + 1) * 400) with 0 by lia.
    rewrite E in Hlen |- *. change (year_end 399) with 146097 in Hlen.
    change (year_start 0) with 0. change (is_leap_year (399 + 1)) with true in Hlen |- *.
    cbv iota in Hlen |- *. lia.
  - assert (Hd : y / 400 = era) by zlia.
    rewrite Hd. replace (y - era * 400) with (yoe + 1) by lia.
    unfold year_end in Hlen. rewrite (proj2 (Z.eqb_neq _ _) E) in Hlen.
    destruct (is_leap_year (yoe + 1)); lia.
Qed.

Lemma days_from_civil_month_idx (idx d : Z) :
  days_from_civil (idx / 12) (idx mod 12 + 1) d = month_start idx + (d - 1).
Proof.
  unfold month_start. rewrite (days_from_civil_shift _ (idx mod 12 + 1) _ 1) by done.
  unfold doy_of_md. lia.
Qed.

Lemma month_start_civil (y m d : Z) : 1 <= m <= 12 ->
  days_from_civil y m d = month_start (y * 12 + (m - 1)) + (d - 1).
Proof.
  intros Hm. rewrite <- days_from_civil_month_idx.
  replace ((y * 12 + (m - 1)) / 12) with y by zlia.
  replace ((y * 12 + (m - 1)) mod 12 + 1) with m by zlia. done.
Qed.

Lemma days_in_month_not_feb (y m : Z) : m <> 2 -> 30 <= days_in_month y m.
Proof.
  intros Hm. unfold days_in_month. rewrite (proj2 (Z.eqb_neq _ _) Hm).
  destruct (_ || _); lia.
Qed.

Lemma month_start_succ (idx : Z) :
  month_start (idx + 1) = month_start idx + days_in_month (idx / 12) (idx mod 12 + 1).
Proof.
  unfold month_start. set (y := idx / 12). set (m := idx mod 12 + 1).
  assert (Hm : 1 <= m <= 12) by (unfold m; zlia).
  destruct (Z.eq_dec m 12) as [E|E].
  - replace ((idx + 1) / 12) with (y + 1) by (unfold y, m in *; zlia).
    replace ((idx + 1) mod 12 + 1) with 1 by (unfold m in *; zlia).
    rewrite E. apply days_from_civil_dec_jan.
  - replace ((idx + 1) / 12) with y by (unfold y, m in *; zlia).
    replace ((idx + 1) mod 12 + 1) with (m + 1) by (unfold m in *; zlia).
    destruct (Z.eq_dec m 2) as [->|E2]; [apply days_from_civil_feb_mar|].
    rewrite (days_from_civil_shift y m (m + 1) 1 1)
      by (destruct (Z.eq_dec m 1) as [->|]; [done|rewrite !(proj2 (Z.leb_gt _ _)); lia]).
    f_equal.
    assert (m = 1 \/ m = 3 \/ m = 4 \/ m = 5 \/ m = 6 \/ m = 7 \/ m = 8 \/ m = 9 \/ m = 10 \/ m = 11)
      as Hc by lia.
    destruct Hc as [->|[->|[->|[->|[->|[->|[->|[->|[->| ->]]]]]]]]]; reflexivity.
Qed.

(** Two consecutive months have at least 59 days (January and February,
    or February and March, of a common year). *)
Lemma month_start_two (idx : Z) : month_start idx + 59 <= month_start (idx + 2).
Proof.
  replace (idx + 2) with (idx + 1 + 1) by lia. rewrite !month_start_succ.
  set (m := idx mod 12 + 1).
  assert (Hm : 1 <= m <= 12) by (unfold m; zlia).
  pose proof (days_in_month_bounds (idx / 12) m).
  pose proof (days_in_month_bounds ((idx + 1) / 12) ((idx + 1) mod 12 + 1)).
  destruct (Z.eq_dec m 2) as [E|E].
  - replace ((idx + 1) mod 12 + 1) with 3 by (unfold m in *; zlia).
    change (days_in_month ((idx + 1) / 12) 3) with 31. lia.
  - pose proof (days_in_month_not_feb (idx / 12) m E).
    destruct (Z.eq_dec m 1) as [E1|E1].
    + rewrite E1. change (days_in_month (idx / 12) 1) with 31. lia.
    + pose proof (days_in_month_not_feb ((idx + 1) / 12) ((idx + 1) mod 12 + 1)
        ltac:(unfold m in *; zlia)). lia.
Qed.

(** [subMonths(t, 2)] is at least 59 days before [t], in every time
    zone: the two-month window of the load effect is never shorter. *)
Theorem subMonths_two_before (tzo t : Z) : subMonths tzo t 2 <= t - 59 * ms_per_day.
Proof.
  unfold subMonths, addMonths, local_civil, civil_of_ms.
  change (- (2)) with (-2). change (-2 =? 0) with false. cbv iota.
  set (z := (t + tzo * ms_per_minute) / ms_per_day).
  pose proof (days_from_civil_civil_from_days z) as Hz.
  pose proof (civil_from_days_valid z) as Hv.
  destruct (civil_from_days z) as [[y m] d].
  unfold valid_date in Hv. bool_facts Hv.
  unfold instant_of_local, ms_of_civil. cbn [c_year c_month c_day c_ms].
  rewrite days_from_civil_month_idx.
  rewrite month_start_civil in Hz by lia.
  pose proof (month_start_two (y * 12 + (m - 1) + -2)) as H2.
  replace (y * 12 + (m - 1) + -2 + 2) with (y * 12 + (m - 1)) in H2 by lia.
  pose proof (Z.le_min_l d (days_in_month ((y * 12 + (m - 1) + -2) / 12)
                              ((y * 12 + (m - 1) + -2) mod 12 + 1))).
  unfold z, ms_per_day, ms_per_minute in *. zlia.
Qed.

(** *** The date part of an ISO string *)

Lemma digit_char_not_T (v : Z) : 0 <= v < 10 -> Ascii.eqb (digit_char v) "T" = false.
Proof.
  intros Hv.
  assert (v = 0 \/ v = 1 \/ v = 2 \/ v = 3 \/ v = 4 \/ v = 5 \/ v = 6 \/ v = 7 \/ v = 8 \/ v = 9)
    as Hc by lia.
  destruct Hc as [->|[->|[->|[->|[->|[->|[->|[->|[->| ->]]]]]]]]]; reflexivity.
Qed.

Lemma split_T_first_char (c : ascii) (s : string) : Ascii.eqb c "T" = false ->
  split_T_first (String c "" +:+ s) = String c "" +:+ split_T_first s.
Proof. intros Hc. rewrite !string_app_cons, !string_app_nil_l. simpl. by rewrite Hc. Qed.

Lemma split_T_first_pad (k : nat) (n : Z) (s : string) :
  split_T_first (pad_digits k n +:+ s) = pad_digits k n +:+ split_T_first s.
Proof.
  revert n s. induction k as [|k IH]; intros n s; [by rewrite !string_app_nil_l|].
  cbn [pad_digits]. rewrite !string_app_assoc, IH, split_T_first_char; [done|].
  apply digit_char_not_T, Z.mod_pos_bound. lia.
Qed.

Lemma split_T_first_toISOString (t : Z) :
  let c := civil_of_ms t in
  split_T_first (toISOString t) =
  pad_digits 4 (c_year c) +:+ "-" +:+ pad_digits 2 (c_month c) +:+ "-" +:+
  pad_digits 2 (c_day c) +:+ "".
Proof.
  unfold toISOString.
  repeat (rewrite split_T_first_pad || rewrite split_T_first_char by done).
  reflexivity.
Qed.


