(* ===== verification/DateFns.v ===== *)
(** * DateFns: date-fns's [parseISO]

    [App.tsx] reads every expense date with [parseISO] of date-fns:
    in the retention filter of the load effect (line 51) and in the
    History list (line 196).  This file models that function as
    date-fns writes it ([parseISO.ts], default [additionalDigits = 2]):

    - [splitDateString] splits the argument at [T] or a space into a
      date part and a time part, moves a [Z] found in the date part to
      the time part, and cuts the timezone off the time part at its
      first [Z], [+] or [-];
    - [parseYear] reads the year with the pattern
      [^(?:(\d{4}|[+-]\d{6})|(\d{2}|[+-]\d{4})$)] (a two-digit
      century otherwise);
    - [parseDate] reads the rest with
      [^-?(?:(\d{3})|(\d{2})(?:-?(\d{2}))?|W(\d{2})(?:-?(\d{1}))?|)$]:
      a day of the year, a month and day, an ISO week and weekday, or
      nothing (January 1), with [validateDate],
      [validateDayOfYearDate] and [validateWeekDate];
    - [parseTime] reads hours, then optionally minutes, then optionally
      seconds, each two digits with an optional decimal fraction (after
      [.] or [,]) and the last two preceded by an optional [:], with
      [validateTime];
    - [parseTimezone] reads [Z] or [^([+-])(\d{2})(?::?(\d{2}))?$] (any
      other text is offset 0) with [validateTimezone];
    - without a timezone the date and time are local wall-clock time,
      with one they are UTC shifted by the offset.

    The regular expressions are read the way ECMAScript matches them,
    by backtracking with greedy quantifiers and alternatives in order:
    a parser returns the list of its successes in that order (the
    list-of-successes reading), and a match is the first success.
    [Date] values go through [TimeClip]: a time value beyond
    [8.64e15] ms is an Invalid Date, and a fractional one is truncated
    toward zero.  Field values are exact rationals, as every number of
    the development (see the root file on IEEE rounding).

    The theorems: [parseISO] reads back what [toISOString] prints, in
    every time zone; a bare date [YYYY-MM-DD] (the date input's value
    and the date part of [toISOString]) is local midnight of that date,
    and a date and time without a timezone is that local wall-clock
    time; a date whose month or day does not exist is an Invalid Date
    with or without a time.  The local readings assume an offset of
    less than a day. *)

From S2P Require Import Prelude Types Calendar.
From Stdlib Require Import Ascii ZArith Qabs.

Local Open Scope Z_scope.

(** ** Backtracking patterns as list-of-successes parsers *)

Definition RP (A : Type) : Type := string -> list (A * string).

Definition rp_ret {A} (a : A) : RP A := fun s => [(a, s)].

Definition rp_bind {A B} (p : RP A) (f : A -> RP B) : RP B :=
  fun s => List.flat_map (fun ar => f ar.1 ar.2) (p s).

(** [p|q]: the successes of [p] first. *)
Definition rp_alt {A} (p q : RP A) : RP A := fun s => p s ++ q s.

Definition rp_sat (P : ascii -> bool) : RP ascii :=
  fun s => match s with
           | String c r => if P c then [(c, r)] else []
           | EmptyString => []
           end.

(** [$] *)
Definition rp_end : RP unit :=
  fun s => match s with EmptyString => [(tt, EmptyString)] | String _ _ => [] end.

(** [p?], greedy: with [p] first. *)
Definition rp_opt {A} (p : RP A) : RP (option A) :=
  rp_alt (rp_bind p (fun a => rp_ret (Some a))) (rp_ret None).

#[local] Instance rp_mret : MRet RP := @rp_ret.
#[local] Instance rp_mbind : MBind RP := fun A B f p => rp_bind p f.

(** [\d{k}], returning the digits read. *)
Fixpoint rp_digits (k : nat) : RP string :=
  match k with
  | O => rp_ret EmptyString
  | S k' => c ← rp_sat is_digit; d ← rp_digits k'; rp_ret (String c d)
  end.

(** [\d*], greedy: the longest run first, then each shorter one. *)
Fixpoint digits_star (s : string) : list (string * string) :=
  match s with
  | String c r =>
      if is_digit c
      then List.map (fun dr => (String c dr.1, dr.2)) (digits_star r) ++ [(EmptyString, s)]
      else [(EmptyString, s)]
  | EmptyString => [(EmptyString, EmptyString)]
  end.

Definition rp_char (c : ascii) : RP ascii := rp_sat (Ascii.eqb c).

(** [[+-]] as the sign it stands for. *)
Definition rp_sign : RP Z :=
  c ← rp_sat (fun c => Ascii.eqb c "+" || Ascii.eqb c "-");
  rp_ret (if Ascii.eqb c "+" then 1 else -1).

(** [String.prototype.match] of an anchored pattern: its first success. *)
Definition first_match {A} (p : RP A) (s : string) : option (A * string) :=
  head (p s).

(** [parseInt] of a run of decimal digits. *)
Fixpoint dec_value (acc : Z) (s : string) : Z :=
  match s with
  | String c r => dec_value (acc * 10 + (Z.of_nat (nat_of_ascii c) - 48)) r
  | EmptyString => acc
  end.

Definition parseInt (s : string) : Z := dec_value 0 s.

(** [TimeClip]: out of range is an Invalid Date, a fraction is cut
    toward zero. *)
Definition max_time_value : Z := 8640000000000000.

Definition timeClip (q : Q) : option Z :=
  if Qle_bool (Qabs q) (inject_Z max_time_value) then Some (Z.quot (Qnum q) (Zpos (Qden q)))
  else None.

Definition clip_day (z : Z) : option Z :=
  if Z.abs (z * ms_per_day) <=? max_time_value then Some z else None.

(** ** [splitDateString] *)

(** [String.prototype.split] on a character class. *)
Fixpoint split_on (P : ascii -> bool) (s : string) : list string :=
  match s with
  | EmptyString => [EmptyString]
  | String c r =>
      if P c then EmptyString :: split_on P r
      else match split_on P r with
           | p :: ps => String c p :: ps
           | [] => [String c EmptyString]
           end
  end.

Fixpoint str_exists (P : ascii -> bool) (s : string) : bool :=
  match s with String c r => P c || str_exists P r | EmptyString => false end.

(** The text before the first character of the class, and the text
    from it on. *)
Fixpoint take_until (P : ascii -> bool) (s : string) : string :=
  match s with
  | String c r => if P c then EmptyString else String c (take_until P r)
  | EmptyString => EmptyString
  end.

Fixpoint drop_until (P : ascii -> bool) (s : string) : string :=
  match s with
  | String c r => if P c then s else drop_until P r
  | EmptyString => EmptyString
  end.

(** [/[T ]/], [/[Z ]/i], [/:/] and the first character of the
    timezone pattern, [[Z+-]]. *)
Definition is_date_time_delimiter (c : ascii) : bool := Ascii.eqb c "T" || Ascii.eqb c " ".
Definition is_time_zone_delimiter (c : ascii) : bool :=
  Ascii.eqb c "Z" || Ascii.eqb c "z" || Ascii.eqb c " ".
Definition is_colon (c : ascii) : bool := Ascii.eqb c ":".
Definition is_timezone_start (c : ascii) : bool :=
  Ascii.eqb c "Z" || Ascii.eqb c "+" || Ascii.eqb c "-".

(** The fields of [dateStrings]; [None] is a field left unset. *)
Record DateStrings := {
  ds_date : option string;
  ds_time : option string;
  ds_timezone : option string;
}.

Definition splitDateString (dateString : string) : DateStrings :=
  let array := split_on is_date_time_delimiter dateString in
  if (2 <? length array)%nat then {| ds_date := None; ds_time := None; ds_timezone := None |}
  else
    let a0 := default EmptyString (head array) in
    let '(date, timeString) :=
      if str_exists is_colon a0 then (None, Some a0)
      else if str_exists is_time_zone_delimiter a0
      then (Some (take_until is_time_zone_delimiter dateString),
            Some (drop_until is_time_zone_delimiter dateString))
      else (Some a0, nth_error array 1) in
    match timeString with
    | Some ts =>
        if truthy ts then
          if str_exists is_timezone_start ts
          then {| ds_date := date; ds_time := Some (take_until is_timezone_start ts);
                  ds_timezone := Some (drop_until is_timezone_start ts) |}
          else {| ds_date := date; ds_time := Some ts; ds_timezone := None |}
        else {| ds_date := date; ds_time := None; ds_timezone := None |}
    | None => {| ds_date := date; ds_time := None; ds_timezone := None |}
    end.

(** ** [parseYear] *)

(** The captures of the year pattern: a full year, or a century. *)
Definition year_pattern : RP (Z + Z) :=
  rp_alt
    (y ← rp_alt (d ← rp_digits 4; mret (parseInt d))
                (sg ← rp_sign; d ← rp_digits 6; mret (sg * parseInt d));
     mret (inl y))
    (c ← rp_alt (d ← rp_digits 2; mret (parseInt d))
                (sg ← rp_sign; d ← rp_digits 4; mret (sg * parseInt d));
     _ ← rp_end; mret (inr c)).

(** The year and the rest of the date string; [None] is the [NaN] year,
    from which [parseDate] makes an Invalid Date. *)
Definition parseYear (dateString : string) : option (Z * string) :=
  match first_match year_pattern dateString with
  | Some (inl y, rest) => Some (y, rest)
  | Some (inr c, rest) => Some (c * 100, rest)
  | None => None
  end.

(** ** [parseDate] *)

Inductive DateCaptures :=
  | DayOfYear (ddd : string)
  | MonthDay (mm : string) (dd : option string)
  | WeekDate (ww : string) (d : option string)
  | YearOnly.

Definition date_pattern : RP DateCaptures :=
  _ ← rp_opt (rp_char "-");
  c ← rp_alt (d ← rp_digits 3; mret (DayOfYear d))
       (rp_alt (m ← rp_digits 2; d ← rp_opt (_ ← rp_opt (rp_char "-"); rp_digits 2);
                mret (MonthDay m d))
         (rp_alt (_ ← rp_char "W"; w ← rp_digits 2;
                  d ← rp_opt (_ ← rp_opt (rp_char "-"); rp_digits 1); mret (WeekDate w d))
            (mret YearOnly)));
  _ ← rp_end; mret c.

Definition parseDateUnit (v : option string) : Z :=
  match v with Some d => parseInt d | None => 1 end.

Definition validateDayOfYearDate (year dayOfYear : Z) : bool :=
  (1 <=? dayOfYear) && (dayOfYear <=? if is_leap_year year then 366 else 365).

Definition validateWeekDate (week day : Z) : bool :=
  (1 <=? week) && (week <=? 53) && (0 <=? day) && (day <=? 6).

(** [getUTCDay() || 7] of a day number (1970-01-01 was a Thursday). *)
Definition iso_weekday (z : Z) : Z := let d := (z + 4) mod 7 in if d =? 0 then 7 else d.

(** [dayOfISOWeekYear]: from January 4, which is in week 1. *)
Definition dayOfISOWeekYear (isoWeekYear week day : Z) : option Z :=
  j4 ← clip_day (days_from_civil isoWeekYear 1 4);
  clip_day (j4 + ((week - 1) * 7 + day + 1 - iso_weekday j4)).

(** The UTC day number of the date; [setUTCFullYear(year, month,
    max(dayOfYear, day))] counts a day beyond the month into the next. *)
Definition parseDate (dateString : string) (year : Z) : option Z :=
  '(c, _) ← first_match date_pattern dateString;
  match c with
  | WeekDate w d =>
      let week := parseInt w in
      let dayOfWeek := parseDateUnit d - 1 in
      if validateWeekDate week dayOfWeek then dayOfISOWeekYear year week dayOfWeek else None
  | _ =>
      let '(dayOfYear, month, day) :=
        match c with
        | DayOfYear d => (parseInt d, 0, 1)
        | MonthDay m d => (1, parseInt m - 1, parseDateUnit d)
        | _ => (1, 0, 1)
        end in
      if valid_date year (month + 1) day && validateDayOfYearDate year dayOfYear
      then clip_day (days_from_civil year (month + 1) 1 + (Z.max dayOfYear day - 1))
      else None
  end.

(** ** [parseTime] *)

(** A field: two digits and an optional fraction after [.] or [,]. *)
Record TimeField := { tf_int : string; tf_frac : option string }.

Definition time_field : RP TimeField :=
  i ← rp_digits 2;
  f ← rp_opt (_ ← rp_sat (fun c => Ascii.eqb c "." || Ascii.eqb c ","); digits_star);
  mret {| tf_int := i; tf_frac := f |}.

Definition time_pattern : RP (TimeField * option TimeField * option TimeField) :=
  h ← time_field;
  m ← rp_opt (_ ← rp_opt (rp_char ":"); time_field);
  s ← rp_opt (_ ← rp_opt (rp_char ":"); time_field);
  _ ← rp_end; mret (h, m, s).

(** [(value && parseFloat(value.replace(',', '.'))) || 0] *)
Definition parseTimeUnit (v : option TimeField) : Q :=
  match v with
  | Some f =>
      inject_Z (parseInt (tf_int f)) +
      match tf_frac f with
      | Some d => inject_Z (parseInt d) / inject_Z (10 ^ Z.of_nat (String.length d))
      | None => 0
      end
  | None => 0
  end.

Definition validateTime (hours minutes seconds : Q) : bool :=
  if Qeq_bool hours 24 then Qeq_bool minutes 0 && Qeq_bool seconds 0
  else Qle_bool 0 seconds && negb (Qle_bool 60 seconds) && Qle_bool 0 minutes &&
       negb (Qle_bool 60 minutes) && Qle_bool 0 hours && negb (Qle_bool 25 hours).

Definition parseTime (timeString : string) : option Q :=
  '(hms, _) ← first_match time_pattern timeString;
  let '(h, m, s) := hms in
  let hours := parseTimeUnit (Some h) in
  let minutes := parseTimeUnit m in
  let seconds := parseTimeUnit s in
  if validateTime hours minutes seconds
  then Some (hours * 3600000 + minutes * 60000 + seconds * 1000)%Q else None.

(** ** [parseTimezone] *)

Definition timezone_pattern : RP (Z * string * option string) :=
  sg ← rp_sign; h ← rp_digits 2;
  m ← rp_opt (_ ← rp_opt (rp_char ":"); rp_digits 2);
  _ ← rp_end; mret (sg, h, m).

Definition validateTimezone (hours minutes : Z) : bool := (0 <=? minutes) && (minutes <=? 59).

(** The offset in ms to add to the UTC reading; a string the pattern
    does not match is offset 0. *)
Definition parseTimezone (timezoneString : string) : option Z :=
  if String.eqb timezoneString "Z" then Some 0 else
  match first_match timezone_pattern timezoneString with
  | None => Some 0
  | Some ((sg, h, m), _) =>
      let hours := parseInt h in
      let minutes := match m with Some d => parseInt d | None => 0 end in
      if validateTimezone hours minutes
      then Some (- sg * (hours * 3600000 + minutes * 60000)) else None
  end.

(** ** [parseISO] *)

(** The time value of the Date [parseISO] returns; [None] is an Invalid
    Date.  Without a timezone the fields are local time: [new Date(0)]
    is moved to the date by [setFullYear] (keeping its local time of
    day) and to the time by [setHours]. *)
Definition parseISO (tzo : Z) (argument : string) : option Z :=
  let dateStrings := splitDateString argument in
  date ← ds_date dateStrings;
  if negb (truthy date) then None else
  '(year, restDateString) ← parseYear date;
  day ← parseDate restDateString year;
  time ← match ds_time dateStrings with
         | Some t => if truthy t then parseTime t else Some 0%Q
         | None => Some 0%Q
         end;
  let timestamp := inject_Z (day * ms_per_day) in
  match ds_timezone dateStrings with
  | Some tz =>
      offset ← parseTimezone tz;
      timeClip (timestamp + time + inject_Z offset)
  | None =>
      dirtyDate ← timeClip (timestamp + time);
      let c := civil_of_ms dirtyDate in
      _ ← timeClip (inject_Z (instant_of_local tzo
             {| c_year := c_year c; c_month := c_month c; c_day := c_day c;
                c_ms := (tzo * ms_per_minute) mod ms_per_day |}));
      timeClip (inject_Z (instant_of_local tzo c))
  end.

(** ** Reading the strings the app writes

    [str_forall] and [starts] are the vocabulary of the proofs: every
    character of a string in a class, and the first success of a
    parser. *)

Fixpoint str_forall (P : ascii -> bool) (s : string) : bool :=
  match s with String c r => P c && str_forall P r | EmptyString => true end.

Definition starts {A} (l : list A) (x : A) : Prop := exists l', l = x :: l'.

(** *** Characters *)

Lemma digit_char_cases (v : Z) : 0 <= v < 10 ->
  digit_char v = "0"%char \/ digit_char v = "1"%char \/ digit_char v = "2"%char \/
  digit_char v = "3"%char \/ digit_char v = "4"%char \/ digit_char v = "5"%char \/
  digit_char v = "6"%char \/ digit_char v = "7"%char \/ digit_char v = "8"%char \/
  digit_char v = "9"%char.
Proof.
  intros Hv.
  assert (v = 0 \/ v = 1 \/ v = 2 \/ v = 3 \/ v = 4 \/ v = 5 \/ v = 6 \/ v = 7 \/ v = 8 \/ v = 9)
    as Hc by lia.
  destruct Hc as [->|[->|[->|[->|[->|[->|[->|[->|[->| ->]]]]]]]]]; cbv; tauto.
Qed.

(** A class decided by evaluation on the ten digits. *)
Ltac digit_class :=
  let v := fresh "v" in let Hv := fresh "Hv" in
  intros v Hv; destruct (digit_char_cases v Hv) as [->|[->|[->|[->|[->|[->|[->|[->|[->| ->]]]]]]]]];
  reflexivity.

Lemma nat_of_digit_char (v : Z) : 0 <= v < 10 -> Z.of_nat (nat_of_ascii (digit_char v)) - 48 = v.
Proof.
  intros Hv. unfold digit_char. rewrite nat_ascii_embedding by lia. lia.
Qed.

Lemma str_forall_app (P : ascii -> bool) (x y : string) :
  str_forall P (x +:+ y) = str_forall P x && str_forall P y.
Proof.
  induction x as [|c x IH]; [done|]. rewrite string_app_cons. cbn [str_forall].
  by rewrite IH, andb_assoc.
Qed.

Lemma str_forall_pad (P : ascii -> bool) (k : nat) (n : Z) :
  (forall v, 0 <= v < 10 -> P (digit_char v) = true) -> str_forall P (pad_digits k n) = true.
Proof.
  intros HP. revert n. induction k as [|k IH]; intros n; [done|]. cbn [pad_digits].
  rewrite str_forall_app, IH. cbn. rewrite HP by (apply Z.mod_pos_bound; lia). done.
Qed.

Lemma str_exists_forall (P : ascii -> bool) (s : string) :
  str_exists P s = negb (str_forall (fun c => negb (P c)) s).
Proof. induction s as [|c s IH]; [done|]. cbn. rewrite IH. by destruct (P c). Qed.

(** *** Splitting *)

Lemma split_on_cons_free (P : ascii -> bool) (c : ascii) (s : string) : P c = false ->
  split_on P (String c s) = String c (hd EmptyString (split_on P s)) :: tl (split_on P s).
Proof. intros Hc. cbn. rewrite Hc. by destruct (split_on P s). Qed.

Lemma split_on_app_free (P : ascii -> bool) (x y : string) :
  str_forall (fun c => negb (P c)) x = true ->
  split_on P (x +:+ y) = (x +:+ hd EmptyString (split_on P y)) :: tl (split_on P y).
Proof.
  induction x as [|c x IH]; intros Hx.
  - rewrite !string_app_nil_l. destruct y as [|c y]; [done|]. cbn.
    destruct (P c); [done|]. by destruct (split_on P y).
  - cbn in Hx. apply andb_prop in Hx as [Hc Hx]. apply negb_true_iff in Hc.
    rewrite string_app_cons, split_on_cons_free, IH by done. reflexivity.
Qed.

Lemma split_on_free (P : ascii -> bool) (x : string) :
  str_forall (fun c => negb (P c)) x = true -> split_on P x = [x].
Proof.
  intros Hx. rewrite <- (string_app_nil_r x), split_on_app_free by done. reflexivity.
Qed.

Lemma take_until_app_free (P : ascii -> bool) (x y : string) :
  str_forall (fun c => negb (P c)) x = true ->
  take_until P (x +:+ y) = x +:+ take_until P y /\ drop_until P (x +:+ y) = drop_until P y.
Proof.
  induction x as [|c x IH]; intros Hx; [done|].
  cbn in Hx. apply andb_prop in Hx as [Hc Hx]. apply negb_true_iff in Hc.
  rewrite !string_app_cons. cbn. rewrite Hc. destruct (IH Hx) as [-> ->]. done.
Qed.

(** *** The parsers *)

Lemma first_match_starts {A} (p : RP A) (s : string) (x : A * string) :
  starts (p s) x -> first_match p s = Some x.
Proof. intros [l Hl]. unfold first_match. by rewrite Hl. Qed.

Lemma starts_ret {A} (a : A) (s : string) : starts (rp_ret a s) (a, s).
Proof. by exists []. Qed.

Lemma starts_bind {A B} (p : RP A) (f : A -> RP B) (s r : string) (a : A) (y : B * string) :
  starts (p s) (a, r) -> starts (f a r) y -> starts (rp_bind p f s) y.
Proof.
  intros [l Hl] [m Hm]. unfold rp_bind. rewrite Hl. cbn [flat_map fst snd]. rewrite Hm.
  by eexists.
Qed.

Lemma bind_nil {A B} (p : RP A) (f : A -> RP B) (s : string) : p s = [] -> rp_bind p f s = [].
Proof. intros Hp. unfold rp_bind. by rewrite Hp. Qed.

Lemma starts_alt {A} (p q : RP A) (s : string) (x : A * string) :
  starts (p s) x -> starts (rp_alt p q s) x.
Proof. intros [l Hl]. unfold rp_alt. rewrite Hl. by eexists. Qed.

Lemma alt_nil {A} (p q : RP A) (s : string) : p s = [] -> rp_alt p q s = q s.
Proof. intros Hp. unfold rp_alt. by rewrite Hp. Qed.

Lemma starts_opt {A} (p : RP A) (s r : string) (a : A) :
  starts (p s) (a, r) -> starts (rp_opt p s) (Some a, r).
Proof. intros H. apply starts_alt. eapply starts_bind; [done|apply starts_ret]. Qed.

Lemma starts_opt_none {A} (p : RP A) (s : string) : p s = [] -> starts (rp_opt p s) (None, s).
Proof. intros Hp. unfold rp_opt. rewrite alt_nil by (by apply bind_nil). apply starts_ret. Qed.

Lemma starts_char (c : ascii) (s : string) : starts (rp_char c (String c s)) (c, s).
Proof. unfold rp_char, rp_sat. rewrite Ascii.eqb_refl. by eexists. Qed.

Lemma starts_end : starts (rp_end EmptyString) (tt, EmptyString).
Proof. by eexists. Qed.

Lemma rp_digits_app (x r : string) :
  str_forall is_digit x = true -> rp_digits (String.length x) (x +:+ r) = [(x, r)].
Proof.
  induction x as [|c x IH]; intros Hx; [done|].
  cbn in Hx. apply andb_prop in Hx as [Hc Hx].
  rewrite string_app_cons. cbn [String.length rp_digits].
  unfold mbind, rp_mbind, mret, rp_mret, rp_bind. cbn [rp_sat]. rewrite Hc.
  cbn [flat_map fst snd]. rewrite IH by done. reflexivity.
Qed.

Lemma rp_digits_stop (x r : string) (c : ascii) :
  str_forall is_digit x = true -> is_digit c = false ->
  rp_digits (S (String.length x)) (x +:+ String c r) = [].
Proof.
  induction x as [|c' x IH]; intros Hx Hc.
  - rewrite string_app_nil_l. cbn [String.length rp_digits].
    unfold mbind, rp_mbind. apply bind_nil. cbn. by rewrite Hc.
  - cbn in Hx. apply andb_prop in Hx as [Hc' Hx].
    rewrite string_app_cons. cbn [String.length rp_digits].
    unfold mbind at 1, rp_mbind at 1, rp_bind at 1. cbn [rp_sat]. rewrite Hc'.
    cbn [flat_map fst snd]. rewrite app_nil_r. apply bind_nil. by apply IH.
Qed.

Lemma digits_star_all (x : string) :
  str_forall is_digit x = true -> starts (digits_star x) (x, EmptyString).
Proof.
  induction x as [|c x IH]; intros Hx; [by eexists|].
  cbn in Hx. apply andb_prop in Hx as [Hc Hx]. cbn [digits_star]. rewrite Hc.
  destruct (IH Hx) as [l ->]. by eexists.
Qed.

(** *** Numbers *)

Lemma dec_value_app (acc : Z) (x y : string) : dec_value acc (x +:+ y) = dec_value (dec_value acc x) y.
Proof. revert acc. induction x as [|c x IH]; intros acc; [done|]. rewrite string_app_cons. apply IH. Qed.

Lemma dec_value_pad (acc : Z) (k : nat) (n : Z) : 0 <= n < 10 ^ Z.of_nat k ->
  dec_value acc (pad_digits k n) = acc * 10 ^ Z.of_nat k + n.
Proof.
  revert acc n. induction k as [|k IH]; intros acc n Hn.
  - cbn in *. lia.
  - rewrite Nat2Z.inj_succ, Z.pow_succ_r in * by lia. cbn [pad_digits].
    rewrite dec_value_app, IH by zlia. cbn [dec_value].
    rewrite nat_of_digit_char by (apply Z.mod_pos_bound; lia).
    pose proof (Z.div_mod n 10 ltac:(lia)). lia.
Qed.

Lemma parseInt_pad (k : nat) (n : Z) : 0 <= n < 10 ^ Z.of_nat k -> parseInt (pad_digits k n) = n.
Proof. intros Hn. unfold parseInt. rewrite dec_value_pad by done. lia. Qed.

Lemma timeClip_int (q : Q) (n : Z) : (q == inject_Z n)%Q -> Z.abs n <= max_time_value ->
  timeClip q = Some n.
Proof.
  intros Hq Hn. unfold timeClip.
  assert (Habs : (Qabs q == inject_Z (Z.abs n))%Q) by (rewrite Hq; unfold inject_Z; rewrite <- Zabs_Qabs; reflexivity).
  replace (Qle_bool (Qabs q) (inject_Z max_time_value)) with true
    by (symmetry; apply Qle_bool_iff; rewrite Habs; rewrite <- Zle_Qle; lia).
  f_equal. unfold Qeq in Hq. cbn in Hq. rewrite Z.mul_1_r in Hq. rewrite Hq.
  apply Z.quot_mul. lia.
Qed.

(** *** Splitting an ISO string *)

(** Every character of one class is in another: decided on the 256
    characters. *)
Ltac ascii_cases := intros c; destruct c as [[] [] [] [] [] [] [] []]; cbv; congruence.

Lemma str_forall_impl (P Q : ascii -> bool) (s : string) :
  (forall c, P c = true -> Q c = true) -> str_forall P s = true -> str_forall Q s = true.
Proof.
  intros HPQ. induction s as [|c s IH]; [done|]. cbn. intros [Hc Hs]%andb_prop.
  by rewrite HPQ, IH.
Qed.

Lemma lit_app (c : ascii) (s : string) : String c "" +:+ s = String c s.
Proof. reflexivity. Qed.

Lemma truthy_length (s : string) : (0 < String.length s)%nat -> truthy s = true.
Proof. intros Hs. apply string_truthy_iff. intros ->. cbn in Hs. lia. Qed.

(** The date-and-time shape: a date of digits and [-], [T], a time of
    digits, [:] and [.], and [Z]. *)
Lemma splitDateString_utc (D R : string) :
  str_forall (fun c => is_digit c || Ascii.eqb c "-") D = true ->
  str_forall (fun c => is_digit c || Ascii.eqb c ":" || Ascii.eqb c ".") R = true ->
  (0 < String.length R)%nat ->
  splitDateString (D +:+ "T" +:+ R +:+ "Z") =
  {| ds_date := Some D; ds_time := Some R; ds_timezone := Some "Z" |}.
Proof.
  intros HD HR HRl. unfold splitDateString.
  assert (HD_colon : forall c, (is_digit c || Ascii.eqb c "-") = true -> negb (is_colon c) = true)
    by ascii_cases.
  assert (HD_tz : forall c, (is_digit c || Ascii.eqb c "-") = true ->
                  negb (is_time_zone_delimiter c) = true) by ascii_cases.
  assert (HDd : str_forall (fun c => negb (is_date_time_delimiter c)) D = true)
    by (eapply str_forall_impl; [|exact HD]; ascii_cases).
  assert (HRd : str_forall (fun c => negb (is_date_time_delimiter c)) (R +:+ "Z") = true).
  { rewrite str_forall_app. apply andb_true_intro. split; [|done].
    eapply str_forall_impl; [|exact HR]; ascii_cases. }
  rewrite split_on_app_free by done. rewrite (lit_app "T"). cbn [split_on].
  change (is_date_time_delimiter "T") with true. cbn iota.
  rewrite (split_on_free _ (R +:+ "Z")) by done. cbn [length hd tl head default nth_error].
  rewrite string_app_nil_r.
  rewrite !str_exists_forall. unfold Datatypes.id.
  rewrite (str_forall_impl _ (fun c => negb (is_colon c)) D HD_colon HD).
  rewrite (str_forall_impl _ (fun c => negb (is_time_zone_delimiter c)) D HD_tz HD).
  cbn [negb]. rewrite truthy_length by (rewrite string_length_app; cbn; lia).
  assert (HRt : str_forall (fun c => negb (is_timezone_start c)) R = true)
    by (eapply str_forall_impl; [|exact HR]; ascii_cases).
  rewrite str_exists_forall, str_forall_app, HRt. cbn [str_forall negb andb].
  destruct (take_until_app_free is_timezone_start R "Z" HRt) as [-> ->].
  cbn. by rewrite string_app_nil_r.
Qed.

(** The date-only shape. *)
Lemma splitDateString_date (D : string) :
  str_forall (fun c => is_digit c || Ascii.eqb c "-") D = true ->
  splitDateString D = {| ds_date := Some D; ds_time := None; ds_timezone := None |}.
Proof.
  intros HD. unfold splitDateString.
  rewrite split_on_free by (eapply str_forall_impl; [|exact HD]; ascii_cases).
  cbn [length head default Datatypes.id nth_error]. rewrite !str_exists_forall.
  rewrite (str_forall_impl (fun c => is_digit c || Ascii.eqb c "-") (fun c => negb (is_colon c)) D)
    by (exact HD || ascii_cases).
  rewrite (str_forall_impl (fun c => is_digit c || Ascii.eqb c "-")
             (fun c => negb (is_time_zone_delimiter c)) D) by (exact HD || ascii_cases).
  reflexivity.
Qed.

(** *** The fields *)

Lemma pad_digits_digits (k : nat) (n : Z) : str_forall is_digit (pad_digits k n) = true.
Proof. apply str_forall_pad. digit_class. Qed.

Lemma rp_digits_pad (k : nat) (n : Z) (r : string) :
  rp_digits k (pad_digits k n +:+ r) = [(pad_digits k n, r)].
Proof.
  rewrite <- (pad_digits_length k n) at 1. apply rp_digits_app, pad_digits_digits.
Qed.

Lemma parseYear_pad (y : Z) (rest : string) : 0 <= y < 10000 ->
  parseYear (pad_digits 4 y +:+ rest) = Some (y, rest).
Proof.
  intros Hy. unfold parseYear.
  rewrite (first_match_starts _ _ (inl y, rest)); [done|].
  unfold year_pattern, mbind, rp_mbind, mret, rp_mret. apply starts_alt.
  eapply starts_bind; [|apply starts_ret]. apply starts_alt.
  eapply starts_bind; [rewrite rp_digits_pad; by eexists|].
  rewrite parseInt_pad by (cbn; lia). apply starts_ret.
Qed.

(** A day beyond the first of the month counts on from it. *)
Lemma days_from_civil_day (y m d : Z) : days_from_civil y m d = days_from_civil y m 1 + (d - 1).
Proof. unfold days_from_civil, doy_of_md. lia. Qed.

Lemma parseDate_md (y m d : Z) : 0 <= m < 100 -> 0 <= d < 100 ->
  parseDate ("-" +:+ pad_digits 2 m +:+ "-" +:+ pad_digits 2 d) y =
  if valid_date y m d then clip_day (days_from_civil y m d) else None.
Proof.
  intros Hm Hd. unfold parseDate.
  rewrite (first_match_starts _ _ (MonthDay (pad_digits 2 m) (Some (pad_digits 2 d)), "")).
  - cbn [mbind option_bind parseDateUnit]. rewrite !parseInt_pad by (cbn; lia).
    replace (m - 1 + 1) with m by lia.
    replace (validateDayOfYearDate y 1) with true
      by (unfold validateDayOfYearDate; destruct (is_leap_year y); reflexivity).
    rewrite andb_true_r. destruct (valid_date y m d) eqn:Hv; [|done].
    unfold valid_date in Hv. apply andb_prop in Hv as [Hv Hd2]. apply andb_prop in Hv as [_ Hd1].
    apply Z.leb_le in Hd1. rewrite (days_from_civil_day y m d). do 2 f_equal. lia.
  - unfold date_pattern, mbind, rp_mbind, mret, rp_mret. rewrite lit_app.
    eapply starts_bind; [apply starts_opt, starts_char|].
    eapply starts_bind; [|eapply starts_bind; [apply starts_end|apply starts_ret]].
    rewrite alt_nil.
    + apply starts_alt. eapply starts_bind; [rewrite rp_digits_pad; by eexists|].
      eapply starts_bind; [|apply starts_ret]. apply starts_opt.
      rewrite lit_app. eapply starts_bind; [apply starts_opt, starts_char|].
      rewrite <- (string_app_nil_r (pad_digits 2 d)), rp_digits_pad. by eexists.
    + apply bind_nil. rewrite <- (pad_digits_length 2 m) at 1. rewrite lit_app.
      apply rp_digits_stop; [apply pad_digits_digits|done].
Qed.

Lemma time_field_int (n : Z) (r : string) :
  rp_sat (fun c => Ascii.eqb c "." || Ascii.eqb c ",") r = [] ->
  starts (time_field (pad_digits 2 n +:+ r)) ({| tf_int := pad_digits 2 n; tf_frac := None |}, r).
Proof.
  intros Hdot. unfold time_field, mbind, rp_mbind, mret, rp_mret.
  eapply starts_bind; [rewrite rp_digits_pad; by eexists|].
  eapply starts_bind; [apply starts_opt_none|apply starts_ret].
  by apply bind_nil.
Qed.

Lemma time_field_frac (n f : Z) :
  starts (time_field (pad_digits 2 n +:+ "." +:+ pad_digits 3 f))
    ({| tf_int := pad_digits 2 n; tf_frac := Some (pad_digits 3 f) |}, EmptyString).
Proof.
  unfold time_field, mbind, rp_mbind, mret, rp_mret.
  eapply starts_bind; [rewrite rp_digits_pad; by eexists|].
  eapply starts_bind; [apply starts_opt|apply starts_ret].
  rewrite lit_app. eapply starts_bind; [by eexists|].
  apply digits_star_all, pad_digits_digits.
Qed.

Lemma inject_Z_bounds (a n b : Z) : a <= n <= b -> (inject_Z a <= inject_Z n <= inject_Z b)%Q.
Proof. intros [H1 H2]. split; by rewrite <- Zle_Qle. Qed.

(** Bounds of an integer as bounds of a rational [lra] reads. *)
Ltac qbounds n a b :=
  let H := fresh "Hq" in
  pose proof (inject_Z_bounds a n b ltac:(lia)) as H;
  change (inject_Z a) with (a # 1)%Q in H; change (inject_Z b) with (b # 1)%Q in H.

Lemma parseTime_iso (h mi s ms : Z) :
  0 <= h < 24 -> 0 <= mi < 60 -> 0 <= s < 60 -> 0 <= ms < 1000 ->
  exists q, parseTime (pad_digits 2 h +:+ ":" +:+ pad_digits 2 mi +:+ ":" +:+
                       pad_digits 2 s +:+ "." +:+ pad_digits 3 ms) = Some q /\
    (q == inject_Z (h * 3600000 + mi * 60000 + s * 1000 + ms))%Q.
Proof.
  intros Hh Hmi Hs Hms. unfold parseTime.
  rewrite (first_match_starts _ _
    (({| tf_int := pad_digits 2 h; tf_frac := None |},
      Some {| tf_int := pad_digits 2 mi; tf_frac := None |},
      Some {| tf_int := pad_digits 2 s; tf_frac := Some (pad_digits 3 ms) |}), EmptyString)).
  - cbn [mbind option_bind]. unfold parseTimeUnit. cbn [tf_int tf_frac].
    rewrite !parseInt_pad by (cbn; lia). rewrite pad_digits_length.
    change (inject_Z (10 ^ Z.of_nat 3)) with 1000%Q.
    qbounds h 0 23. qbounds mi 0 59. qbounds s 0 59. qbounds ms 0 999.
    change (inject_Z ms / 1000)%Q with (inject_Z ms * (1 # 1000))%Q.
    replace (validateTime _ _ _) with true.
    + eexists. split; [reflexivity|]. rewrite !inject_Z_plus, !inject_Z_mult. field.
    + symmetry. unfold validateTime.
      replace (Qeq_bool (inject_Z h + 0) 24) with false
        by (symmetry; apply not_true_iff_false; rewrite Qeq_bool_iff; lra).
      cbv iota. repeat (apply andb_true_intro; split);
        first [apply Qle_bool_iff; lra | apply negb_true_iff, not_true_iff_false; rewrite Qle_bool_iff; lra].
  - unfold time_pattern, mbind, rp_mbind, mret, rp_mret.
    eapply starts_bind; [apply time_field_int; done|].
    eapply starts_bind.
    { apply starts_opt. rewrite lit_app. eapply starts_bind; [apply starts_opt, starts_char|].
      apply time_field_int; done. }
    eapply starts_bind.
    { apply starts_opt. rewrite lit_app. eapply starts_bind; [apply starts_opt, starts_char|].
      apply time_field_frac. }
    eapply starts_bind; [apply starts_end|apply starts_ret].
Qed.

(** The date-and-time shape without a timezone. *)
Lemma splitDateString_local (D R : string) :
  str_forall (fun c => is_digit c || Ascii.eqb c "-") D = true ->
  str_forall (fun c => is_digit c || Ascii.eqb c ":") R = true ->
  (0 < String.length R)%nat ->
  splitDateString (D +:+ "T" +:+ R) =
  {| ds_date := Some D; ds_time := Some R; ds_timezone := None |}.
Proof.
  intros HD HR HRl. unfold splitDateString.
  assert (HD_colon : forall c, (is_digit c || Ascii.eqb c "-") = true -> negb (is_colon c) = true)
    by ascii_cases.
  assert (HD_tz : forall c, (is_digit c || Ascii.eqb c "-") = true ->
                  negb (is_time_zone_delimiter c) = true) by ascii_cases.
  rewrite split_on_app_free by (eapply str_forall_impl; [|exact HD]; ascii_cases).
  rewrite (lit_app "T"). cbn [split_on].
  change (is_date_time_delimiter "T") with true. cbn iota.
  rewrite (split_on_free _ R) by (eapply str_forall_impl; [|exact HR]; ascii_cases).
  cbn [length hd tl head default nth_error]. rewrite string_app_nil_r.
  rewrite !str_exists_forall. unfold Datatypes.id.
  rewrite (str_forall_impl _ (fun c => negb (is_colon c)) D HD_colon HD).
  rewrite (str_forall_impl _ (fun c => negb (is_time_zone_delimiter c)) D HD_tz HD).
  cbn [negb]. rewrite truthy_length by done.
  rewrite str_exists_forall.
  rewrite (str_forall_impl (fun c => is_digit c || Ascii.eqb c ":") (fun c => negb (is_timezone_start c)) R)
    by (exact HR || ascii_cases).
  reflexivity.
Qed.

Lemma parseTime_hms (h mi s : Z) : 0 <= h < 24 -> 0 <= mi < 60 -> 0 <= s < 60 ->
  exists q, parseTime (pad_digits 2 h +:+ ":" +:+ pad_digits 2 mi +:+ ":" +:+ pad_digits 2 s) = Some q /\
    (q == inject_Z (h * 3600000 + mi * 60000 + s * 1000))%Q.
Proof.
  intros Hh Hmi Hs. unfold parseTime.
  rewrite (first_match_starts _ _
    (({| tf_int := pad_digits 2 h; tf_frac := None |},
      Some {| tf_int := pad_digits 2 mi; tf_frac := None |},
      Some {| tf_int := pad_digits 2 s; tf_frac := None |}), EmptyString)).
  - cbn [mbind option_bind]. unfold parseTimeUnit. cbn [tf_int tf_frac].
    rewrite !parseInt_pad by (cbn; lia).
    qbounds h 0 23. qbounds mi 0 59. qbounds s 0 59.
    replace (validateTime _ _ _) with true.
    + eexists. split; [reflexivity|]. rewrite !inject_Z_plus, !inject_Z_mult. field.
    + symmetry. unfold validateTime.
      replace (Qeq_bool (inject_Z h + 0) 24) with false
        by (symmetry; apply not_true_iff_false; rewrite Qeq_bool_iff; lra).
      cbv iota. repeat (apply andb_true_intro; split);
        first [apply Qle_bool_iff; lra | apply negb_true_iff, not_true_iff_false; rewrite Qle_bool_iff; lra].
  - unfold time_pattern, mbind, rp_mbind, mret, rp_mret.
    eapply starts_bind; [apply time_field_int; done|].
    eapply starts_bind.
    { apply starts_opt. rewrite lit_app. eapply starts_bind; [apply starts_opt, starts_char|].
      apply time_field_int; done. }
    eapply starts_bind.
    { apply starts_opt. rewrite lit_app. eapply starts_bind; [apply starts_opt, starts_char|].
      rewrite <- (string_app_nil_r (pad_digits 2 s)). apply time_field_int; done. }
    eapply starts_bind; [apply starts_end|apply starts_ret].
Qed.

(** *** The round trips *)

(** The day numbers of years 0 to 9999 are far inside [TimeClip]'s range. *)
Lemma days_from_civil_range (y m d : Z) : 0 <= y <= 9999 -> 1 <= m <= 12 -> 1 <= d <= 31 ->
  -1000000 <= days_from_civil y m d <= 4000000.
Proof.
  intros Hy Hm Hd. unfold days_from_civil.
  set (y' := if m <=? 2 then y - 1 else y).
  assert (Hy' : -1 <= y' <= 9999) by (unfold y'; destruct (m <=? 2); lia).
  pose proof (year_start_bounds (y' - y' / 400 * 400) ltac:(zlia)).
  unfold doy_of_md. zlia.
Qed.

(** The class of the characters of the date part of an ISO string. *)
Ltac iso_class :=
  repeat rewrite str_forall_app; rewrite ?str_forall_pad by digit_class; reflexivity.

Lemma civil_of_toISOString_parts (t : Z) :
  0 <= c_year (civil_of_ms t) <= 9999 ->
  exists y m d, civil_from_days (t / ms_per_day) = (y, m, d) /\
    days_from_civil y m d = t / ms_per_day /\ 0 <= y <= 9999 /\ 1 <= m <= 12 /\
    1 <= d <= days_in_month y m /\ -1000000 <= t / ms_per_day <= 4000000 /\
    clip_day (t / ms_per_day) = Some (t / ms_per_day).
Proof.
  unfold civil_of_ms. intros Hy.
  pose proof (days_from_civil_civil_from_days (t / ms_per_day)) as Hz.
  pose proof (civil_from_days_valid (t / ms_per_day)) as Hv.
  destruct (civil_from_days (t / ms_per_day)) as [[y m] d] eqn:Hc. cbn in Hy.
  unfold valid_date in Hv. bool_facts Hv. pose proof (days_in_month_bounds y m).
  pose proof (days_from_civil_range y m d ltac:(lia) ltac:(lia) ltac:(lia)).
  exists y, m, d. repeat split; try done; try lia.
  unfold clip_day. rewrite (proj2 (Z.leb_le _ _)); [done|]. unfold max_time_value, ms_per_day in *. lia.
Qed.

(** [parseISO] reads back the instant [toISOString] printed, in every
    time zone, for years 0 to 9999 (the years [toISOString] prints with
    four digits). *)
Theorem parseISO_toISOString (tzo t : Z) :
  0 <= c_year (civil_of_ms t) <= 9999 -> parseISO tzo (toISOString t) = Some t.
Proof.
  intros Hy. destruct (civil_of_toISOString_parts t Hy)
    as (y & m & d & Hc & Hz & Hy' & Hm & Hd & Hzr & Hclip).
  pose proof (days_in_month_bounds y m).
  assert (Hms : 0 <= t mod ms_per_day < ms_per_day) by (unfold ms_per_day; zlia).
  set (ms := t mod ms_per_day) in *.
  destruct (parseTime_iso (ms / 3600000) (ms / 60000 mod 60) (ms / 1000 mod 60) (ms mod 1000))
    as (q & Hq & Hqe); try (unfold ms_per_day in *; zlia).
  unfold toISOString, civil_of_ms. rewrite Hc. cbn [c_year c_month c_day c_ms]. fold ms.
  set (D := pad_digits 4 y +:+ "-" +:+ pad_digits 2 m +:+ "-" +:+ pad_digits 2 d).
  set (R := pad_digits 2 (ms / 3600000) +:+ ":" +:+ pad_digits 2 (ms / 60000 mod 60) +:+ ":" +:+
            pad_digits 2 (ms / 1000 mod 60) +:+ "." +:+ pad_digits 3 (ms mod 1000)).
  replace (pad_digits 4 y +:+ _) with (D +:+ "T" +:+ R +:+ "Z")
    by (unfold D, R; rewrite !string_app_assoc; reflexivity).
  unfold parseISO. rewrite splitDateString_utc; [|unfold D; iso_class|unfold R; iso_class|].
  2: { unfold R. rewrite !string_length_app, !pad_digits_length. cbn. lia. }
  cbn [ds_date ds_time ds_timezone mbind option_bind].
  rewrite truthy_length by (unfold D; rewrite string_length_app, pad_digits_length; lia).
  cbn [negb]. unfold D. rewrite parseYear_pad by lia. cbn [mbind option_bind].
  rewrite parseDate_md by lia.
  replace (valid_date y m d) with true
    by (symmetry; unfold valid_date; repeat (apply andb_true_intro; split); apply Z.leb_le; lia).
  rewrite Hz, Hclip. cbn [mbind option_bind].
  rewrite truthy_length by (unfold R; rewrite !string_length_app, !pad_digits_length; cbn; lia).
  unfold R. rewrite Hq. cbn [mbind option_bind]. change (parseTimezone "Z") with (Some 0).
  cbn [mbind option_bind]. apply timeClip_int.
  - rewrite Hqe, <- !inject_Z_plus. apply inject_Z_injective. unfold ms, ms_per_day in *. zlia.
  - unfold max_time_value, ms, ms_per_day in *. zlia.
Qed.

Lemma obind_Some {A B} (x : A) (f : A -> option B) : Some x ≫= f = f x.
Proof. reflexivity. Qed.

Lemma instant_of_local_fields (tzo : Z) (c : Civil) (r : Z) :
  instant_of_local tzo {| c_year := c_year c; c_month := c_month c; c_day := c_day c; c_ms := r |} =
  instant_of_local tzo c - c_ms c + r.
Proof. unfold instant_of_local, ms_of_civil. cbn. lia. Qed.

Lemma instant_of_local_civil (tzo x : Z) :
  instant_of_local tzo (civil_of_ms x) = x - tzo * ms_per_minute.
Proof.
  unfold instant_of_local, ms_of_civil, civil_of_ms.
  pose proof (days_from_civil_civil_from_days (x / ms_per_day)) as Hz.
  destruct (civil_from_days (x / ms_per_day)) as [[y m] d]. cbn. rewrite Hz.
  unfold ms_per_day. zlia.
Qed.

Lemma c_ms_civil_of_ms (x : Z) : c_ms (civil_of_ms x) = x mod ms_per_day.
Proof. unfold civil_of_ms. by destruct (civil_from_days (x / ms_per_day)) as [[y m] d]. Qed.

(** The local branch of [parseISO] on a UTC day and a time of day:
    the wall-clock reading moves it back by the offset.  The proof
    rewrites rather than computes, so that the kernel never evaluates
    [TimeClip] on an open term. *)
Lemma parseISO_local_branch (tzo z n : Z) (q : Q) :
  -1440 < tzo < 1440 -> -1000000 <= z <= 4000000 -> 0 <= n <= ms_per_day -> (q == inject_Z n)%Q ->
  timeClip (inject_Z (z * ms_per_day) + q)
  ≫= (λ dirtyDate : Z,
        timeClip
          (inject_Z
             (instant_of_local tzo
                {| c_year := c_year (civil_of_ms dirtyDate);
                   c_month := c_month (civil_of_ms dirtyDate);
                   c_day := c_day (civil_of_ms dirtyDate);
                   c_ms := (tzo * ms_per_minute) mod ms_per_day |}))
        ≫= λ _ : Z, timeClip (inject_Z (instant_of_local tzo (civil_of_ms dirtyDate)))) =
  Some (z * ms_per_day + n - tzo * ms_per_minute).
Proof.
  intros Htz Hzr Hn Hq.
  rewrite (timeClip_int _ (z * ms_per_day + n));
    [|by rewrite Hq, inject_Z_plus|unfold max_time_value, ms_per_day in *; lia].
  rewrite obind_Some, instant_of_local_fields, !instant_of_local_civil, c_ms_civil_of_ms.
  pose proof (Z.mod_pos_bound (tzo * ms_per_minute) ms_per_day ltac:(unfold ms_per_day; lia)).
  pose proof (Z.mod_pos_bound (z * ms_per_day + n) ms_per_day ltac:(unfold ms_per_day; lia)).
  set (r := (tzo * ms_per_minute) mod ms_per_day) in *.
  set (r' := (z * ms_per_day + n) mod ms_per_day) in *.
  rewrite (timeClip_int _ _ (Qeq_refl _)) by (unfold max_time_value, ms_per_day, ms_per_minute in *; lia).
  rewrite (timeClip_int _ _ (Qeq_refl _)) by (unfold max_time_value, ms_per_day, ms_per_minute in *; lia).
  by rewrite !obind_Some.
Qed.

(** A bare date [YYYY-MM-DD], the value of an [<input type="date">],
    is read as local midnight of that date, for an offset of less than
    a day. *)
Lemma parseISO_local_date (tzo y m d : Z) :
  -1440 < tzo < 1440 -> 0 <= y <= 9999 -> valid_date y m d = true ->
  parseISO tzo (pad_digits 4 y +:+ "-" +:+ pad_digits 2 m +:+ "-" +:+ pad_digits 2 d) =
  Some (instant_of_local tzo {| c_year := y; c_month := m; c_day := d; c_ms := 0 |}).
Proof.
  intros Htz Hy Hv.
  pose proof Hv as Hv'. unfold valid_date in Hv'. bool_facts Hv'. pose proof (days_in_month_bounds y m).
  pose proof (days_from_civil_range y m d ltac:(lia) ltac:(lia) ltac:(lia)).
  unfold parseISO. rewrite splitDateString_date by iso_class.
  cbn [ds_date ds_time ds_timezone mbind option_bind].
  rewrite truthy_length by (rewrite string_length_app, pad_digits_length; lia).
  cbn [negb]. rewrite parseYear_pad by lia. cbn [mbind option_bind].
  rewrite parseDate_md, Hv by lia.
  replace (clip_day (days_from_civil y m d)) with (Some (days_from_civil y m d))
    by (unfold clip_day; rewrite (proj2 (Z.leb_le _ _)); [done|unfold max_time_value, ms_per_day; lia]).
  cbn [mbind option_bind].
  rewrite (parseISO_local_branch tzo _ 0); [|done|lia|unfold ms_per_day; lia|done].
  f_equal.
Qed.

(** The date part of [toISOString t], read by [parseISO] without a
    timezone, is local midnight of the UTC day of [t], for an offset of
    less than a day. *)
Lemma parseISO_date_of_toISOString (tzo t : Z) :
  -1440 < tzo < 1440 -> 0 <= c_year (civil_of_ms t) <= 9999 ->
  parseISO tzo (split_T_first (toISOString t)) =
  Some (t / ms_per_day * ms_per_day - tzo * ms_per_minute).
Proof.
  intros Htz Hy. destruct (civil_of_toISOString_parts t Hy)
    as (y & m & d & Hc & Hz & Hy' & Hm & Hd & _ & _).
  pose proof (days_in_month_bounds y m).
  rewrite split_T_first_toISOString. unfold civil_of_ms at 1 2 3. rewrite Hc.
  cbn [c_year c_month c_day]. rewrite string_app_nil_r.
  rewrite parseISO_local_date; [|done|lia|].
  - f_equal. unfold instant_of_local, ms_of_civil. cbn. lia.
  - unfold valid_date. repeat (apply andb_true_intro; split); apply Z.leb_le; lia.
Qed.

(** C4: [parseISO] reads a date and time without a timezone, the shape
    [YYYY-MM-DDTHH:MM:SS] a bill scanner or an older client may store,
    as local wall-clock time: the instant whose local date and time are
    the ones written, in every time zone of an offset less than a day. *)
Theorem parseISO_local_datetime (tzo y m d h mi s : Z) :
  -1440 < tzo < 1440 -> 0 <= y <= 9999 -> valid_date y m d = true ->
  0 <= h < 24 -> 0 <= mi < 60 -> 0 <= s < 60 ->
  parseISO tzo (pad_digits 4 y +:+ "-" +:+ pad_digits 2 m +:+ "-" +:+ pad_digits 2 d +:+ "T" +:+
                pad_digits 2 h +:+ ":" +:+ pad_digits 2 mi +:+ ":" +:+ pad_digits 2 s) =
  Some (instant_of_local tzo
          {| c_year := y; c_month := m; c_day := d; c_ms := h * 3600000 + mi * 60000 + s * 1000 |}).
Proof.
  intros Htz Hy Hv Hh Hmi Hs.
  pose proof Hv as Hv'. unfold valid_date in Hv'. bool_facts Hv'. pose proof (days_in_month_bounds y m).
  pose proof (days_from_civil_range y m d ltac:(lia) ltac:(lia) ltac:(lia)).
  destruct (parseTime_hms h mi s Hh Hmi Hs) as (q & Hq & Hqe).
  set (D := pad_digits 4 y +:+ "-" +:+ pad_digits 2 m +:+ "-" +:+ pad_digits 2 d).
  set (R := pad_digits 2 h +:+ ":" +:+ pad_digits 2 mi +:+ ":" +:+ pad_digits 2 s).
  replace (pad_digits 4 y +:+ _) with (D +:+ "T" +:+ R)
    by (unfold D, R; rewrite !string_app_assoc; reflexivity).
  unfold parseISO. rewrite splitDateString_local; [|unfold D; iso_class|unfold R; iso_class|].
  2: { unfold R. rewrite !string_length_app, !pad_digits_length. cbn. lia. }
  cbn [ds_date ds_time ds_timezone mbind option_bind].
  rewrite truthy_length by (unfold D; rewrite string_length_app, pad_digits_length; lia).
  cbn [negb]. unfold D. rewrite parseYear_pad by lia. cbn [mbind option_bind].
  rewrite parseDate_md, Hv by lia.
  replace (clip_day (days_from_civil y m d)) with (Some (days_from_civil y m d))
    by (unfold clip_day; rewrite (proj2 (Z.leb_le _ _)); [done|unfold max_time_value, ms_per_day; lia]).
  cbn [mbind option_bind].
  rewrite truthy_length by (unfold R; rewrite !string_length_app, !pad_digits_length; cbn; lia).
  unfold R. rewrite Hq. cbn [mbind option_bind].
  rewrite (parseISO_local_branch tzo _ (h * 3600000 + mi * 60000 + s * 1000));
    [|done|lia|unfold ms_per_day; lia|done].
  f_equal.
Qed.

(** C31: date-fns checks the calendar date: a [YYYY-MM-DD] string
    whose month is not 1 to 12 or whose day is not in its month (30
    February, 31 April, 29 February of a common year, day 00) is an
    Invalid Date, whether it stands alone or is followed by a time, in
    every time zone; it is not rolled over into the next month as
    [new Date(y, m, d)] would.  Such a date is dropped by the retention
    filter and makes [format] throw in the History list. *)
Theorem parseISO_invalid_date (tzo y m d : Z) (R : string) :
  0 <= y <= 9999 -> 0 <= m < 100 -> 0 <= d < 100 -> valid_date y m d = false ->
  let D := pad_digits 4 y +:+ "-" +:+ pad_digits 2 m +:+ "-" +:+ pad_digits 2 d in
  parseISO tzo D = None /\
  (str_forall (fun c => is_digit c || Ascii.eqb c ":") R = true -> (0 < String.length R)%nat ->
   parseISO tzo (D +:+ "T" +:+ R) = None).
Proof.
  intros Hy Hm Hd Hv D.
  assert (HD : str_forall (fun c => is_digit c || Ascii.eqb c "-") D = true) by (unfold D; iso_class).
  assert (Hread : forall t tm z, splitDateString t = {| ds_date := Some D; ds_time := tm; ds_timezone := z |} ->
                   parseISO tzo t = None).
  { intros t tm z Hs. unfold parseISO. rewrite Hs. cbn [ds_date ds_time ds_timezone mbind option_bind].
    rewrite truthy_length by (unfold D; rewrite string_length_app, pad_digits_length; lia).
    cbn [negb]. unfold D. rewrite parseYear_pad by lia. cbn [mbind option_bind].
    by rewrite parseDate_md, Hv by lia. }
  split.
  - apply (Hread _ None None), splitDateString_date, HD.
  - intros HR HRl. apply (Hread _ (Some R) None), splitDateString_local; done.
Qed.

Lemma parseISO_local_datetime_witness :
  parseISO 330 "2024-03-15T10:00:00" = Some 1710477000000 /\
  parseISO 330 (pad_digits 4 2024 +:+ "-" +:+ pad_digits 2 3 +:+ "-" +:+ pad_digits 2 15 +:+ "T" +:+
                pad_digits 2 10 +:+ ":" +:+ pad_digits 2 0 +:+ ":" +:+ pad_digits 2 0) =
  Some (instant_of_local 330
          {| c_year := 2024; c_month := 3; c_day := 15; c_ms := 10 * 3600000 + 0 * 60000 + 0 * 1000 |}).
Proof.
  split; [vm_compute; reflexivity|].
  apply (parseISO_local_datetime 330 2024 3 15 10 0 0); (lia || reflexivity).
Defined.

Lemma parseISO_invalid_date_witness :
  parseISO 330 "2023-02-29" = None /\
  parseISO 330 (pad_digits 4 2023 +:+ "-" +:+ pad_digits 2 2 +:+ "-" +:+ pad_digits 2 29 +:+ "T" +:+ "10:00") = None.
Proof.
  destruct (parseISO_invalid_date 330 2023 2 29 "10:00") as [H1 H2]; [lia | lia | lia | reflexivity |].
  split; [exact H1 | apply H2; [reflexivity | cbn; lia]].
Defined.
