(* ===== verification/Ledger.v ===== *)
(** * Ledger: the expense list of [src/App.tsx]

    - [fullExpense] is the record [addExpense] builds (lines 73-79) from a
      [Partial<Expense>], a fresh [crypto.randomUUID()] and the current
      instant's [toISOString()];
    - [currentWeekTotal] is the [reduce] at lines 85-89, which sums the
      whole updated ledger (not a calendar week);
    - [checkLimit] is the test and message of lines 91-92;
    - [addToLedger] composes them as [addExpense] does: prepend, total,
      alert;
    - [retainRecent] is the two-month filter of the load effect (lines
      50-51).
    [number_to_string] renders a number in the alert's template literal. *)

From S2P Require Import Prelude Types Calendar DateFns.
From stdpp Require Import pretty.
From Stdlib Require Import ZArith.

Local Open Scope Q_scope.

(** ** Rendering a number as JavaScript's [String(x)]

    Exact for values with a terminating decimal expansion (every value
    parsed from a decimal literal) of magnitude between [1e-6] and
    [1e21], where JavaScript does not switch to exponent notation; other
    rationals are truncated after 20 fractional digits. *)

Fixpoint frac_digits (fuel k : nat) (d : Z) : option nat :=
  match fuel with
  | O => None
  | S fuel' => if ((10 ^ Z.of_nat k) mod d =? 0)%Z then Some k else frac_digits fuel' (S k) d
  end.

Definition number_to_string (q : Q) : string :=
  let r := Qred q in
  let n := Qnum r in
  let d := Zpos (Qden r) in
  if (d =? 1)%Z then pretty n else
  let k := default 20%nat (frac_digits 40 0 d) in
  let scaled := (Z.abs n * 10 ^ Z.of_nat k / d)%Z in
  (if (n <? 0)%Z then "-" else "") +:+ pretty (scaled / 10 ^ Z.of_nat k)%Z +:+ "." +:+
  pad_digits k (scaled mod 10 ^ Z.of_nat k)%Z.

(** ** [addExpense] *)

Definition fullExpense (newId nowIso : string) (exp : PartialExpense) : Expense :=
  {| id := newId;
     amount := p_amount exp ||? 0%Q;
     category := p_category exp ||? "Other";
     description := p_description exp ||? "";
     date := p_date exp ||? nowIso |}.

Definition currentWeekTotal (expenses : list Expense) : Q := reduce_sum amount expenses.

Definition alertMessage (settings : AppSettings) : string :=
  "ALERT: Weekly limit of ₹" +:+ number_to_string (weeklyLimit settings) +:+
  " exceeded! SMS sent to " +:+ phoneNumber settings.

Definition checkLimit (expenses : list Expense) (settings : AppSettings) : option string :=
  if js_gt (currentWeekTotal expenses) (weeklyLimit settings)
  then Some (alertMessage settings) else None.

(** The ledger part of [addExpense]: the new list, the created record
    and the alert to prepend to the notifications, if any. *)
Definition addToLedger (newId nowIso : string) (exp : PartialExpense)
    (expenses : list Expense) (settings : AppSettings)
    : list Expense * Expense * option string :=
  let e := fullExpense newId nowIso exp in
  let updatedExpenses := e :: expenses in
  (updatedExpenses, e, checkLimit updatedExpenses settings).

(** ** The retention filter of the load effect *)

Definition twoMonthsAgo (tzo now : Z) : Z := subMonths tzo now 2.

Definition retainRecent (tzo now : Z) (parsed : list Expense) : list Expense :=
  List.filter (fun e => isAfter (parseISO tzo (date e)) (twoMonthsAgo tzo now)) parsed.

Definition ids (expenses : list Expense) : list string := id <$> expenses.

(** Sample records for the witnesses below. *)
Definition sampleExpense (i d : string) (a : Q) : Expense :=
  {| id := i; amount := a; category := "Food"; date := d; description := "" |}.

(** One entry dated three months before 2024-06-10T06:13:20.123Z, one
    dated five days before, in India Standard Time. *)
Definition sampleLedger : list Expense :=
  [sampleExpense "a" "2024-06-05" 100; sampleExpense "b" "2024-03-10" 250].

(** ** The specification's reading of a defaulted field

    The field takes the provided value when one is given and truthy, and
    the default otherwise. *)
Definition defaults_to {A} `{JsTruthy A} (x : option A) (d v : A) : Prop :=
  (exists w, x = Some w /\ truthy w = true /\ v = w) \/
  ((x = None \/ exists w, x = Some w /\ truthy w = false) /\ v = d).

Lemma js_or_defaults_to {A} `{JsTruthy A} (x : option A) (d : A) :
  defaults_to x d (x ||? d).
Proof.
  unfold defaults_to, js_or. destruct x as [w|]; [|by right; split; [left|]].
  destruct (truthy w) eqn:Hw; [left; by exists w | right; split; [right; eauto|done]].
Qed.

Lemma currentWeekTotal_cons (e : Expense) (l : list Expense) :
  currentWeekTotal (e :: l) == amount e + currentWeekTotal l.
Proof. apply reduce_sum_cons. Qed.

Lemma ids_cons (e : Expense) (l : list Expense) : ids (e :: l) = id e :: ids l.
Proof. reflexivity. Qed.

Lemma checkLimit_some_iff (l : list Expense) (s : AppSettings) (msg : string) :
  checkLimit l s = Some msg <-> weeklyLimit s < currentWeekTotal l /\ msg = alertMessage s.
Proof.
  unfold checkLimit. case_js_gt; split.
  - intros [= <-]. done.
  - intros [_ ->]. done.
  - done.
  - intros [Hlt _]. apply js_gt_iff in Hlt. congruence.
Qed.

Lemma checkLimit_none_iff (l : list Expense) (s : AppSettings) :
  checkLimit l s = None <-> currentWeekTotal l <= weeklyLimit s.
Proof.
  unfold checkLimit. case_js_gt; split; try done.
  - intros Hle. lra.
  - intros _. apply Qnot_lt_le. intros Hlt. apply js_gt_iff in Hlt. congruence.
Qed.

#[export] Hint Resolve js_or_defaults_to : spend.

(** ** Properties *)

(** C2: [addExpense] prepends exactly one record: the identifier is the
    fresh one, and amount, category, description and date are the
    provided values when they are given and truthy, and otherwise the
    defaults [0], ["Other"], [""] and the current ISO timestamp. *)
Theorem addToLedger_record (newId nowIso : string) (exp : PartialExpense)
    (expenses : list Expense) (settings : AppSettings) :
  let '(updated, e, _) := addToLedger newId nowIso exp expenses settings in
  updated = e :: expenses /\ id e = newId /\
  defaults_to (p_amount exp) 0%Q (amount e) /\
  defaults_to (p_category exp) "Other" (category e) /\
  defaults_to (p_description exp) "" (description e) /\
  defaults_to (p_date exp) nowIso (date e).
Proof. simpl. repeat split; auto with spend. Qed.

(** C1: the threshold alert: the check run by [addExpense] yields a
    notification exactly when the sum of all amounts in the updated
    ledger, the new record included, strictly exceeds the weekly limit,
    and the notification is the alert text for the current settings. *)
Theorem addToLedger_alert_iff (newId nowIso : string) (exp : PartialExpense)
    (expenses : list Expense) (settings : AppSettings) (msg : string) :
  let '(_, e, alert) := addToLedger newId nowIso exp expenses settings in
  alert = Some msg <->
  weeklyLimit settings < amount e + currentWeekTotal expenses /\ msg = alertMessage settings.
Proof.
  simpl. rewrite checkLimit_some_iff, currentWeekTotal_cons. done.
Qed.

Lemma retainRecent_In (tzo now : Z) (l : list Expense) (e : Expense) :
  In e (retainRecent tzo now l) <->
  In e l /\ exists t, parseISO tzo (date e) = Some t /\ (twoMonthsAgo tzo now < t)%Z.
Proof.
  unfold retainRecent. rewrite filter_In, isAfter_true. done.
Qed.

(** C3: the retention filter of the load effect keeps exactly the
    stored expenses whose date [parseISO] reads as an instant strictly
    after "now minus two months": no entry dated at or before the
    cutoff, and no entry with a date [parseISO] cannot read, survives,
    and every other one does. *)
Theorem retainRecent_after_cutoff (tzo now : Z) (l : list Expense) (e : Expense) :
  In e (retainRecent tzo now l) <->
  In e l /\ exists t, parseISO tzo (date e) = Some t /\ (twoMonthsAgo tzo now < t)%Z.
Proof. apply retainRecent_In. Qed.

(** Retention completeness: every stored expense whose date parses to
    an instant strictly after the cutoff is kept. *)
Lemma retainRecent_keeps_recent (tzo now t : Z) (l : list Expense) (e : Expense) :
  In e l -> parseISO tzo (date e) = Some t -> (twoMonthsAgo tzo now < t)%Z ->
  In e (retainRecent tzo now l).
Proof. intros Hin Hp Hlt. apply retainRecent_In. eauto. Qed.

(** Idempotence: filtering a ledger that was already filtered at the
    same instant changes nothing. *)
Lemma retainRecent_idempotent (tzo now : Z) (l : list Expense) :
  retainRecent tzo now (retainRecent tzo now l) = retainRecent tzo now l.
Proof.
  unfold retainRecent. induction l as [|e l IH]; simpl; [done|].
  destruct (isAfter _ _) eqn:E; simpl; [rewrite E, IH|]; done.
Qed.

(** Filtering keeps the relative order: the result is a sublist. *)
Lemma retainRecent_sublist (tzo now : Z) (l : list Expense) :
  sublist (retainRecent tzo now l) l.
Proof.
  unfold retainRecent. induction l as [|e l IH]; simpl; [done|].
  destruct (isAfter _ _); [by apply sublist_skip|by apply sublist_cons].
Qed.

Lemma retainRecent_ids_NoDup (tzo now : Z) (l : list Expense) :
  NoDup (ids l) -> NoDup (ids (retainRecent tzo now l)).
Proof.
  intros Hnd. eapply sublist_NoDup; [exact Hnd|].
  apply fmap_sublist, retainRecent_sublist.
Qed.

(** The created record's category is never empty. *)
Lemma fullExpense_category_nonempty (newId nowIso : string) (exp : PartialExpense) :
  category (fullExpense newId nowIso exp) <> "".
Proof. apply js_or_string_truthy. discriminate. Qed.

(** The created record's amount is non-negative when the provided one
    is. *)
Lemma fullExpense_amount_nonneg (newId nowIso : string) (exp : PartialExpense) :
  (forall q, p_amount exp = Some q -> 0 <= q) -> 0 <= amount (fullExpense newId nowIso exp).
Proof.
  intros Hq. simpl. unfold js_or. destruct (p_amount exp) as [q|]; [|apply Qle_refl].
  destruct (truthy q); [by apply Hq|apply Qle_refl].
Qed.

(** Identifiers stay distinct: when the generated identifier is not
    already in the ledger and the ledger's identifiers are distinct, the
    updated ledger's identifiers are distinct. *)
Theorem addToLedger_ids_NoDup (newId nowIso : string) (exp : PartialExpense)
    (expenses : list Expense) (settings : AppSettings) :
  newId ∉ ids expenses -> NoDup (ids expenses) ->
  NoDup (ids (addToLedger newId nowIso exp expenses settings).1.1).
Proof. intros Hfresh Hnd. simpl. by constructor. Qed.

(** C16: the record [addExpense] creates from a [Partial<Expense>]
    without a date (or with an empty one) is dated with the full
    [toISOString()] of the instant [now] it is created at, and that date
    reads back through [parseISO] as [now] itself, in every time zone,
    for the years 0 to 9999. *)
Theorem fullExpense_date_instant (tzo now : Z) (newId : string) (exp : PartialExpense) :
  (p_date exp = None \/ p_date exp = Some "") -> (0 <= c_year (civil_of_ms now) <= 9999)%Z ->
  parseISO tzo (date (fullExpense newId (toISOString now) exp)) = Some now.
Proof.
  intros [Hd|Hd] Hy; simpl; rewrite Hd; [rewrite js_or_none|rewrite js_or_falsy by done];
    by apply parseISO_toISOString.
Qed.

(** C17: an expense dated by the add form's default date, the UTC day
    of the instant [now] written as [YYYY-MM-DD], survives the retention
    filter of every load at an instant [now'] up to 57 days after [now],
    in every time zone from less than a day west of UTC up to UTC+14
    (offsets east of UTC in minutes). *)
Theorem retainRecent_keeps_form_date (tzo now now' : Z) (l : list Expense) (e : Expense) :
  (-1440 < tzo <= 840)%Z -> (0 <= c_year (civil_of_ms now) <= 9999)%Z ->
  (now' <= now + 57 * ms_per_day)%Z ->
  In e l -> date e = split_T_first (toISOString now) -> In e (retainRecent tzo now' l).
Proof.
  intros Htz Hy Hnow Hin Hd. apply retainRecent_In. split; [done|].
  eexists. rewrite Hd, parseISO_date_of_toISOString by (done || lia). split; [done|].
  pose proof (subMonths_two_before tzo now'). unfold twoMonthsAgo.
  unfold ms_per_day, ms_per_minute in *. zlia.
Qed.

(** C18: an expense dated by [addExpense]'s fallback, the full
    [toISOString()] of the instant [now] it was added, survives the
    retention filter of every load at an instant [now'] less than 59
    days after [now], in every time zone. *)
Theorem retainRecent_keeps_timestamp (tzo now now' : Z) (l : list Expense) (e : Expense) :
  (0 <= c_year (civil_of_ms now) <= 9999)%Z -> (now' < now + 59 * ms_per_day)%Z ->
  In e l -> date e = toISOString now -> In e (retainRecent tzo now' l).
Proof.
  intros Hy Hnow Hin Hd. apply retainRecent_In. split; [done|].
  exists now. rewrite Hd, parseISO_toISOString by done. split; [done|].
  pose proof (subMonths_two_before tzo now'). unfold twoMonthsAgo. lia.
Qed.

#[export] Hint Resolve retainRecent_ids_NoDup fullExpense_category_nonempty : spend.

(** ** Witnesses and scenario 5 of the specification *)

Example scenario5_retention :
  retainRecent 330 1718000000123 sampleLedger = [sampleExpense "a" "2024-06-05" 100].
Proof. vm_compute. reflexivity. Qed.

Lemma retainRecent_keeps_form_date_witness :
  In (sampleExpense "t" "2024-06-09" 10)
    (retainRecent 330 (1717965000000 + 50 * ms_per_day) [sampleExpense "t" "2024-06-09" 10]).
Proof.
  apply (retainRecent_keeps_form_date 330 1717965000000); try (vm_compute; congruence).
  - lia.
  - vm_compute. split; congruence.
  - by left.
Defined.

Lemma retainRecent_keeps_timestamp_witness :
  In (sampleExpense "t" (toISOString 1717965000000) 10)
    (retainRecent 330 (1717965000000 + 58 * ms_per_day)
       [sampleExpense "t" (toISOString 1717965000000) 10]).
Proof.
  apply (retainRecent_keeps_timestamp 330 1717965000000); try (vm_compute; congruence).
  - vm_compute. split; congruence.
  - by left.
Defined.

Lemma fullExpense_date_instant_witness :
  parseISO 330 (date (fullExpense "c" (toISOString 1717965000000)
                        (Build_PartialExpense None (Some 120) None (Some "") None))) =
  Some 1717965000000%Z.
Proof.
  apply (fullExpense_date_instant 330 1717965000000 "c"); [by right | vm_compute; split; congruence].
Defined.
