(* ===== verification/Storage.v ===== *)
(** * Storage: [localStorage] and the JSON of the three stores

    [App.tsx] persists its state with [localStorage.setItem(KEY,
    JSON.stringify(x))] (lines 62-64), reads it back with
    [localStorage.getItem] and [JSON.parse] (lines 39-56), and the reset
    button calls [localStorage.clear()] (line 235).

    - A stored value is the text [JSON.stringify] produced, represented by
      the JSON value it denotes ([JsonText]), or a text that is not
      valid JSON ([OtherText]), on which [JSON.parse] throws.
    - [KVStore] is the interface the application relies on: [getItem],
      [setItem], [clear] and the empty store, with the laws of a map
      ([KVStoreLaws]).  [App.v] is proved against the interface only;
      the [gmap] instance below discharges it.
    - The encoders follow the object literals of the code (field order of
      [fullExpense], of the initial settings and of the profile); the
      decoders read the fields back, [JSON.parse] keeping the last of
      duplicated keys. *)

From S2P Require Import Prelude Types.

(** ** JSON values and stored texts *)

#[local] Set Warnings "-register-all".

Inductive json :=
  | JNull
  | JBool (b : bool)
  | JNum (q : Q)
  | JStr (s : string)
  | JArr (xs : list json)
  | JObj (fields : list (string * json)).

Inductive StoredText :=
  | JsonText (v : json)
  | OtherText (s : string).

(** [if (stored)]: [getItem] returns [null] or a string, and [""] is
    falsy; the text of a JSON value is never empty. *)
Definition stored_truthy (t : option StoredText) : bool :=
  match t with
  | None => false
  | Some (JsonText _) => true
  | Some (OtherText s) => truthy s
  end.

(** [JSON.parse] throws a [SyntaxError] on text that is not JSON. *)
Definition JSON_parse (t : StoredText) : option json :=
  match t with
  | JsonText v => Some v
  | OtherText _ => None
  end.

(** ** The store interface *)

Class KVStore (S : Type) := {
  getItem : string -> S -> option StoredText;
  setItem : string -> StoredText -> S -> S;
  clear : S -> S;
  emptyStore : S;
}.

Class KVStoreLaws (S : Type) `{KVStore S} := {
  getItem_setItem_eq k v s : getItem k (setItem k v s) = Some v;
  getItem_setItem_ne k k' v s : k <> k' -> getItem k' (setItem k v s) = getItem k' s;
  getItem_clear k s : getItem k (clear s) = None;
  getItem_empty k : getItem k emptyStore = None;
}.

(** [localStorage] as a finite map from keys to texts. *)
#[export] Instance gmap_KVStore : KVStore (gmap string StoredText) := {
  getItem k s := s !! k;
  setItem k v s := <[k := v]> s;
  clear _ := ∅;
  emptyStore := ∅;
}.

(** ** Encoders: [JSON.stringify] of the records *)

Definition encode_user (u : UserProfile) : json :=
  JObj [("name", JStr (name u)); ("mobile", JStr (mobile u))].

Definition encode_expense (e : Expense) : json :=
  JObj [("id", JStr (id e)); ("amount", JNum (amount e)); ("category", JStr (category e));
        ("description", JStr (description e)); ("date", JStr (date e))].

Definition encode_expenses (l : list Expense) : json := JArr (encode_expense <$> l).

Definition encode_settings (s : AppSettings) : json :=
  JObj [("weeklyLimit", JNum (weeklyLimit s)); ("phoneNumber", JStr (phoneNumber s))].

(** ** Decoders

    A parsed value that does not have the declared TypeScript type is
    reported as [None]: JavaScript would go on with the ill-typed value,
    which the model does not follow. *)

Fixpoint obj_get (k : string) (fields : list (string * json)) : option json :=
  match fields with
  | [] => None
  | (k', v) :: rest =>
      match obj_get k rest with
      | Some w => Some w
      | None => if decide (k' = k) then Some v else None
      end
  end.

Definition as_str (v : json) : option string :=
  match v with JStr s => Some s | _ => None end.

Definition as_num (v : json) : option Q :=
  match v with JNum q => Some q | _ => None end.

Definition as_obj (v : json) : option (list (string * json)) :=
  match v with JObj f => Some f | _ => None end.

Definition str_field (k : string) (f : list (string * json)) : option string :=
  obj_get k f ≫= as_str.

Definition num_field (k : string) (f : list (string * json)) : option Q :=
  obj_get k f ≫= as_num.

Definition decode_user (v : json) : option UserProfile :=
  f ← as_obj v;
  n ← str_field "name" f;
  m ← str_field "mobile" f;
  Some {| name := n; mobile := m |}.

Definition decode_expense (v : json) : option Expense :=
  f ← as_obj v;
  i ← str_field "id" f;
  a ← num_field "amount" f;
  c ← str_field "category" f;
  d ← str_field "date" f;
  ds ← str_field "description" f;
  Some {| id := i; amount := a; category := c; date := d; description := ds |}.

Definition decode_expenses (v : json) : option (list Expense) :=
  match v with
  | JArr xs => mapM decode_expense xs
  | _ => None
  end.

Definition decode_settings (v : json) : option AppSettings :=
  f ← as_obj v;
  l ← num_field "weeklyLimit" f;
  p ← str_field "phoneNumber" f;
  Some {| weeklyLimit := l; phoneNumber := p |}.

#[export] Instance gmap_KVStoreLaws : KVStoreLaws (gmap string StoredText).
Proof.
  split; intros; simpl.
  - apply lookup_insert_eq.
  - by apply lookup_insert_ne.
  - apply lookup_empty.
  - apply lookup_empty.
Qed.

(** ** Round trips *)

(** The profile written by the save effect reads back as the same
    profile. *)
Lemma decode_encode_user (u : UserProfile) : decode_user (encode_user u) = Some u.
Proof. by destruct u. Qed.

Lemma decode_encode_expense (e : Expense) : decode_expense (encode_expense e) = Some e.
Proof. by destruct e. Qed.

(** The ledger written by the save effect reads back as the same
    list of expenses, in the same order. *)
Lemma decode_encode_expenses (l : list Expense) :
  decode_expenses (encode_expenses l) = Some l.
Proof.
  unfold decode_expenses, encode_expenses.
  induction l as [|e l IH]; [done|].
  rewrite fmap_cons. cbn [mapM]. rewrite decode_encode_expense. simpl.
  by rewrite IH.
Qed.

(** The settings written by the save effect read back unchanged. *)
Lemma decode_encode_settings (s : AppSettings) :
  decode_settings (encode_settings s) = Some s.
Proof. by destruct s. Qed.

Section StoreFacts.
Context {Store : Type} `{KVStoreLaws Store}.

Lemma getItem_setItem (k k' : string) (v : StoredText) (s : Store) :
  getItem k' (setItem k v s) = if decide (k = k') then Some v else getItem k' s.
Proof.
  case_decide; subst; [apply getItem_setItem_eq|by apply getItem_setItem_ne].
Qed.
End StoreFacts.
