(* ===== verification/JsonText.v ===== *)
(** * JsonText: [JSON.stringify] and [JSON.parse] on text

    [localStorage] holds strings.  The save effect of [src/App.tsx]
    (lines 61-65) writes [JSON.stringify(x)] for the profile, the ledger
    and the settings, and the load effect (lines 38-58) reads them back
    with [JSON.parse].  [Storage.v] abstracts a stored text by the JSON
    value it denotes; this file gives the text itself:

    - [stringify] is [JSON.stringify] on the JSON values of [Storage.v]
      (ECMA-262 SerializeJSONProperty): literals, numbers by
      [Number.prototype.toString] ([number_to_string] of [Ledger.v]),
      strings by QuoteJSONString, arrays and objects without white space;
    - [JSON_parse_text] is [JSON.parse]: a recursive-descent reader of
      the JSON grammar (RFC 8259) with white space, escapes and numbers
      with fraction and exponent, which fails on any other text.  It
      recurses on a fuel argument; [JSON_parse_text] gives it twice the
      length of the text plus two, and the theorems show that this fuel
      never runs out and that more fuel changes nothing.

    Strings are byte strings (Rocq's [string]): a [\uXXXX] escape above
    [00FF] denotes no byte and is rejected; [stringify] never writes
    one.  Numbers are exact rationals, as everywhere in the development:
    [JSON.parse] returns the exact value of the decimal, in lowest terms
    ([Qred]). *)

From S2P Require Import Prelude Types Calendar Ledger Storage.
From stdpp Require Import pretty.
From Stdlib Require Import Ascii ZArith.

Local Open Scope Z_scope.

(** ** Characters *)

Definition quote_char : ascii := ascii_of_nat 34.
Definition backslash : ascii := ascii_of_nat 92.

Definition hex_digit (n : nat) : ascii :=
  if (n <? 10)%nat then ascii_of_nat (48 + n) else ascii_of_nat (87 + n).

Definition hex_val (c : ascii) : option nat :=
  let n := nat_of_ascii c in
  if (48 <=? n)%nat && (n <=? 57)%nat then Some (n - 48)%nat
  else if (97 <=? n)%nat && (n <=? 102)%nat then Some (n - 87)%nat
  else if (65 <=? n)%nat && (n <=? 70)%nat then Some (n - 55)%nat
  else None.

(** JSON white space: space, tab, line feed, carriage return. *)
Definition is_ws (c : ascii) : bool :=
  let n := nat_of_ascii c in
  (n =? 32)%nat || (n =? 9)%nat || (n =? 10)%nat || (n =? 13)%nat.

(** ** [JSON.stringify] *)

(** QuoteJSONString on one code unit: the short escapes, [\u00XX] for
    the other control characters, the character itself otherwise. *)
Definition escape_char (c : ascii) : string :=
  let n := nat_of_ascii c in
  if (n =? 8)%nat then String backslash "b"
  else if (n =? 9)%nat then String backslash "t"
  else if (n =? 10)%nat then String backslash "n"
  else if (n =? 12)%nat then String backslash "f"
  else if (n =? 13)%nat then String backslash "r"
  else if (n =? 34)%nat then String backslash (String quote_char "")
  else if (n =? 92)%nat then String backslash (String backslash "")
  else if (n <? 32)%nat then
    String backslash ("u00" +:+ String (hex_digit (n / 16)) (String (hex_digit (n mod 16)) ""))
  else String c "".

Fixpoint escape_string (s : string) : string :=
  match s with
  | EmptyString => EmptyString
  | String c s' => escape_char c +:+ escape_string s'
  end.

Definition quote (s : string) : string :=
  String quote_char (escape_string s +:+ String quote_char "").

(** The elements joined with commas, as SerializeJSONArray and
    SerializeJSONObject join their partial results. *)
Fixpoint join_comma (l : list string) : string :=
  match l with
  | [] => ""
  | [x] => x
  | x :: l' => x +:+ "," +:+ join_comma l'
  end.

Fixpoint stringify (v : json) : string :=
  match v with
  | JNull => "null"
  | JBool true => "true"
  | JBool false => "false"
  | JNum q => number_to_string q
  | JStr s => quote s
  | JArr xs => "[" +:+ join_comma (map stringify xs) +:+ "]"
  | JObj fs => "{" +:+ join_comma (map (fun kv => quote kv.1 +:+ ":" +:+ stringify kv.2) fs) +:+ "}"
  end.

(** ** [JSON.parse] *)

Fixpoint skip_ws (s : string) : string :=
  match s with
  | String c s' => if is_ws c then skip_ws s' else s
  | EmptyString => EmptyString
  end.

(** The one-letter escapes: backslash followed by a quote, a backslash,
    a slash, or one of [b f n r t]. *)
Definition unescape (e : ascii) : option ascii :=
  let n := nat_of_ascii e in
  if (n =? 34)%nat then Some quote_char
  else if (n =? 92)%nat then Some backslash
  else if (n =? 47)%nat then Some "/"%char
  else if (n =? 98)%nat then Some (ascii_of_nat 8)
  else if (n =? 102)%nat then Some (ascii_of_nat 12)
  else if (n =? 110)%nat then Some (ascii_of_nat 10)
  else if (n =? 114)%nat then Some (ascii_of_nat 13)
  else if (n =? 116)%nat then Some (ascii_of_nat 9)
  else None.

Definition hex4 (a b c d : ascii) : option nat :=
  x1 ← hex_val a; x2 ← hex_val b; x3 ← hex_val c; x4 ← hex_val d;
  Some (((x1 * 16 + x2) * 16 + x3) * 16 + x4)%nat.

Definition cons_fst (c : ascii) (r : option (string * string)) : option (string * string) :=
  '(s, rest) ← r; Some (String c s, rest).

(** The characters of a string literal after its opening quote, up to
    and without the closing quote. *)
Fixpoint parse_string_body (s : string) : option (string * string) :=
  match s with
  | EmptyString => None
  | String c r =>
      if Ascii.eqb c quote_char then Some (EmptyString, r)
      else if Ascii.eqb c backslash then
        match r with
        | String e r' =>
            match unescape e with
            | Some c' => cons_fst c' (parse_string_body r')
            | None =>
                if Ascii.eqb e "u" then
                  match r' with
                  | String h1 (String h2 (String h3 (String h4 r''))) =>
                      match hex4 h1 h2 h3 h4 with
                      | Some n => if (n <? 256)%nat then cons_fst (ascii_of_nat n) (parse_string_body r'')
                                  else None
                      | None => None
                      end
                  | _ => None
                  end
                else None
            end
        | EmptyString => None
        end
      else if (nat_of_ascii c <? 32)%nat then None
      else cons_fst c (parse_string_body r)
  end.

(** A run of decimal digits: its value after [acc], the number of
    digits read after [k], and the rest. *)
Fixpoint digits_run (acc : Z) (k : nat) (s : string) : Z * nat * string :=
  match s with
  | String c r =>
      match digit_val c with
      | Some v => digits_run (acc * 10 + v) (S k) r
      | None => (acc, k, s)
      end
  | EmptyString => (acc, k, EmptyString)
  end.

(** [int = zero / ( digit1-9 *DIGIT )]. *)
Definition int_part (s : string) : option (Z * string) :=
  match s with
  | String c r =>
      if Ascii.eqb c "0" then Some (0, r)
      else if is_digit c then let '(v, _, r') := digits_run 0 0 s in Some (v, r')
      else None
  | EmptyString => None
  end.

(** [frac = decimal-point 1*DIGIT], optional. *)
Definition frac_part (s : string) : option (Z * nat * string) :=
  match s with
  | String c r =>
      if Ascii.eqb c "." then
        let '(f, k, r') := digits_run 0 0 r in
        if (k =? 0)%nat then None else Some (f, k, r')
      else Some (0, 0%nat, s)
  | EmptyString => Some (0, 0%nat, EmptyString)
  end.

(** [exp = e [ minus / plus ] 1*DIGIT], optional. *)
Definition exp_digits (s : string) : option (Z * string) :=
  let '(v, k, r) := digits_run 0 0 s in
  if (k =? 0)%nat then None else Some (v, r).

Definition exp_part (s : string) : option (Z * string) :=
  match s with
  | String c r =>
      if Ascii.eqb c "e" || Ascii.eqb c "E" then
        match expect "-" r with
        | Some r' => '(v, r'') ← exp_digits r'; Some (- v, r'')
        | None => match expect "+" r with Some r' => exp_digits r' | None => exp_digits r end
        end
      else Some (0, s)
  | EmptyString => Some (0, EmptyString)
  end.

(** The exact value [± (i.f) × 10^e], in lowest terms. *)
Definition decimal_value (neg : bool) (i f : Z) (k : nat) (e : Z) : Q :=
  let m := i * 10 ^ Z.of_nat k + f in
  let sm := if neg then - m else m in
  Qred (Qmake (sm * 10 ^ Z.max e 0) (Z.to_pos (10 ^ (Z.of_nat k + Z.max (- e) 0)))).

Definition parse_number (s : string) : option (Q * string) :=
  let '(neg, s1) := match expect "-" s with Some r => (true, r) | None => (false, s) end in
  '(i, s2) ← int_part s1;
  '(f, k, s3) ← frac_part s2;
  '(e, s4) ← exp_part s3;
  Some (decimal_value neg i f k e, s4).

(** The literal [lit] at the front of [s]. *)
Fixpoint expect_word (lit s : string) : option string :=
  match lit, s with
  | EmptyString, _ => Some s
  | String a lit', String b s' => if Ascii.eqb a b then expect_word lit' s' else None
  | _, _ => None
  end.

(** A parse that succeeded with a value and the rest of the text, failed
    on the text, or ran out of fuel. *)
Inductive presult (A : Type) :=
  | Parsed (a : A) (rest : string)
  | Invalid
  | NoFuel.
Arguments Parsed {A}.
Arguments Invalid {A}.
Arguments NoFuel {A}.

Definition of_option {A} (r : option (A * string)) : presult A :=
  match r with Some (a, rest) => Parsed a rest | None => Invalid end.

Definition pmap {A B} (f : A -> B) (r : presult A) : presult B :=
  match r with
  | Parsed a rest => Parsed (f a) rest
  | Invalid => Invalid
  | NoFuel => NoFuel
  end.

(** [parse_value] reads one value at the front of its text (no leading
    white space); [parse_elements] the elements of an array after [[]
    and [parse_members] the members of an object after [{], each up to
    and including the closing bracket. *)
Fixpoint parse_value (fuel : nat) (s : string) : presult json :=
  match fuel with
  | O => NoFuel
  | S f =>
      match s with
      | EmptyString => Invalid
      | String c r =>
          if Ascii.eqb c "{" then
            match expect "}" (skip_ws r) with
            | Some r' => Parsed (JObj []) r'
            | None => pmap JObj (parse_members f (skip_ws r))
            end
          else if Ascii.eqb c "[" then
            match expect "]" (skip_ws r) with
            | Some r' => Parsed (JArr []) r'
            | None => pmap JArr (parse_elements f (skip_ws r))
            end
          else if Ascii.eqb c quote_char then of_option ('(t, r') ← parse_string_body r; Some (JStr t, r'))
          else if Ascii.eqb c "n" then of_option (r' ← expect_word "ull" r; Some (JNull, r'))
          else if Ascii.eqb c "t" then of_option (r' ← expect_word "rue" r; Some (JBool true, r'))
          else if Ascii.eqb c "f" then of_option (r' ← expect_word "alse" r; Some (JBool false, r'))
          else of_option ('(q, r') ← parse_number s; Some (JNum q, r'))
      end
  end
with parse_elements (fuel : nat) (s : string) : presult (list json) :=
  match fuel with
  | O => NoFuel
  | S f =>
      match parse_value f s with
      | Parsed v r =>
          match expect "," (skip_ws r) with
          | Some r' =>
              match parse_elements f (skip_ws r') with
              | Parsed vs r'' => Parsed (v :: vs) r''
              | Invalid => Invalid
              | NoFuel => NoFuel
              end
          | None => match expect "]" (skip_ws r) with Some r' => Parsed [v] r' | None => Invalid end
          end
      | Invalid => Invalid
      | NoFuel => NoFuel
      end
  end
with parse_members (fuel : nat) (s : string) : presult (list (string * json)) :=
  match fuel with
  | O => NoFuel
  | S f =>
      match s with
      | String c r =>
          if Ascii.eqb c quote_char then
            match parse_string_body r with
            | Some (k, r1) =>
                match expect ":" (skip_ws r1) with
                | Some r2 =>
                    match parse_value f (skip_ws r2) with
                    | Parsed v r3 =>
                        match expect "," (skip_ws r3) with
                        | Some r4 =>
                            match parse_members f (skip_ws r4) with
                            | Parsed fs r5 => Parsed ((k, v) :: fs) r5
                            | Invalid => Invalid
                            | NoFuel => NoFuel
                            end
                        | None =>
                            match expect "}" (skip_ws r3) with
                            | Some r4 => Parsed [(k, v)] r4
                            | None => Invalid
                            end
                        end
                    | Invalid => Invalid
                    | NoFuel => NoFuel
                    end
                | None => Invalid
                end
            | None => Invalid
            end
          else Invalid
      | EmptyString => Invalid
      end
  end.

Definition parse_fuel (s : string) : nat := (2 * String.length s + 2)%nat.

(** [JSON.parse(text)]: [None] is the [SyntaxError] it throws. *)
Definition JSON_parse_text (text : string) : option json :=
  let s := skip_ws text in
  match parse_value (parse_fuel s) s with
  | Parsed v rest => if bool_decide (skip_ws rest = EmptyString) then Some v else None
  | _ => None
  end.

(** ** Which values print exactly

    [number_to_string] prints the exact decimal of a number whose
    denominator divides a power of ten with at most 39 digits after the
    point; [JSON.parse] then reads back the number itself.  Every number
    typed as a decimal in a number field is of this kind. *)
Definition js_exact (q : Q) : bool :=
  let d := Zpos (Qden (Qred q)) in
  (d =? 1) || match frac_digits 40 0 d with Some _ => true | None => false end.

Fixpoint json_exact (v : json) : bool :=
  match v with
  | JNum q => js_exact q
  | JArr xs => forallb json_exact xs
  | JObj fs => forallb (fun kv => json_exact kv.2) fs
  | _ => true
  end.

(** The value [JSON.parse] returns for the text of [v]: numbers in
    lowest terms. *)
Fixpoint json_norm (v : json) : json :=
  match v with
  | JNum q => JNum (Qred q)
  | JArr xs => JArr (map json_norm xs)
  | JObj fs => JObj (map (fun kv => (kv.1, json_norm kv.2)) fs)
  | _ => v
  end.

(** The fuel the reader spends on the text of [v]. *)
Fixpoint jsize (v : json) : nat :=
  match v with
  | JArr xs => S (sum_list_with (fun x => S (jsize x)) xs)
  | JObj fs => S (sum_list_with (fun kv => S (jsize kv.2)) fs)
  | _ => 1%nat
  end.

(** What may follow a value inside the text of a value. *)
Definition follow_ok (rest : string) : bool :=
  match rest with
  | EmptyString => true
  | String c _ => Ascii.eqb c "," || Ascii.eqb c "]" || Ascii.eqb c "}"
  end.

(** A text that does not continue a run of digits. *)
Definition no_digit_start (s : string) : bool :=
  match s with String c _ => negb (is_digit c) | EmptyString => true end.

(** ** The reader consumes its input *)

Lemma skip_ws_length (s : string) : (String.length (skip_ws s) <= String.length s)%nat.
Proof. induction s as [|c s IH]; simpl; [slia|]. destruct (is_ws c); simpl; slia. Qed.

Lemma digits_run_length (acc : Z) (k : nat) (s : string) :
  (String.length (digits_run acc k s).2 <= String.length s)%nat.
Proof.
  revert acc k. induction s as [|c s IH]; intros acc k; simpl; [slia|].
  destruct (digit_val c); simpl; [specialize (IH (acc * 10 + z) (S k)); slia|slia].
Qed.

Lemma cons_fst_Some (c : ascii) (x : option (string * string)) (t r : string) :
  cons_fst c x = Some (t, r) -> exists t', x = Some (t', r).
Proof. destruct x as [[t' r']|]; simpl; [intros [= _ ->]; eauto|done]. Qed.

Lemma parse_string_body_length (s t r : string) :
  parse_string_body s = Some (t, r) -> (String.length r < String.length s)%nat.
Proof.
  remember (String.length s) as n eqn:Hn. revert s t r Hn.
  induction n as [n IH] using lt_wf_ind. intros [|c s] t r Hn; [done|]. simpl parse_string_body. rewrite string_length_cons in Hn.
  destruct (Ascii.eqb c quote_char); [intros [= _ <-]; slia|].
  destruct (Ascii.eqb c backslash).
  - destruct s as [|e s]; [done|]. destruct (unescape e).
    + intros (t' & Ht)%cons_fst_Some.
      apply (IH (String.length s) ltac:(subst; simpl; slia) s t' r eq_refl) in Ht. rewrite ?string_length_cons in *. slia.
    + destruct (Ascii.eqb e "u"); [|done].
      destruct s as [|h1 [|h2 [|h3 [|h4 s]]]]; try done.
      destruct (hex4 h1 h2 h3 h4) as [m|]; [|done]. destruct (m <? 256)%nat; [|done].
      intros (t' & Ht)%cons_fst_Some.
      apply (IH (String.length s) ltac:(subst; simpl; slia) s t' r eq_refl) in Ht. rewrite ?string_length_cons in *. slia.
  - destruct (nat_of_ascii c <? 32)%nat; [done|].
    intros (t' & Ht)%cons_fst_Some.
    apply (IH (String.length s) ltac:(subst; simpl; slia) s t' r eq_refl) in Ht. rewrite ?string_length_cons in *. slia.
Qed.

Lemma expect_word_length (lit s r : string) :
  expect_word lit s = Some r -> (String.length r <= String.length s)%nat.
Proof.
  revert s. induction lit as [|a lit IH]; intros s H.
  - destruct s; simpl in H; injection H as <-; slia.
  - destruct s as [|b s]; simpl in H; [done|]. destruct (Ascii.eqb a b); [|done].
    apply IH in H. rewrite string_length_cons. slia.
Qed.

Lemma int_part_length (s r : string) (i : Z) :
  int_part s = Some (i, r) -> (String.length r < String.length s)%nat.
Proof.
  destruct s as [|c s]; simpl; [done|]. destruct (Ascii.eqb c "0"); [intros [= _ <-]; slia|].
  destruct (is_digit c) eqn:Hc; [|done]. unfold digit_val. rewrite Hc.
  pose proof (digits_run_length (0 * 10 + (Z.of_nat (nat_of_ascii c) - 48)) 1 s) as Hd.
  destruct digits_run as [[v k] r']. simpl in Hd. intros [= _ <-]. slia.
Qed.

Lemma frac_part_length (s r : string) (f : Z) (k : nat) :
  frac_part s = Some (f, k, r) -> (String.length r <= String.length s)%nat.
Proof.
  destruct s as [|c s]; simpl; [intros [= _ _ <-]; slia|].
  destruct (Ascii.eqb c "."); [|intros [= _ _ <-]; simpl; slia].
  pose proof (digits_run_length 0 0 s) as Hd.
  destruct digits_run as [[v j] r']. simpl in Hd. destruct (j =? 0)%nat; [done|].
  intros [= _ _ <-]. slia.
Qed.

Lemma exp_digits_length (s r : string) (e : Z) :
  exp_digits s = Some (e, r) -> (String.length r <= String.length s)%nat.
Proof.
  unfold exp_digits. pose proof (digits_run_length 0 0 s) as Hd.
  destruct digits_run as [[v j] r']. simpl in Hd. destruct (j =? 0)%nat; [done|].
  intros [= _ <-]. slia.
Qed.

Lemma expect_length (c : ascii) (s r : string) :
  expect c s = Some r -> (String.length r < String.length s)%nat.
Proof. destruct s as [|a s]; simpl; [done|]. destruct (Ascii.eqb c a); [intros [= <-]; slia|done]. Qed.

Lemma exp_part_length (s r : string) (e : Z) :
  exp_part s = Some (e, r) -> (String.length r <= String.length s)%nat.
Proof.
  destruct s as [|c s]; simpl; [intros [= _ <-]; slia|].
  destruct (_ || _); [|intros [= _ <-]; slia].
  destruct (expect "-" s) as [s'|] eqn:E1.
  - apply expect_length in E1. unfold mbind, option_bind.
    destruct (exp_digits s') as [[v r']|] eqn:E; [|done].
    intros [= _ <-]. apply exp_digits_length in E. slia.
  - destruct (expect "+" s) as [s'|] eqn:E2; intros H%exp_digits_length;
      [apply expect_length in E2|]; slia.
Qed.

Lemma parse_number_length (s r : string) (q : Q) :
  parse_number s = Some (q, r) -> (String.length r < String.length s)%nat.
Proof.
  unfold parse_number.
  assert (H1 : (String.length (match expect "-" s with Some r => (true, r) | None => (false, s) end).2
                <= String.length s)%nat).
  { destruct (expect "-" s) eqn:E; simpl; [apply expect_length in E|]; slia. }
  destruct (match expect "-" s with Some r => (true, r) | None => (false, s) end) as [neg s1].
  simpl in H1.
  destruct (int_part s1) as [[i s2]|] eqn:Ei; simpl; [|done].
  destruct (frac_part s2) as [[[f k] s3]|] eqn:Ef; simpl; [|done].
  destruct (exp_part s3) as [[e s4]|] eqn:Ee; simpl; [|done].
  intros [= _ <-]. apply int_part_length in Ei. apply frac_part_length in Ef.
  apply exp_part_length in Ee. slia.
Qed.

Lemma of_option_Parsed {A} (x : option (A * string)) (a : A) (r : string) :
  of_option x = Parsed a r -> x = Some (a, r).
Proof. destruct x as [[??]|]; simpl; congruence. Qed.

Lemma pmap_Parsed {A B} (f : A -> B) (x : presult A) (b : B) (r : string) :
  pmap f x = Parsed b r -> exists a, x = Parsed a r /\ b = f a.
Proof. destruct x; simpl; [intros [= <- <-]; eauto|done..]. Qed.

(** Turns every step of a successful parse found in the context into the
    bound on lengths it gives. *)
Ltac length_facts IHv IHe IHm :=
  repeat match goal with
  | H : of_option _ = Parsed _ _ |- _ => apply of_option_Parsed in H
  | H : pmap _ _ = Parsed _ _ |- _ => apply pmap_Parsed in H as (? & H & ->)
  | H : mbind _ _ = Some _ |- _ => unfold mbind, option_bind in H
  | H : match ?x with _ => _ end = Some _ |- _ => destruct x as [[[??]?]|] eqn:?; simplify_eq
  | H : match ?x with _ => _ end = Some _ |- _ => destruct x as [[??]|] eqn:?; simplify_eq
  | H : match ?x with _ => _ end = Some _ |- _ => destruct x as [?|] eqn:?; simplify_eq
  | H : parse_value _ (skip_ws ?y) = Parsed _ _ |- _ => apply IHv in H; pose proof (skip_ws_length y)
  | H : parse_elements _ (skip_ws ?y) = Parsed _ _ |- _ => apply IHe in H; pose proof (skip_ws_length y)
  | H : parse_members _ (skip_ws ?y) = Parsed _ _ |- _ => apply IHm in H; pose proof (skip_ws_length y)
  | H : parse_value _ _ = Parsed _ _ |- _ => apply IHv in H
  | H : parse_elements _ _ = Parsed _ _ |- _ => apply IHe in H
  | H : parse_members _ _ = Parsed _ _ |- _ => apply IHm in H
  | H : expect _ (skip_ws ?y) = Some _ |- _ => apply expect_length in H; pose proof (skip_ws_length y)
  | H : expect _ _ = Some _ |- _ => apply expect_length in H
  | H : parse_string_body _ = Some _ |- _ => apply parse_string_body_length in H
  | H : expect_word _ _ = Some _ |- _ => apply expect_word_length in H
  | H : parse_number _ = Some _ |- _ => apply parse_number_length in H
  end.

(** Every successful step of the reader leaves a strictly shorter rest. *)
Lemma parse_progress (f : nat) :
  (forall s v r, parse_value f s = Parsed v r -> (String.length r < String.length s)%nat) /\
  (forall s vs r, parse_elements f s = Parsed vs r -> (String.length r < String.length s)%nat) /\
  (forall s fs r, parse_members f s = Parsed fs r -> (String.length r < String.length s)%nat).
Proof.
  induction f as [|f (IHv & IHe & IHm)]; [repeat split; discriminate|].
  repeat split.
  - intros [|c s] v r H; cbn [parse_value] in H; [done|].
    repeat case_match; simplify_eq; length_facts IHv IHe IHm; slia.
  - intros s vs r H; cbn [parse_elements] in H.
    repeat case_match; simplify_eq; length_facts IHv IHe IHm; slia.
  - intros [|c s] fs r H; cbn [parse_members] in H; [done|].
    repeat case_match; simplify_eq; length_facts IHv IHe IHm; slia.
Qed.

(** ** Fuel: twice the length of the text plus one never runs out *)

Lemma of_option_ne_NoFuel {A} (x : option (A * string)) : of_option x <> NoFuel.
Proof. by destruct x as [[??]|]. Qed.

Lemma pmap_ne_NoFuel {A B} (g : A -> B) (x : presult A) : x <> NoFuel -> pmap g x <> NoFuel.
Proof. by destruct x. Qed.

Lemma parse_terminates (f : nat) :
  (forall s, (2 * String.length s + 1 <= f)%nat -> parse_value f s <> NoFuel) /\
  (forall s, (2 * String.length s + 2 <= f)%nat -> parse_elements f s <> NoFuel) /\
  (forall s, (2 * String.length s + 2 <= f)%nat -> parse_members f s <> NoFuel).
Proof.
  induction f as [|f (IHv & IHe & IHm)]; [repeat split; intros; lia|].
  pose proof (parse_progress f) as (Pv & Pe & Pm).
  repeat split; [intros [|c s] Hf; cbn [parse_value]; [done|]
                |intros s Hf; cbn [parse_elements]
                |intros [|c s] Hf; cbn [parse_members]; [done|]];
    repeat case_match; try discriminate; try apply of_option_ne_NoFuel;
    try (apply pmap_ne_NoFuel; first [apply IHm | apply IHe]; pose proof (skip_ws_length s); slia);
    exfalso; first [ eapply IHv; [|eassumption] | eapply IHe; [|eassumption]
                   | eapply IHm; [|eassumption] ];
    length_facts Pv Pe Pm;
    try match goal with |- context [String.length (skip_ws ?y)] => pose proof (skip_ws_length y) end;
    slia.
Qed.

(** Replaces a call at fuel [g] by the same call at the smaller fuel
    [f], or closes the case where the call at [f] runs out of fuel,
    which the hypothesis [H] excludes. *)
Ltac mono_call H IH P f g y :=
  let E := fresh "E" in
  destruct (P f y) eqn:E;
  [ rewrite (IH y g) by (congruence || lia); rewrite E
  | rewrite (IH y g) by (congruence || lia); rewrite E
  | exfalso; apply H; try rewrite E; reflexivity ].

Ltac mono_step H IHv IHe IHm f g :=
  match goal with
  | |- context [parse_value g ?y] => mono_call H IHv parse_value f g y
  | |- context [parse_elements g ?y] => mono_call H IHe parse_elements f g y
  | |- context [parse_members g ?y] => mono_call H IHm parse_members f g y
  | |- context [match expect ?c ?y with _ => _ end] =>
      let E := fresh "E" in destruct (expect c y) eqn:E; rewrite ?E in H
  end; cbn beta match in H |- *.

(** More fuel does not change a result that did not run out of fuel. *)
Lemma parse_fuel_mono (f : nat) :
  (forall s g, (f <= g)%nat -> parse_value f s <> NoFuel -> parse_value g s = parse_value f s) /\
  (forall s g, (f <= g)%nat -> parse_elements f s <> NoFuel -> parse_elements g s = parse_elements f s) /\
  (forall s g, (f <= g)%nat -> parse_members f s <> NoFuel -> parse_members g s = parse_members f s).
Proof.
  induction f as [|f (IHv & IHe & IHm)]; [repeat split; intros s g _ H; by destruct H|].
  repeat split; intros s [|g] Hle H; try lia.
  - destruct s as [|c s]; [done|]. cbn [parse_value] in H |- *.
    repeat (case_match; try reflexivity); repeat mono_step H IHv IHe IHm f g; done.
  - cbn [parse_elements] in H |- *. repeat mono_step H IHv IHe IHm f g; done.
  - destruct s as [|c s]; [done|]. cbn [parse_members] in H |- *.
    destruct (Ascii.eqb c quote_char); [|reflexivity].
    destruct (parse_string_body s) as [[k r1]|]; [|reflexivity].
    repeat mono_step H IHv IHe IHm f g; done.
Qed.

Lemma parse_value_fuel_le (f g : nat) (s : string) :
  parse_value f s <> NoFuel -> (f <= g)%nat -> parse_value g s = parse_value f s.
Proof. intros H Hle. by apply (proj1 (parse_fuel_mono f)). Qed.

(** ** Printing then reading *)

Lemma hex_val_hex_digit (k : nat) : (k < 16)%nat -> hex_val (hex_digit k) = Some k.
Proof.
  intros Hk. do 16 (destruct k as [|k]; [reflexivity|]). lia.
Qed.

Lemma hex4_hex_digit (n : nat) : (n < 256)%nat ->
  hex4 "0" "0" (hex_digit (n / 16)) (hex_digit (n mod 16)) = Some n.
Proof.
  intros Hn. unfold hex4. change (hex_val "0") with (Some 0%nat).
  rewrite (hex_val_hex_digit (n / 16)) by (apply Nat.Div0.div_lt_upper_bound; lia).
  rewrite (hex_val_hex_digit (n mod 16)) by (apply Nat.mod_upper_bound; lia).
  cbn [mbind option_bind]. f_equal. pose proof (Nat.div_mod n 16 ltac:(lia)). lia.
Qed.

Lemma ascii_eqb_ne_nat (c : ascii) (k : nat) :
  nat_of_ascii c <> k -> (k < 256)%nat -> Ascii.eqb c (ascii_of_nat k) = false.
Proof.
  intros Hne Hk. apply Ascii.eqb_neq. intros ->. apply Hne.
  by rewrite nat_ascii_embedding.
Qed.

(** Reading the escape of one character yields the character. *)
Lemma parse_string_body_escape_char (c : ascii) (t : string) :
  parse_string_body (escape_char c +:+ t) = cons_fst c (parse_string_body t).
Proof.
  assert (Hc : c = ascii_of_nat (nat_of_ascii c)) by (symmetry; apply ascii_nat_embedding).
  pose proof (nat_ascii_bounded c) as Hb.
  unfold escape_char. set (n := nat_of_ascii c) in *.
  repeat match goal with
  | |- context [if (n =? ?k)%nat then _ else _] =>
      let Hk := fresh "Hk" in
      destruct (Nat.eqb_spec n k) as [Hk|Hk]; [rewrite Hc, Hk; reflexivity|]
  end.
  destruct (Nat.ltb_spec n 32) as [Hlt|Hge].
  - change (String backslash ("u00" +:+ String (hex_digit (n / 16)) (String (hex_digit (n mod 16)) ""))
            +:+ t) with
      (String backslash (String "u" (String "0" (String "0"
        (String (hex_digit (n / 16)) (String (hex_digit (n mod 16)) t)))))).
    unfold parse_string_body; fold parse_string_body.
    change (Ascii.eqb backslash quote_char) with false.
    change (Ascii.eqb backslash backslash) with true.
    change (unescape "u") with (@None ascii). change (Ascii.eqb "u" "u") with true.
    cbv beta iota.
    rewrite (hex4_hex_digit n) by lia. rewrite (proj2 (Nat.ltb_lt n 256)) by lia.
    by rewrite <- Hc.
  - rewrite string_app_cons, string_app_nil_l. simpl parse_string_body.
    unfold quote_char, backslash.
    rewrite (ascii_eqb_ne_nat c 34), (ascii_eqb_ne_nat c 92) by (done || lia).
    fold n. by rewrite (proj2 (Nat.ltb_ge n 32)) by lia.
Qed.

Lemma parse_string_body_escape (s rest : string) :
  parse_string_body (escape_string s +:+ String quote_char rest) = Some (s, rest).
Proof.
  induction s as [|c s IH]; [reflexivity|]. simpl escape_string.
  rewrite string_app_assoc, parse_string_body_escape_char, IH. reflexivity.
Qed.

(** *** Numbers *)

Lemma digit_val_pretty_N_char (x : N) : (x < 10)%N -> digit_val (pretty_N_char x) = Some (Z.of_N x).
Proof.
  intros Hx. assert (x = 0 \/ x = 1 \/ x = 2 \/ x = 3 \/ x = 4 \/ x = 5 \/ x = 6 \/ x = 7 \/
                     x = 8 \/ x = 9)%N as Hc by lia.
  destruct Hc as [->|[->|[->|[->|[->|[->|[->|[->|[->| ->]]]]]]]]]; reflexivity.
Qed.

Lemma digits_run_digit (acc : Z) (k : nat) (c : ascii) (s : string) (v : Z) :
  digit_val c = Some v -> digits_run acc k (String c s) = digits_run (acc * 10 + v) (S k) s.
Proof. intros Hv. simpl. by rewrite Hv. Qed.

(** Reading the digits [pretty_N_go] prints. *)
Lemma digits_run_pretty_N_go (n : N) (s : string) (acc : Z) (k : nat) :
  exists j, digits_run acc k (pretty_N_go n s) =
            digits_run (acc * 10 ^ Z.of_nat j + Z.of_N n) (k + j) s.
Proof.
  revert s acc k. induction (N.lt_wf_0 n) as [n _ IH]; intros s acc k.
  destruct (decide (n = 0%N)) as [->|Hn].
  - exists 0%nat. rewrite pretty_N_go_0. do 2 f_equal; lia.
  - rewrite pretty_N_go_step by lia.
    destruct (IH (n `div` 10)%N ltac:(apply N.div_lt; lia)
                (String (pretty_N_char (n `mod` 10)) s) acc k) as [j Hj].
    rewrite Hj, (digits_run_digit _ _ _ _ (Z.of_N (n `mod` 10)))
      by (apply digit_val_pretty_N_char, N.mod_lt; lia).
    exists (S j). f_equal; [|lia].
    rewrite Nat2Z.inj_succ, Z.pow_succ_r by lia.
    assert (Hd : Z.of_N n = 10 * Z.of_N (n `div` 10) + Z.of_N (n `mod` 10)).
    { rewrite (N.div_mod n 10) at 1 by lia. by rewrite N2Z.inj_add, N2Z.inj_mul. }
    rewrite Hd. ring.
Qed.

(** [pretty_N_go] prints its digits in front of the given suffix. *)
Lemma pretty_N_go_app (n : N) (s : string) : pretty_N_go n s = pretty_N_go n "" +:+ s.
Proof.
  revert s. induction (N.lt_wf_0 n) as [n _ IH]; intros s.
  destruct (decide (n = 0%N)) as [->|Hn]; [by rewrite !pretty_N_go_0|].
  rewrite !(pretty_N_go_step n) by lia.
  assert (Hlt : (n `div` 10 < n)%N) by (apply N.div_lt; lia).
  rewrite (IH _ Hlt (String _ s)), (IH _ Hlt (String _ "")).
  by rewrite string_app_assoc.
Qed.

(** A positive number is printed from a non-zero digit on. *)
Lemma pretty_N_go_head (n : N) (s : string) : (0 < n)%N ->
  exists c t, pretty_N_go n s = String c t /\ is_digit c = true /\ Ascii.eqb c "0" = false.
Proof.
  revert s. induction (N.lt_wf_0 n) as [n _ IH]; intros s Hn.
  rewrite pretty_N_go_step by lia.
  destruct (decide (n `div` 10 = 0)%N) as [E|E].
  - rewrite E, pretty_N_go_0. eexists _, _. split; [done|].
    assert (n < 10)%N.
    { destruct (N.lt_ge_cases n 10) as [?|Hge]; [done|].
      pose proof (N.div_str_pos n 10 ltac:(lia)). lia. }
    rewrite N.mod_small by lia.
    assert (n = 1 \/ n = 2 \/ n = 3 \/ n = 4 \/ n = 5 \/ n = 6 \/ n = 7 \/ n = 8 \/ n = 9)%N
      as Hc by lia.
    destruct Hc as [->|[->|[->|[->|[->|[->|[->|[->| ->]]]]]]]]; done.
  - assert (Hlt : (n `div` 10 < n)%N) by (apply N.div_lt; lia).
    apply (IH _ Hlt). destruct (n `div` 10)%N; [done|lia].
Qed.

Lemma digits_run_stop (acc : Z) (k : nat) (s : string) :
  no_digit_start s = true -> digits_run acc k s = (acc, k, s).
Proof.
  destruct s as [|c s]; simpl; [done|]. intros Hc. unfold digit_val.
  apply negb_true_iff in Hc. by rewrite Hc.
Qed.

(** [pretty] of a non-negative integer is read back by [int_part]. *)
Lemma int_part_pretty (i : Z) (rest : string) : 0 <= i -> no_digit_start rest = true ->
  int_part (pretty i +:+ rest) = Some (i, rest).
Proof.
  intros Hi Hr. destruct i as [|p|p]; [reflexivity| |lia].
  unfold pretty, pretty_Z, pretty, pretty_positive, pretty, pretty_N.
  rewrite decide_False by done. rewrite <- pretty_N_go_app.
  destruct (pretty_N_go_head (Npos p) rest ltac:(lia)) as (c & t & Ht & Hd & H0).
  rewrite Ht. unfold int_part. cbn beta match. rewrite H0, Hd. rewrite <- Ht.
  destruct (digits_run_pretty_N_go (Npos p) rest 0 0) as [j ->].
  by rewrite digits_run_stop.
Qed.

(** The [k] digits [pad_digits] prints are read back. *)
Lemma digits_run_pad (j : nat) (acc m : Z) (k : nat) (s : string) : 0 <= m < 10 ^ Z.of_nat j ->
  digits_run acc k (pad_digits j m +:+ s) = digits_run (acc * 10 ^ Z.of_nat j + m) (k + j) s.
Proof.
  revert acc m k s. induction j as [|j IH]; intros acc m k s Hm.
  - change (10 ^ Z.of_nat 0) with 1 in *. replace m with 0 by lia.
    rewrite string_app_nil_l. do 2 f_equal; lia.
  - rewrite Nat2Z.inj_succ, Z.pow_succ_r in * by lia.
    cbn [pad_digits]. rewrite string_app_assoc, string_app_cons, string_app_nil_l.
    rewrite IH by zlia. rewrite (digits_run_digit _ _ _ _ (m mod 10))
      by (apply digit_val_digit_char; zlia).
    f_equal; [|lia]. pose proof (Z.div_mod m 10 ltac:(lia)). nia.
Qed.

Lemma frac_part_pad (k : nat) (f : Z) (rest : string) :
  (1 <= k)%nat -> 0 <= f < 10 ^ Z.of_nat k -> no_digit_start rest = true ->
  frac_part ("." +:+ pad_digits k f +:+ rest) = Some (f, k, rest).
Proof.
  intros Hk Hf Hr. change ("." +:+ pad_digits k f +:+ rest) with (String "." (pad_digits k f +:+ rest)).
  unfold frac_part. rewrite Ascii.eqb_refl, digits_run_pad, digits_run_stop by done.
  rewrite (proj2 (Nat.eqb_neq (0 + k) 0)) by lia. do 3 f_equal; lia.
Qed.

(** What follows a number in the text of a value starts no fraction
    and no exponent. *)
Lemma follow_ok_no_digit (rest : string) : follow_ok rest = true -> no_digit_start rest = true.
Proof.
  destruct rest as [|c rest]; [done|]. unfold follow_ok.
  intros H. repeat (apply orb_true_iff in H as [H|H]); apply Ascii.eqb_eq in H; subst; done.
Qed.

Lemma frac_part_follow (rest : string) : follow_ok rest = true -> frac_part rest = Some (0, 0%nat, rest).
Proof.
  destruct rest as [|c rest]; [done|]. unfold follow_ok.
  intros H. repeat (apply orb_true_iff in H as [H|H]); apply Ascii.eqb_eq in H; subst; done.
Qed.

Lemma exp_part_follow (rest : string) : follow_ok rest = true -> exp_part rest = Some (0, rest).
Proof.
  destruct rest as [|c rest]; [done|]. unfold follow_ok.
  intros H. repeat (apply orb_true_iff in H as [H|H]); apply Ascii.eqb_eq in H; subst; done.
Qed.

Lemma frac_digits_spec (fuel k k' : nat) (d : Z) :
  frac_digits fuel k d = Some k' -> (10 ^ Z.of_nat k') mod d = 0 /\ (k <= k')%nat.
Proof.
  revert k. induction fuel as [|fuel IH]; intros k; simpl; [done|].
  destruct (_ =? 0) eqn:E; [intros [= <-]; split; [by apply Z.eqb_eq|lia]|].
  intros H. apply IH in H as [? ?]. split; [done|lia].
Qed.

(** A non-negative integer is printed from a digit on. *)
Lemma pretty_Z_head (i : Z) : 0 <= i -> exists c t, pretty i = String c t /\ is_digit c = true.
Proof.
  intros Hi. destruct i as [|p|p]; [by exists "0"%char, ""| |lia].
  unfold pretty, pretty_Z, pretty, pretty_positive, pretty, pretty_N. rewrite decide_False by done.
  destruct (pretty_N_go_head (Npos p) "" ltac:(lia)) as (c & t & -> & Hd & _). eauto.
Qed.

Lemma expect_minus_digit (c : ascii) (t : string) : is_digit c = true -> expect "-" (String c t) = None.
Proof.
  intros Hd. unfold expect. destruct (Ascii.eqb "-" c) eqn:E; [|done].
  apply Ascii.eqb_eq in E. by subst.
Qed.

Lemma decimal_value_exp0 (neg : bool) (i f : Z) (k : nat) :
  decimal_value neg i f k 0 =
  Qred (Qmake (if neg then - (i * 10 ^ Z.of_nat k + f) else i * 10 ^ Z.of_nat k + f)
              (Z.to_pos (10 ^ Z.of_nat k))).
Proof.
  unfold decimal_value. change (Z.max 0 0) with 0. change (Z.max (- 0) 0) with 0.
  rewrite Z.pow_0_r, Z.mul_1_r, Z.add_0_r. reflexivity.
Qed.

(** [10^k / d] scales [n / d] to an integer when [d] divides [10^k]. *)
Lemma scaled_exact (n d k : Z) : 0 < d -> 0 <= k -> (10 ^ k) mod d = 0 ->
  (Z.abs n * 10 ^ k / d) * d = Z.abs n * 10 ^ k.
Proof.
  intros Hd Hk Hm.
  assert (Hm' : (Z.abs n * 10 ^ k) mod d = 0).
  { rewrite Z.mul_mod by lia. rewrite Hm, Z.mul_0_r. apply Z.mod_0_l. lia. }
  pose proof (Z.div_mod (Z.abs n * 10 ^ k) d ltac:(lia)). lia.
Qed.

(** The value read from a signed decimal equals the number it was
    printed from. *)
Lemma Qred_scaled (q : Q) (k : nat) (m : Z) :
  m * Zpos (Qden (Qred q)) = Qnum (Qred q) * 10 ^ Z.of_nat k ->
  Qred (Qmake m (Z.to_pos (10 ^ Z.of_nat k))) = Qred q.
Proof.
  intros Hm. transitivity (Qred (Qred q)); [|apply Qred_complete, Qred_correct].
  apply Qred_complete. unfold Qeq. cbn [Qnum Qden].
  rewrite Z2Pos.id by (apply Z.pow_pos_nonneg; lia). lia.
Qed.

(** [JSON.parse] reads the number [number_to_string] printed, in
    lowest terms, when it is followed by a delimiter. *)
Lemma parse_number_to_string (q : Q) (rest : string) :
  js_exact q = true -> follow_ok rest = true ->
  parse_number (number_to_string q +:+ rest) = Some (Qred q, rest).
Proof.
  intros Hq Hr. pose proof (follow_ok_no_digit _ Hr) as Hr'.
  unfold js_exact, number_to_string in *.
  set (n := Qnum (Qred q)) in *. set (d := Zpos (Qden (Qred q))) in *.
  destruct (d =? 1) eqn:Ed.
  - (* an integer *)
    apply Z.eqb_eq in Ed.
    assert (Hv : forall (neg : bool) (i : Z), (if neg then - i else i) = n ->
              decimal_value neg i 0 0 0 = Qred q).
    { intros neg i Hi. rewrite decimal_value_exp0.
      apply (Qred_scaled q 0). fold n d. rewrite Ed. simpl. destruct neg; lia. }
    destruct n as [|p|p] eqn:En; unfold parse_number.
    + change (pretty 0 +:+ rest) with (String "0" rest). simpl expect.
      cbn [int_part]. rewrite Ascii.eqb_refl. cbn [mbind option_bind].
      rewrite frac_part_follow by done. cbn [mbind option_bind].
      rewrite exp_part_follow by done. cbn [mbind option_bind].
      rewrite (Hv false 0) by done. reflexivity.
    + destruct (pretty_Z_head (Zpos p) ltac:(lia)) as (c & t & Ht & Hd).
      rewrite Ht, string_app_cons, expect_minus_digit by done. rewrite <- string_app_cons, <- Ht.
      rewrite int_part_pretty by (done || lia). cbn [mbind option_bind].
      rewrite frac_part_follow by done. cbn [mbind option_bind].
      rewrite exp_part_follow by done. cbn [mbind option_bind].
      by rewrite (Hv false (Zpos p)).
    + change (pretty (Zneg p) +:+ rest) with (String "-" (pretty (Zpos p) +:+ rest)).
      unfold expect. rewrite Ascii.eqb_refl.
      rewrite int_part_pretty by (done || lia). cbn [mbind option_bind].
      rewrite frac_part_follow by done. cbn [mbind option_bind].
      rewrite exp_part_follow by done. cbn [mbind option_bind].
      by rewrite (Hv true (Zpos p)).
  - (* a terminating decimal *)
    destruct (frac_digits 40 0 d) as [k|] eqn:Ek; [|done]. cbn [default from_option Datatypes.id].
    apply frac_digits_spec in Ek as [Hk _].
    assert (Hd1 : 1 < d) by (apply Z.eqb_neq in Ed; unfold d; lia).
    assert (Hk1 : (1 <= k)%nat).
    { destruct k; [|lia]. rewrite Z.mod_1_l in Hk; lia. }
    set (scaled := Z.abs n * 10 ^ Z.of_nat k / d).
    assert (Hpos : 0 < 10 ^ Z.of_nat k) by (apply Z.pow_pos_nonneg; lia).
    assert (Hsc : 0 <= scaled) by (unfold scaled; apply Z.div_pos; lia).
    assert (Hnext : no_digit_start ("." +:+ pad_digits k (scaled mod 10 ^ Z.of_nat k) +:+ rest) = true)
      by reflexivity.
    rewrite !string_app_assoc. unfold parse_number.
    assert (Hint : int_part (pretty (scaled / 10 ^ Z.of_nat k) +:+
                     ("." +:+ pad_digits k (scaled mod 10 ^ Z.of_nat k) +:+ rest)) =
                   Some (scaled / 10 ^ Z.of_nat k,
                         "." +:+ pad_digits k (scaled mod 10 ^ Z.of_nat k) +:+ rest))
      by (apply int_part_pretty; [apply Z.div_pos; lia|done]).
    assert (Hval : decimal_value (n <? 0) (scaled / 10 ^ Z.of_nat k) (scaled mod 10 ^ Z.of_nat k) k 0
                   = Qred q).
    { rewrite decimal_value_exp0.
      replace (scaled / 10 ^ Z.of_nat k * 10 ^ Z.of_nat k + scaled mod 10 ^ Z.of_nat k) with scaled
        by (pose proof (Z.div_mod scaled (10 ^ Z.of_nat k) ltac:(lia)); lia).
      apply Qred_scaled. fold n d. pose proof (scaled_exact n d (Z.of_nat k) ltac:(lia) ltac:(lia) Hk).
      fold scaled in H. destruct (Z.ltb_spec n 0); lia. }
    destruct (n <? 0).
    + change ("-" +:+ ?x) with (String "-" x). unfold expect at 1. rewrite Ascii.eqb_refl.
      rewrite Hint. cbn [mbind option_bind].
      rewrite frac_part_pad by (done || (apply Z.mod_pos_bound; lia)). cbn [mbind option_bind].
      rewrite exp_part_follow by done. cbn [mbind option_bind]. by rewrite Hval.
    + rewrite string_app_nil_l.
      destruct (pretty_Z_head (scaled / 10 ^ Z.of_nat k) ltac:(apply Z.div_pos; lia))
        as (c & t & Ht & Hd).
      rewrite Ht, string_app_cons, expect_minus_digit by done.
      rewrite <- string_app_cons, <- Ht. rewrite Hint. cbn [mbind option_bind].
      rewrite frac_part_pad by (done || (apply Z.mod_pos_bound; lia)). cbn [mbind option_bind].
      rewrite exp_part_follow by done. cbn [mbind option_bind]. by rewrite Hval.
Qed.

(** *** Values *)

(** Induction on JSON values with a hypothesis for every element of an
    array and every member of an object. *)
Lemma json_ind' (P : json -> Prop)
    (fnull : P JNull) (fbool : forall b, P (JBool b)) (fnum : forall q, P (JNum q))
    (fstr : forall s, P (JStr s)) (farr : forall xs, Forall P xs -> P (JArr xs))
    (fobj : forall fs, Forall (fun kv => P kv.2) fs -> P (JObj fs)) :
  forall v, P v.
Proof.
  fix F 1. intros [|b|q|s|xs|fs]; [done..| |].
  - apply farr. revert xs. fix G 1. intros [|x xs]; constructor; [apply F|apply G].
  - apply fobj. revert fs. fix G 1. intros [|[k x] fs]; constructor; [apply F|apply G].
Qed.

Lemma digit_eqb_false (c x : ascii) : is_digit c = true -> is_digit x = false -> Ascii.eqb c x = false.
Proof. intros Hc Hx. destruct (Ascii.eqb c x) eqn:E; [|done]. apply Ascii.eqb_eq in E. congruence. Qed.

Lemma number_to_string_head (q : Q) :
  exists c t, number_to_string q = String c t /\ (c = "-"%char \/ is_digit c = true).
Proof.
  unfold number_to_string. set (n := Qnum (Qred q)). set (d := Zpos (Qden (Qred q))).
  destruct (d =? 1).
  - destruct n as [|p|p]; [by eexists _, _; split; [reflexivity|right]| |by eexists _, _; split; [reflexivity|left]].
    destruct (pretty_Z_head (Zpos p) ltac:(lia)) as (c & t & -> & Hc). eauto.
  - destruct (n <? 0); [by eexists _, _; split; [reflexivity|left]|].
    rewrite string_app_nil_l.
    destruct (pretty_Z_head (Z.abs n * 10 ^ Z.of_nat (default 20%nat (frac_digits 40 0 d)) / d /
                             10 ^ Z.of_nat (default 20%nat (frac_digits 40 0 d))))
      as (c & t & -> & Hc).
    { apply Z.div_pos; [apply Z.div_pos|]; try apply Z.pow_pos_nonneg; lia. }
    eexists _, _. split; [reflexivity|by right].
Qed.

Lemma stringify_head (v : json) :
  exists c t, stringify v = String c t /\ is_ws c = false /\ Ascii.eqb c "]" = false.
Proof.
  destruct v as [|[]|q|s|xs|fs]; try by eexists _, _.
  - destruct (number_to_string_head q) as (c & t & Ht & [->|Hc]); simpl; rewrite Ht;
      [by eexists _, _|].
    eexists _, _. split; [reflexivity|]. split; [|by apply digit_eqb_false].
    unfold is_ws. unfold is_digit in Hc. apply andb_true_iff in Hc as [H1 H2].
    apply Nat.leb_le in H1, H2. repeat rewrite (proj2 (Nat.eqb_neq _ _)) by lia. done.
Qed.

Lemma skip_ws_head (c : ascii) (t : string) : is_ws c = false -> skip_ws (String c t) = String c t.
Proof. intros Hc. simpl. by rewrite Hc. Qed.

Lemma skip_ws_stringify (v : json) (rest : string) :
  skip_ws (stringify v +:+ rest) = stringify v +:+ rest.
Proof.
  destruct (stringify_head v) as (c & t & Ht & Hws & _). rewrite Ht, string_app_cons.
  by apply skip_ws_head.
Qed.

(** The first steps of [parse_value] on the first character. *)
Lemma parse_value_quote (f : nat) (r : string) :
  parse_value (S f) (String quote_char r) = of_option ('(t, r') ← parse_string_body r; Some (JStr t, r')).
Proof. reflexivity. Qed.

Lemma parse_value_lbracket (f : nat) (r : string) :
  parse_value (S f) (String "[" r) =
  match expect "]" (skip_ws r) with
  | Some r' => Parsed (JArr []) r'
  | None => pmap JArr (parse_elements f (skip_ws r))
  end.
Proof. reflexivity. Qed.

Lemma parse_value_lbrace (f : nat) (r : string) :
  parse_value (S f) (String "{" r) =
  match expect "}" (skip_ws r) with
  | Some r' => Parsed (JObj []) r'
  | None => pmap JObj (parse_members f (skip_ws r))
  end.
Proof. reflexivity. Qed.

Lemma parse_value_number (f : nat) (c : ascii) (r : string) : c = "-"%char \/ is_digit c = true ->
  parse_value (S f) (String c r) = of_option ('(q, r') ← parse_number (String c r); Some (JNum q, r')).
Proof.
  intros [->|Hc]; [reflexivity|]. cbn [parse_value].
  rewrite (digit_eqb_false c "{"), (digit_eqb_false c "["), (digit_eqb_false c quote_char),
    (digit_eqb_false c "n"), (digit_eqb_false c "t"), (digit_eqb_false c "f") by done.
  reflexivity.
Qed.

Lemma expect_rbracket_stringify (v : json) (rest : string) :
  expect "]" (stringify v +:+ rest) = None.
Proof.
  destruct (stringify_head v) as (c & t & Ht & _ & Hc). rewrite Ht, string_app_cons.
  unfold expect. by rewrite Ascii.eqb_sym, Hc.
Qed.

Lemma skip_ws_join (y : json) (ys : list json) (r : string) :
  skip_ws (join_comma (map stringify (y :: ys)) +:+ r) = join_comma (map stringify (y :: ys)) +:+ r.
Proof.
  destruct ys; cbn [List.map join_comma]; [apply skip_ws_stringify|].
  rewrite !string_app_assoc. apply skip_ws_stringify.
Qed.

(** The elements of an array, read after the opening bracket. *)
Lemma parse_elements_join (xs : list json) :
  Forall (fun x => json_exact x = true -> forall f rest, (jsize x <= f)%nat -> follow_ok rest = true ->
                   parse_value f (stringify x +:+ rest) = Parsed (json_norm x) rest) xs ->
  forallb json_exact xs = true -> xs <> [] ->
  forall f rest, (sum_list_with (fun x => S (jsize x)) xs <= f)%nat ->
  parse_elements f (join_comma (map stringify xs) +:+ "]" +:+ rest) = Parsed (map json_norm xs) rest.
Proof.
  induction 1 as [|x xs Hx Hxs IH]; [done|]. intros Hex _ f rest Hf.
  apply andb_true_iff in Hex as [Hx1 Hxs1]. destruct f as [|f]; [simpl in Hf; lia|].
  cbn [sum_list_with foldr] in Hf. cbn [parse_elements].
  destruct xs as [|y ys].
  - cbn [List.map join_comma]. rewrite Hx by (done || lia). reflexivity.
  - change (join_comma (map stringify (x :: y :: ys))) with
      (stringify x +:+ "," +:+ join_comma (map stringify (y :: ys))).
    rewrite !string_app_assoc, Hx by (done || lia).
    change (skip_ws ("," +:+ ?t)) with (String "," t). unfold expect at 1. rewrite Ascii.eqb_refl.
    rewrite skip_ws_join.
    rewrite (IH Hxs1 ltac:(done) f rest) by (simpl in *; lia). reflexivity.
Qed.

Lemma quote_app (k t : string) :
  quote k +:+ t = String quote_char (escape_string k +:+ String quote_char t).
Proof. unfold quote. rewrite string_app_cons, string_app_assoc. reflexivity. Qed.

Lemma skip_ws_members (kv : string * json) (fs : list (string * json)) (r : string) :
  skip_ws (join_comma (map (fun kv => quote kv.1 +:+ ":" +:+ stringify kv.2) (kv :: fs)) +:+ r) =
  join_comma (map (fun kv => quote kv.1 +:+ ":" +:+ stringify kv.2) (kv :: fs)) +:+ r.
Proof. destruct fs; cbn [List.map join_comma]; rewrite !string_app_assoc, quote_app; reflexivity. Qed.

(** The members of an object, read after the opening brace. *)
Lemma parse_members_join (fs : list (string * json)) :
  Forall (fun kv => json_exact kv.2 = true -> forall f rest, (jsize kv.2 <= f)%nat ->
                    follow_ok rest = true ->
                    parse_value f (stringify kv.2 +:+ rest) = Parsed (json_norm kv.2) rest) fs ->
  forallb (fun kv => json_exact kv.2) fs = true -> fs <> [] ->
  forall f rest, (sum_list_with (fun kv => S (jsize kv.2)) fs <= f)%nat ->
  parse_members f (join_comma (map (fun kv => quote kv.1 +:+ ":" +:+ stringify kv.2) fs) +:+ "}" +:+ rest)
  = Parsed (map (fun kv => (kv.1, json_norm kv.2)) fs) rest.
Proof.
  induction 1 as [|[k x] fs Hx Hfs IH]; [done|]. intros Hex _ f rest Hf.
  apply andb_true_iff in Hex as [Hx1 Hfs1]. destruct f as [|f]; [simpl in Hf; lia|].
  cbn [sum_list_with foldr] in Hf. cbn [fst snd] in *.
  destruct fs as [|kv' fs'].
  - cbn [List.map join_comma fst snd]. rewrite !string_app_assoc, quote_app.
    cbn [parse_members]. unfold quote_char at 1. rewrite Ascii.eqb_refl.
    rewrite parse_string_body_escape.
    change (skip_ws (":" +:+ ?t)) with (String ":" t). unfold expect at 1. rewrite Ascii.eqb_refl.
    rewrite skip_ws_stringify, Hx by (done || lia). reflexivity.
  - change (join_comma (map (fun kv => quote kv.1 +:+ ":" +:+ stringify kv.2) ((k, x) :: kv' :: fs')))
      with ((quote k +:+ ":" +:+ stringify x) +:+ "," +:+
            join_comma (map (fun kv => quote kv.1 +:+ ":" +:+ stringify kv.2) (kv' :: fs'))).
    rewrite !string_app_assoc, quote_app.
    cbn [parse_members]. unfold quote_char at 1. rewrite Ascii.eqb_refl.
    rewrite parse_string_body_escape.
    change (skip_ws (":" +:+ ?t)) with (String ":" t). unfold expect at 1. rewrite Ascii.eqb_refl.
    rewrite skip_ws_stringify, Hx by (done || lia).
    change (skip_ws ("," +:+ ?t)) with (String "," t). unfold expect at 1. rewrite Ascii.eqb_refl.
    rewrite skip_ws_members, (IH Hfs1 ltac:(done) f rest) by (simpl in *; lia). reflexivity.
Qed.

(** The text [stringify] prints for [v], followed by a delimiter, is read
    back as [v] with its numbers in lowest terms. *)
Lemma parse_stringify (v : json) :
  json_exact v = true -> forall f rest, (jsize v <= f)%nat -> follow_ok rest = true ->
  parse_value f (stringify v +:+ rest) = Parsed (json_norm v) rest.
Proof.
  induction v as [|b|q|s|xs IH|fs IH] using json_ind'; intros Hex f rest Hf Hr;
    (destruct f as [|f]; [simpl in Hf; lia|]).
  - reflexivity.
  - by destruct b.
  - destruct (number_to_string_head q) as (c & t & Ht & Hc). cbn [stringify json_norm].
    rewrite Ht, string_app_cons, parse_value_number by done.
    rewrite <- string_app_cons, <- Ht, parse_number_to_string by done. reflexivity.
  - cbn [stringify json_norm]. rewrite quote_app, parse_value_quote, parse_string_body_escape.
    reflexivity.
  - destruct xs as [|x xs']; [reflexivity|].
    cbn [stringify json_norm]. rewrite !string_app_assoc, string_app_cons, string_app_nil_l.
    rewrite parse_value_lbracket, skip_ws_join.
    change (join_comma (map stringify (x :: xs'))) with
      (join_comma (stringify x :: map stringify xs')).
    assert (Hhead : expect "]" (join_comma (stringify x :: map stringify xs') +:+ "]" +:+ rest) = None).
    { destruct xs'; cbn [join_comma List.map]; rewrite ?string_app_assoc; apply expect_rbracket_stringify. }
    rewrite Hhead. change (join_comma (stringify x :: map stringify xs')) with
      (join_comma (map stringify (x :: xs'))).
    rewrite (parse_elements_join (x :: xs') IH Hex ltac:(done)) by (simpl in *; lia). reflexivity.
  - destruct fs as [|[k x] fs']; [reflexivity|].
    cbn [stringify json_norm]. rewrite !string_app_assoc, string_app_cons, string_app_nil_l.
    rewrite parse_value_lbrace, skip_ws_members.
    assert (Hhead : forall r, expect "}" (join_comma (map (fun kv => quote kv.1 +:+ ":" +:+ stringify kv.2)
                                  ((k, x) :: fs')) +:+ r) = None).
    { intros r. destruct fs'; cbn [List.map join_comma]; rewrite !string_app_assoc, quote_app;
        reflexivity. }
    rewrite Hhead, (parse_members_join ((k, x) :: fs') IH Hex ltac:(done) f rest) by (simpl in *; lia).
    reflexivity.
Qed.

(** The same parse at any two sufficient fuels. *)
Lemma parse_value_fuel_eq (f1 f2 : nat) (s : string) :
  parse_value f1 s <> NoFuel -> parse_value f2 s <> NoFuel -> parse_value f1 s = parse_value f2 s.
Proof.
  intros H1 H2. rewrite <- (parse_value_fuel_le f1 (Nat.max f1 f2) s H1) by lia.
  by rewrite (parse_value_fuel_le f2 (Nat.max f1 f2) s H2) by lia.
Qed.

Lemma parse_fuel_enough (s : string) : parse_value (parse_fuel s) s <> NoFuel.
Proof. apply (proj1 (parse_terminates _)). unfold parse_fuel. lia. Qed.

(** [JSON.parse] always terminates with a value or a syntax error:
    the reader never runs out of the fuel [JSON_parse_text] gives it, and
    any larger fuel gives the same result, so [JSON_parse_text] is the
    fuel-independent meaning of the text. *)
Theorem JSON_parse_text_fuel (text : string) (f : nat) :
  (parse_fuel (skip_ws text) <= f)%nat ->
  parse_value f (skip_ws text) <> NoFuel /\
  parse_value f (skip_ws text) = parse_value (parse_fuel (skip_ws text)) (skip_ws text).
Proof.
  intros Hf. pose proof (parse_fuel_enough (skip_ws text)) as H.
  rewrite (parse_value_fuel_le _ f _ H Hf). by split.
Qed.

(** What the save effect writes, [JSON.stringify] of a value whose
    numbers print exactly, is read back by [JSON.parse] as the same value
    with its numbers in lowest terms. *)
Lemma JSON_parse_text_stringify (v : json) :
  json_exact v = true -> JSON_parse_text (stringify v) = Some (json_norm v).
Proof.
  intros Hex. unfold JSON_parse_text.
  rewrite <- (string_app_nil_r (stringify v)), skip_ws_stringify.
  pose proof (parse_stringify v Hex (jsize v) "" ltac:(done) ltac:(done)) as Hp.
  rewrite (parse_value_fuel_eq _ (jsize v)); [by rewrite Hp|apply parse_fuel_enough|by rewrite Hp].
Qed.

Lemma stringify_json_norm (v : json) : stringify (json_norm v) = stringify v.
Proof.
  induction v as [| | q | | xs IH | fs IH] using json_ind'; cbn [json_norm stringify]; try done.
  - unfold number_to_string. by rewrite (Qred_complete _ _ (Qred_correct q)).
  - by rewrite List.map_map, (List.map_ext_Forall _ _ IH).
  - rewrite List.map_map. cbn. f_equal. f_equal. f_equal. apply List.map_ext_Forall.
    eapply Forall_impl; [exact IH|]. intros kv Hkv. cbn. by rewrite Hkv.
Qed.

(** C28: [JSON.parse] reads back what [JSON.stringify] printed, numbers
    in lowest terms, and printing the value read gives the same text
    again: text, value and text agree, for every value whose numbers
    print exactly. *)
Theorem JSON_roundtrip (v : json) :
  json_exact v = true ->
  JSON_parse_text (stringify v) = Some (json_norm v) /\ stringify (json_norm v) = stringify v.
Proof. intros Hv. split; [exact (JSON_parse_text_stringify v Hv)|apply stringify_json_norm]. Qed.

Lemma JSON_roundtrip_witness :
  json_exact (JObj [("amount", JNum (Qmake 25 2)); ("tags", JArr [JStr "a"; JNull])]) = true /\
  JSON_parse_text (stringify (JObj [("amount", JNum (Qmake 25 2)); ("tags", JArr [JStr "a"; JNull])])) =
    Some (json_norm (JObj [("amount", JNum (Qmake 25 2)); ("tags", JArr [JStr "a"; JNull])])) /\
  stringify (json_norm (JObj [("amount", JNum (Qmake 25 2)); ("tags", JArr [JStr "a"; JNull])])) =
    stringify (JObj [("amount", JNum (Qmake 25 2)); ("tags", JArr [JStr "a"; JNull])]).
Proof.
  assert (H : json_exact (JObj [("amount", JNum (Qmake 25 2)); ("tags", JArr [JStr "a"; JNull])]) = true)
    by reflexivity.
  split; [exact H|]. apply (JSON_roundtrip _ H).
Defined.
