(* ===== verification/App.v ===== *)
(** * App: the [App] component of [src/App.tsx]

    The component's seven [useState] hooks are the fields of [AppState].
    The storage is any [KVStore] satisfying [KVStoreLaws]; the time zone
    offset [tzo] is fixed for the whole section.

    - [loadEffect] is the mount effect (lines 38-58): it reads the three
      keys, parses the truthy ones, and either fails with the exception
      [JSON.parse] raises or yields the state updates it schedules;
    - [saveEffect] is the effect of lines 61-65, run after every commit in
      which [user], [expenses] or [settings] was set;
    - [mount] is a page load: the first commit runs the load effect and
      then the save effect on the initial state (effects run in order),
      and when the load effect set some state the re-render runs the save
      effect again on the loaded state;
    - each handler is a function on [AppState]; [handle] runs the handler
      an event triggers and then the save effect when the handler set a
      saved field;
    - [enabled] states which controls the rendered tree offers in a state
      (registration form, modal add form, tabs), and [step] and
      [reachable] are the transition system they generate.

    The theorems follow the definitions: the save effect's writes, the
    load of a mirrored storage, the invariant of every reachable state
    (a running page whose storage mirrors its state, with non-empty
    categories and, when identifiers are fresh, distinct identifiers),
    the effect of each action, and the findings, with the witnesses that
    run the model on the specification's scenarios. *)

From S2P Require Import Prelude Types Calendar DateFns Ledger Storage.
From Stdlib Require Import ZArith.

Local Open Scope Q_scope.

Record AppState := {
  user : option UserProfile;
  expenses : list Expense;
  settings : AppSettings;
  activeTab : AppTab;
  showAddForm : bool;
  newExpense : PartialExpense;
  notifications : list string;
}.

Definition set_user (u : option UserProfile) (s : AppState) : AppState :=
  {| user := u; expenses := expenses s; settings := settings s; activeTab := activeTab s;
     showAddForm := showAddForm s; newExpense := newExpense s; notifications := notifications s |}.

Definition set_expenses (l : list Expense) (s : AppState) : AppState :=
  {| user := user s; expenses := l; settings := settings s; activeTab := activeTab s;
     showAddForm := showAddForm s; newExpense := newExpense s; notifications := notifications s |}.

Definition set_settings (st : AppSettings) (s : AppState) : AppState :=
  {| user := user s; expenses := expenses s; settings := st; activeTab := activeTab s;
     showAddForm := showAddForm s; newExpense := newExpense s; notifications := notifications s |}.

Definition set_activeTab (t : AppTab) (s : AppState) : AppState :=
  {| user := user s; expenses := expenses s; settings := settings s; activeTab := t;
     showAddForm := showAddForm s; newExpense := newExpense s; notifications := notifications s |}.

Definition set_showAddForm (b : bool) (s : AppState) : AppState :=
  {| user := user s; expenses := expenses s; settings := settings s; activeTab := activeTab s;
     showAddForm := b; newExpense := newExpense s; notifications := notifications s |}.

Definition set_newExpense (p : PartialExpense) (s : AppState) : AppState :=
  {| user := user s; expenses := expenses s; settings := settings s; activeTab := activeTab s;
     showAddForm := showAddForm s; newExpense := p; notifications := notifications s |}.

Definition set_notifications (n : list string) (s : AppState) : AppState :=
  {| user := user s; expenses := expenses s; settings := settings s; activeTab := activeTab s;
     showAddForm := showAddForm s; newExpense := newExpense s; notifications := n |}.

(** [Number(e.target.value)] on a number input: its value is [""]
    (here [None]), which converts to [0], or a valid decimal. *)
Definition jsNumber (v : option Q) : Q := default 0 v.

(** ** Initial state (lines 21-35) *)

Definition defaultSettings : AppSettings := {| weeklyLimit := 5000; phoneNumber := "" |}.

(** The add form's initial value, also restored by [handleManualAdd]:
    the date is [new Date().toISOString().split('T')[0]]. *)
Definition emptyForm (now : Z) : PartialExpense :=
  {| p_id := None; p_amount := Some 0; p_category := Some "Other"; p_description := Some "";
     p_date := Some (split_T_first (toISOString now)) |}.

Definition initialState (now : Z) : AppState :=
  {| user := None; expenses := []; settings := defaultSettings; activeTab := DASHBOARD;
     showAddForm := false; newExpense := emptyForm now; notifications := [] |}.

(** ** Load effect (lines 38-58) *)

Inductive LoadError :=
  | ParseError (key : string)   (** [JSON.parse] threw a [SyntaxError] *)
  | IllTyped (key : string).    (** the value is not of the declared type *)

Definition parseStored {A} (key : string) (dec : json -> option A) (t : option StoredText)
    : LoadError + option A :=
  if stored_truthy t then
    match t ≫= JSON_parse with
    | None => inl (ParseError key)
    | Some v => match dec v with Some a => inr (Some a) | None => inl (IllTyped key) end
    end
  else inr None.

(** [setUser(JSON.parse(storedUser))] accepts [null] as well as a profile. *)
Definition decode_user_or_null (v : json) : option (option UserProfile) :=
  match v with
  | JNull => Some None
  | _ => Some <$> decode_user v
  end.

Section WithStore.
Context {Store : Type} `{KVStoreLaws Store}.
Variable tzo : Z.

Definition loadEffect (now : Z) (store : Store) (s : AppState)
    : LoadError + (AppState * bool) :=
  match parseStored USER_KEY decode_user_or_null (getItem USER_KEY store) with
  | inl e => inl e
  | inr ou =>
  match parseStored STORAGE_KEY decode_expenses (getItem STORAGE_KEY store) with
  | inl e => inl e
  | inr ol =>
  match parseStored SETTINGS_KEY decode_settings (getItem SETTINGS_KEY store) with
  | inl e => inl e
  | inr ost =>
      let s1 := match ou with Some u => set_user u s | None => s end in
      let s2 := match ol with
                | Some parsed => set_expenses (retainRecent tzo now parsed) s1
                | None => s1 end in
      let s3 := match ost with Some st => set_settings st s2 | None => s2 end in
      inr (s3, bool_decide (is_Some ou) || bool_decide (is_Some ol) || bool_decide (is_Some ost))
  end end end.

(** ** Save effect (lines 61-65) *)
Definition saveEffect (s : AppState) (store : Store) : Store :=
  let store1 := match user s with
                | Some u => setItem USER_KEY (JsonText (encode_user u)) store
                | None => store end in
  let store2 := setItem STORAGE_KEY (JsonText (encode_expenses (expenses s))) store1 in
  setItem SETTINGS_KEY (JsonText (encode_settings (settings s))) store2.

Inductive Phase :=
  | Running (s : AppState) (store : Store)
  | Crashed (e : LoadError) (store : Store).

(** A page load at instant [now]; an exception in the load effect
    unmounts the whole tree (there is no error boundary). *)
Definition mount (now : Z) (store : Store) : Phase :=
  let s0 := initialState now in
  match loadEffect now store s0 with
  | inl e => Crashed e store
  | inr (s1, changed) =>
      let store1 := saveEffect s0 store in
      Running s1 (if changed then saveEffect s1 store1 else store1)
  end.
End WithStore.

Arguments Phase : clear implicits.

(** ** Handlers *)

(** [handleRegister] (lines 67-70). *)
Definition handleRegister (profile : UserProfile) (s : AppState) : AppState :=
  set_settings {| weeklyLimit := weeklyLimit (settings s);
                  phoneNumber := "+91 " +:+ mobile profile |}
    (set_user (Some profile) s).

(** [addExpense] (lines 72-98), with the identifier [crypto.randomUUID()]
    and the instant [new Date()] it observes. *)
Definition addExpense (newId : string) (now : Z) (exp : PartialExpense) (s : AppState)
    : AppState :=
  let '(updated, _, alert) := addToLedger newId (toISOString now) exp (expenses s) (settings s) in
  let notes := match alert with
               | Some msg => msg :: notifications s
               | None => notifications s end in
  set_activeTab DASHBOARD (set_showAddForm false (set_notifications notes (set_expenses updated s))).

(** [handleManualAdd] (lines 100-109). *)
Definition handleManualAdd (newId : string) (now : Z) (s : AppState) : AppState :=
  set_newExpense (emptyForm now) (addExpense newId now (newExpense s) s).

(** The [onChange] handlers of the add form (lines 286, 294, 305, 315). *)
Definition editAmount (v : option Q) (s : AppState) : AppState :=
  let f := newExpense s in
  set_newExpense {| p_id := p_id f; p_amount := Some (jsNumber v); p_category := p_category f;
                    p_description := p_description f; p_date := p_date f |} s.

Definition editCategory (c : string) (s : AppState) : AppState :=
  let f := newExpense s in
  set_newExpense {| p_id := p_id f; p_amount := p_amount f; p_category := Some c;
                    p_description := p_description f; p_date := p_date f |} s.

Definition editDescription (d : string) (s : AppState) : AppState :=
  let f := newExpense s in
  set_newExpense {| p_id := p_id f; p_amount := p_amount f; p_category := p_category f;
                    p_description := Some d; p_date := p_date f |} s.

Definition editDate (d : string) (s : AppState) : AppState :=
  let f := newExpense s in
  set_newExpense {| p_id := p_id f; p_amount := p_amount f; p_category := p_category f;
                    p_description := p_description f; p_date := Some d |} s.

(** The weekly limit input's [onChange] (line 216). *)
Definition editWeeklyLimit (v : option Q) (s : AppState) : AppState :=
  set_settings {| weeklyLimit := jsNumber v; phoneNumber := phoneNumber (settings s) |} s.

(** ** Events: what the rendered tree lets the user (or the scanner) do *)

Inductive Event :=
  | Reload (now : Z)                                          (** page load *)
  | Register (profile : UserProfile)                          (** [onRegister] *)
  | ScannerExtract (exp : PartialExpense) (newId : string) (now : Z)
                                                              (** [onExpenseExtracted] *)
  | SubmitManual (newId : string) (now : Z)                   (** form [onSubmit] *)
  | OpenAddForm | CancelAddForm
  | EditAmount (v : option Q) | EditCategory (c : string)
  | EditDescription (d : string) | EditDate (d : string)
  | SelectTab (t : AppTab)
  | EditWeeklyLimit (v : option Q)
  | Dismiss
  | ResetApp (now : Z).                                       (** clear and reload *)

(** The guards of the markup.  Without a user only the registration form
    is rendered (line 123), and it submits only a mobile number matching
    [INDIAN_MOBILE_REGEX].  The add form is a modal overlay above the
    navigation (z-index 60 over 50): while it is open only its inputs,
    its submit button (whose [required] amount input shows [''] for a
    falsy amount) and Cancel are reachable, while a mounted bill scanner
    may still deliver its result.  The floating button is hidden on the
    editor tab (line 248); the limit input and the reset button are on
    the settings tab; Dismiss is shown with a notification. *)
Definition enabled (s : AppState) (ev : Event) : bool :=
  match ev with
  | Reload _ => true
  | Register p => bool_decide (user s = None) && INDIAN_MOBILE_REGEX (mobile p)
  | _ =>
    bool_decide (user s <> None) &&
    match ev with
    | ScannerExtract _ _ _ => bool_decide (activeTab s = SCANNER)
    | SubmitManual _ _ => showAddForm s && truthy (p_amount (newExpense s) ||? 0)
    | CancelAddForm | EditAmount _ | EditDescription _ | EditDate _ => showAddForm s
    | EditCategory c => showAddForm s && bool_decide (c ∈ CATEGORIES)
    | OpenAddForm => negb (showAddForm s) && bool_decide (activeTab s <> EDITOR)
    | SelectTab _ => negb (showAddForm s)
    | EditWeeklyLimit _ | ResetApp _ =>
        negb (showAddForm s) && bool_decide (activeTab s = SETTINGS)
    | Dismiss => negb (showAddForm s) && bool_decide (notifications s <> [])
    | _ => false
    end
  end.

Section Machine.
Context {Store : Type} `{KVStoreLaws Store}.
Variable tzo : Z.

(** A handler that set [user], [expenses] or [settings] is followed by
    the save effect. *)
Definition commit (s : AppState) (store : Store) : Phase Store :=
  Running s (saveEffect s store).

Definition handle (ev : Event) (s : AppState) (store : Store) : Phase Store :=
  match ev with
  | Reload now => mount tzo now store
  | ResetApp now => mount tzo now (clear store)
  | Register p => commit (handleRegister p s) store
  | ScannerExtract exp newId now => commit (addExpense newId now exp s) store
  | SubmitManual newId now => commit (handleManualAdd newId now s) store
  | EditWeeklyLimit v => commit (editWeeklyLimit v s) store
  | OpenAddForm => Running (set_showAddForm true s) store
  | CancelAddForm => Running (set_showAddForm false s) store
  | EditAmount v => Running (editAmount v s) store
  | EditCategory c => Running (editCategory c s) store
  | EditDescription d => Running (editDescription d s) store
  | EditDate d => Running (editDate d s) store
  | SelectTab t => Running (set_activeTab t s) store
  | Dismiss => Running (set_notifications [] s) store
  end.

(** A crashed page renders nothing; the browser can still reload it. *)
Inductive step : Phase Store -> Event -> Phase Store -> Prop :=
  | step_running s store ev :
      enabled s ev = true -> step (Running s store) ev (handle ev s store)
  | step_crashed e store now :
      step (Crashed e store) (Reload now) (mount tzo now store).

(** States reachable from a first visit (empty storage), along runs
    whose events satisfy an assumption [env] on the environment (for
    example, that [crypto.randomUUID] returns an unused identifier). *)
Variable env : Phase Store -> Event -> Prop.

Inductive reachable : Phase Store -> Prop :=
  | reach_init now : reachable (mount tzo now emptyStore)
  | reach_step ph ev ph' : reachable ph -> env ph ev -> step ph ev ph' -> reachable ph'.

(** The executable counterpart: run a list of events, failing on a
    disabled one. *)
Fixpoint run (ph : Phase Store) (evs : list Event) : option (Phase Store) :=
  match evs with
  | [] => Some ph
  | ev :: rest =>
      match ph with
      | Running s store => if enabled s ev then run (handle ev s store) rest else None
      | Crashed _ store =>
          match ev with Reload now => run (mount tzo now store) rest | _ => None end
      end
  end.
End Machine.

(** ** Views of the state used by the invariants *)

Section Views.
Context {Store : Type} `{KVStoreLaws Store}.
Variable tzo : Z.

(** The three keys hold the JSON of [user], [expenses] and [settings];
    without a user the user key is absent. *)
Definition store_mirror (store : Store) (s : AppState) : Prop :=
  getItem USER_KEY store = (fun u => JsonText (encode_user u)) <$> user s /\
  getItem STORAGE_KEY store = Some (JsonText (encode_expenses (expenses s))) /\
  getItem SETTINGS_KEY store = Some (JsonText (encode_settings (settings s))).

(** The state a page load shows when the storage mirrors [s]. *)
Definition reloadState (now : Z) (s : AppState) : AppState :=
  set_settings (settings s)
    (set_expenses (retainRecent tzo now (expenses s)) (set_user (user s) (initialState now))).

Definition categories_nonempty (s : AppState) : Prop :=
  Forall (fun e => category e <> "") (expenses s).

Definition app_inv (ph : Phase Store) : Prop :=
  match ph with
  | Running s store => store_mirror store s /\ categories_nonempty s
  | Crashed _ _ => False
  end.

(** The environment assumption along a run. *)
Fixpoint env_along (env : Phase Store -> Event -> Prop) (ph : Phase Store)
    (evs : list Event) : Prop :=
  match evs with
  | [] => True
  | ev :: rest =>
      env ph ev /\
      match ph with
      | Running s store => env_along env (handle tzo ev s store) rest
      | Crashed _ store =>
          match ev with Reload now => env_along env (mount tzo now store) rest | _ => True end
      end
  end.

(** [crypto.randomUUID] yields an identifier not used in the ledger. *)
Definition uuid_fresh (ph : Phase Store) (ev : Event) : Prop :=
  match ph, ev with
  | Running s _, ScannerExtract _ newId _ => newId ∉ ids (expenses s)
  | Running s _, SubmitManual newId _ => newId ∉ ids (expenses s)
  | _, _ => True
  end.

End Views.

(** ** Concrete runs: the specification's scenarios *)

Module Scenarios.
Abbreviation LocalStore := (gmap string StoredText).

(** India Standard Time, 2024-06-10T06:13:20.123Z. *)
Definition ist : Z := 330.
Definition now0 : Z := 1718000000123.
Definition asha : UserProfile := {| name := "Asha"; mobile := "9876543210" |}.

Definition firstVisit : Phase LocalStore := mount ist now0 emptyStore.

Definition state_of (o : option (Phase LocalStore)) : AppState :=
  match o with Some (Running s _) => s | _ => initialState 0 end.
Definition store_of (o : option (Phase LocalStore)) : LocalStore :=
  match o with Some (Running _ st) => st | Some (Crashed _ st) => st | None => ∅ end.

(** Scenario 3: register, then add 6000 for food with the limit 5000. *)
Definition overLimitRun : list Event :=
  [Register asha; OpenAddForm; EditAmount (Some 6000); EditCategory "Food";
   SubmitManual "id-1" now0].
Definition overLimit : AppState := state_of (run ist firstVisit overLimitRun).
Definition overLimitStore : LocalStore := store_of (run ist firstVisit overLimitRun).

(** A manual expense of [-5]: the form accepts any non-zero number. *)
Definition negativeRun : list Event :=
  [Register asha; OpenAddForm; EditAmount (Some (-5)); SubmitManual "id-1" now0].
Definition negative : AppState := state_of (run ist firstVisit negativeRun).
Definition negativeStore : LocalStore := store_of (run ist firstVisit negativeRun).

End Scenarios.

(** ** Theorems *)

Lemma decode_user_or_null_encode (u : UserProfile) :
  decode_user_or_null (encode_user u) = Some (Some u).
Proof. by destruct u. Qed.

(** ** Storage mirrors the state *)

Section Mirror.
Context {Store : Type} `{KVStoreLaws Store}.
Variable tzo : Z.


Lemma getItem_saveEffect_user (s : AppState) (store : Store) :
  getItem USER_KEY (saveEffect s store) =
  match user s with
  | Some u => Some (JsonText (encode_user u))
  | None => getItem USER_KEY store
  end.
Proof.
  unfold saveEffect. rewrite !getItem_setItem_ne by (compute; discriminate).
  destruct (user s); [apply getItem_setItem_eq|done].
Qed.

Lemma saveEffect_mirror (s : AppState) (store : Store) :
  (user s = None -> getItem USER_KEY store = None) ->
  store_mirror (saveEffect s store) s.
Proof.
  intros Hu. unfold store_mirror. rewrite getItem_saveEffect_user.
  unfold saveEffect. rewrite getItem_setItem_eq, getItem_setItem_ne by (compute; discriminate).
  rewrite getItem_setItem_eq. destruct (user s); [done|]. rewrite Hu; done.
Qed.

Lemma store_mirror_user_None (store : Store) (s : AppState) :
  store_mirror store s -> user s = None -> getItem USER_KEY store = None.
Proof. intros [Hu _] Hn. by rewrite Hu, Hn. Qed.

Lemma store_mirror_ext (store : Store) (s s' : AppState) :
  user s' = user s -> expenses s' = expenses s -> settings s' = settings s ->
  store_mirror store s -> store_mirror store s'.
Proof. unfold store_mirror. intros -> -> ->. done. Qed.


(** Loading a mirrored store restores the user and the settings and
    filters the ledger. *)
Lemma loadEffect_mirror (now : Z) (store : Store) (s : AppState) :
  store_mirror store s ->
  loadEffect tzo now store (initialState now) = inr (reloadState tzo now s, true).
Proof.
  intros (Hu & Hl & Hs). unfold loadEffect. rewrite Hu, Hl, Hs.
  unfold parseStored.
  cbn -[decode_expenses decode_settings decode_user_or_null encode_expenses encode_settings
        encode_user].
  rewrite decode_encode_expenses, decode_encode_settings.
  destruct (user s) as [u|] eqn:E; unfold reloadState; rewrite E; [|done].
  cbn -[decode_user_or_null encode_user]. rewrite decode_user_or_null_encode. done.
Qed.

Lemma loadEffect_empty (now : Z) (store : Store) (s0 : AppState) :
  getItem USER_KEY store = None -> getItem STORAGE_KEY store = None ->
  getItem SETTINGS_KEY store = None ->
  loadEffect tzo now store s0 = inr (s0, false).
Proof. intros Hu Hl Hs. unfold loadEffect. by rewrite Hu, Hl, Hs. Qed.

(** A first visit (or a visit after [clear]) shows the initial state and
    writes the empty ledger and the default settings. *)
Lemma mount_fresh (now : Z) (store : Store) :
  getItem USER_KEY store = None -> getItem STORAGE_KEY store = None ->
  getItem SETTINGS_KEY store = None ->
  mount tzo now store = Running (initialState now) (saveEffect (initialState now) store).
Proof. intros Hu Hl Hs. unfold mount. by rewrite loadEffect_empty. Qed.

Lemma mount_mirror (now : Z) (store : Store) (s : AppState) :
  store_mirror store s ->
  exists store' : Store, mount tzo now store = Running (reloadState tzo now s) store' /\
    store_mirror store' (reloadState tzo now s).
Proof.
  intros Hm. unfold mount. rewrite (loadEffect_mirror _ _ s) by done.
  eexists. split; [done|]. apply saveEffect_mirror. intros Hn.
  rewrite getItem_saveEffect_user. simpl. apply (store_mirror_user_None _ s); [done|].
  exact Hn.
Qed.
End Mirror.

(** ** Invariants of the reachable states *)

Lemma addExpense_expenses (newId : string) (now : Z) (exp : PartialExpense) (s : AppState) :
  expenses (addExpense newId now exp s) = fullExpense newId (toISOString now) exp :: expenses s.
Proof. reflexivity. Qed.

Lemma addExpense_user (newId : string) (now : Z) (exp : PartialExpense) (s : AppState) :
  user (addExpense newId now exp s) = user s /\ settings (addExpense newId now exp s) = settings s.
Proof. done. Qed.

Lemma Forall_retainRecent (P : Expense -> Prop) (tzo now : Z) (l : list Expense) :
  Forall P l -> Forall P (retainRecent tzo now l).
Proof.
  rewrite !List.Forall_forall. intros HP e [He _]%retainRecent_In. by apply HP.
Qed.

#[export] Hint Resolve Forall_retainRecent saveEffect_mirror store_mirror_ext : spend.

Section Invariant.
Context {Store : Type} `{KVStoreLaws Store}.
Variable tzo : Z.



Lemma mount_clear_inv (now : Z) (store : Store) : app_inv (mount tzo now (clear store)).
Proof.
  rewrite mount_fresh by apply getItem_clear. split; [|constructor].
  apply saveEffect_mirror. intros _. apply getItem_clear.
Qed.

Lemma commit_inv (s s' : AppState) (store : Store) :
  store_mirror store s -> (user s' = None -> user s = None) ->
  categories_nonempty s' -> app_inv (commit s' store).
Proof.
  intros Hm Hu Hc. split; [|done]. apply saveEffect_mirror.
  intros Hn. apply (store_mirror_user_None _ s); auto.
Qed.

Lemma handle_inv (ev : Event) (s : AppState) (store : Store) :
  app_inv (Running s store) -> app_inv (handle tzo ev s store).
Proof.
  intros [Hm Hc]. destruct ev; simpl.
  - destruct (mount_mirror tzo now store s Hm) as (st' & -> & Hm').
    split; [done|]. by apply Forall_retainRecent.
  - apply (commit_inv s); [done|discriminate|done].
  - apply (commit_inv s); [done|done|]. constructor; [apply fullExpense_category_nonempty|done].
  - apply (commit_inv s); [done|done|]. constructor; [apply fullExpense_category_nonempty|done].
  - split; [by apply (store_mirror_ext _ s)|done].
  - split; [by apply (store_mirror_ext _ s)|done].
  - split; [by apply (store_mirror_ext _ s)|done].
  - split; [by apply (store_mirror_ext _ s)|done].
  - split; [by apply (store_mirror_ext _ s)|done].
  - split; [by apply (store_mirror_ext _ s)|done].
  - split; [by apply (store_mirror_ext _ s)|done].
  - apply (commit_inv s); done.
  - split; [by apply (store_mirror_ext _ s)|done].
  - apply mount_clear_inv.
Qed.

Lemma mount_empty_inv (now : Z) : app_inv (mount tzo now emptyStore).
Proof.
  rewrite mount_fresh by apply getItem_empty. split; [|constructor].
  apply saveEffect_mirror. intros _. apply getItem_empty.
Qed.

Lemma reachable_inv (env : Phase Store -> Event -> Prop) (ph : Phase Store) :
  reachable tzo env ph -> app_inv ph.
Proof.
  induction 1 as [now|ph ev ph' _ IH _ Hs]; [apply mount_empty_inv|].
  destruct Hs; [by apply handle_inv|done].
Qed.
End Invariant.

Section Runs.
Context {Store : Type} `{KVStoreLaws Store}.
Variable tzo : Z.


(** Every run of enabled events from a reachable phase stays reachable
    when the environment assumption holds at each of its steps. *)
Lemma run_reachable (env : Phase Store -> Event -> Prop) (evs : list Event) :
  forall ph ph', env_along tzo env ph evs -> reachable tzo env ph ->
  run tzo ph evs = Some ph' -> reachable tzo env ph'.
Proof.
  induction evs as [|ev rest IH]; intros ph ph' Henv Hr Hrun.
  - by injection Hrun as <-.
  - destruct Henv as [Hev Henv].
    destruct ph as [s st|e st]; simpl in Hrun.
    + destruct (enabled s ev) eqn:E; [|done].
      apply (IH (handle tzo ev s st)); [done| |done]. eapply reach_step; [done|done|].
      by constructor.
    + destruct ev; try done. apply (IH (mount tzo now st)); [done| |done].
      eapply reach_step; [done|done|]. constructor.
Qed.
Lemma env_along_true (ph : Phase Store) (evs : list Event) :
  env_along tzo (fun _ _ => True) ph evs.
Proof.
  revert ph. induction evs as [|ev rest IH]; intros ph; [done|].
  simpl. split; [done|].
  destruct ph as [s st|e st]; [apply IH|destruct ev; try done; apply IH].
Qed.
End Runs.

(** ** Properties of the component *)

Section Properties.
Context {Store : Type} `{KVStoreLaws Store}.
Variable tzo : Z.

(** C5: every state reachable from a first visit is a running page
    (the load effect never throws on what the app wrote itself) whose
    storage holds exactly the JSON of its user, ledger and settings. *)
Theorem reachable_store_mirror (env : Phase Store -> Event -> Prop) (ph : Phase Store) :
  reachable tzo env ph -> exists s store, ph = Running s store /\ store_mirror store s.
Proof.
  intros Hr. pose proof (reachable_inv tzo env ph Hr) as Hi.
  destruct ph as [s st|]; [|done]. destruct Hi. eauto.
Qed.

(** C10: in every reachable state, every expense of the ledger has a
    non-empty category. *)
Theorem reachable_categories_nonempty (env : Phase Store -> Event -> Prop)
    (s : AppState) (store : Store) (e : Expense) :
  reachable tzo env (Running s store) -> In e (expenses s) -> category e <> "".
Proof.
  intros Hr Hin. destruct (reachable_inv tzo env _ Hr) as [_ Hc].
  by apply (proj1 (List.Forall_forall _ _) Hc).
Qed.

(** C6: reloading the page in a reachable state keeps the user and the
    settings and keeps exactly the expenses dated after the cutoff, in
    the same order; the notifications, the form and the tab are reset. *)
Theorem reload_restores (env : Phase Store -> Event -> Prop) (s : AppState)
    (store : Store) (now : Z) :
  reachable tzo env (Running s store) ->
  exists s' store', handle tzo (Reload now) s store = Running s' store' /\
    user s' = user s /\ settings s' = settings s /\
    expenses s' = retainRecent tzo now (expenses s) /\
    notifications s' = [] /\ showAddForm s' = false /\ activeTab s' = DASHBOARD.
Proof.
  intros Hr. destruct (reachable_inv tzo env _ Hr) as [Hm _].
  destruct (mount_mirror tzo now store s Hm) as (st' & Hmount & _).
  exists (reloadState tzo now s), st'. split; [done|]. repeat split; done.
Qed.

(** C7: loading the same snapshot twice at the same instant yields the
    same state: a reload right after a reload changes nothing. *)
Theorem reload_idempotent (env : Phase Store -> Event -> Prop) (s : AppState)
    (store : Store) (now : Z) :
  reachable tzo env (Running s store) ->
  exists s1 st1 st2, handle tzo (Reload now) s store = Running s1 st1 /\
    handle tzo (Reload now) s1 st1 = Running s1 st2.
Proof.
  intros Hr. destruct (reachable_inv tzo env _ Hr) as [Hm _].
  destruct (mount_mirror tzo now store s Hm) as (st1 & Hmount1 & Hm1).
  destruct (mount_mirror tzo now st1 _ Hm1) as (st2 & Hmount2 & _).
  exists (reloadState tzo now s), st1, st2. split; [done|]. simpl. rewrite Hmount2.
  unfold reloadState. simpl. by rewrite retainRecent_idempotent.
Qed.
End Properties.

Section Handlers.
Context {Store : Type} `{KVStoreLaws Store}.
Variable tzo : Z.


Lemma handle_ids_NoDup (ev : Event) (s s' : AppState) (store store' : Store) :
  app_inv (Running s store) -> uuid_fresh (Running s store) ev ->
  NoDup (ids (expenses s)) -> handle tzo ev s store = Running s' store' ->
  NoDup (ids (expenses s')).
Proof.
  intros [Hm _] Hf Hnd Hh. destruct ev; simpl in Hh, Hf.
  - destruct (mount_mirror tzo now store s Hm) as (st' & Hmount & _).
    rewrite Hmount in Hh. injection Hh as <- _. by apply retainRecent_ids_NoDup.
  - by injection Hh as <- _.
  - injection Hh as <- _. by constructor.
  - injection Hh as <- _. by constructor.
  - by injection Hh as <- _.
  - by injection Hh as <- _.
  - by injection Hh as <- _.
  - by injection Hh as <- _.
  - by injection Hh as <- _.
  - by injection Hh as <- _.
  - by injection Hh as <- _.
  - by injection Hh as <- _.
  - by injection Hh as <- _.
  - rewrite mount_fresh in Hh by apply getItem_clear. injection Hh as <- _. constructor.
Qed.

(** C9: when every generated identifier is fresh, the identifiers of
    the ledger stay pairwise distinct in every reachable state, across
    adds, reloads and resets. *)
Theorem reachable_ids_NoDup (ph : Phase Store) :
  reachable tzo uuid_fresh ph ->
  forall s store, ph = Running s store -> NoDup (ids (expenses s)).
Proof.
  induction 1 as [now|ph ev ph' Hr IH Hf Hs]; intros s st Heq.
  - rewrite mount_fresh in Heq by apply getItem_empty. injection Heq as <- _. constructor.
  - subst ph'. inversion Hs as [s0 st0 ev0 _ Heq1 Heq2 Heq3|e st0 now Heq1 Heq2 Heq3]; subst.
    + eapply handle_ids_NoDup; [by apply (reachable_inv tzo uuid_fresh)|done|by eapply IH|done].
    + by destruct (reachable_inv tzo uuid_fresh _ Hr).
Qed.
End Handlers.

Section Actions.
Context {Store : Type} `{KVStoreLaws Store}.
Variable tzo : Z.

(** C11: registering stores the profile and sets the notification
    number to ["+91 "] followed by the mobile number, keeping the
    weekly limit; the profile is written to storage at once. *)
Theorem register_effect (p : UserProfile) (s : AppState) (store : Store) :
  exists store', handle tzo (Register p) s store = Running (handleRegister p s) store' /\
    user (handleRegister p s) = Some p /\
    settings (handleRegister p s) =
      {| weeklyLimit := weeklyLimit (settings s); phoneNumber := "+91 " +:+ mobile p |} /\
    expenses (handleRegister p s) = expenses s /\
    getItem USER_KEY store' = Some (JsonText (encode_user p)).
Proof.
  eexists. split; [done|]. repeat split. by rewrite getItem_saveEffect_user.
Qed.

(** C8: after [addExpense] the ledger starts with the new record, the
    form is closed and the dashboard shown, and the notifications gain
    the alert for the current settings in front exactly when the total
    of the updated ledger exceeds the limit; otherwise they are
    unchanged. *)
Theorem addExpense_effect (newId : string) (now : Z) (exp : PartialExpense) (s : AppState) :
  let s' := addExpense newId now exp s in
  let total := currentWeekTotal (expenses s') in
  expenses s' = fullExpense newId (toISOString now) exp :: expenses s /\
  showAddForm s' = false /\ activeTab s' = DASHBOARD /\
  ((weeklyLimit (settings s) < total /\
    notifications s' = alertMessage (settings s) :: notifications s) \/
   (total <= weeklyLimit (settings s) /\ notifications s' = notifications s)).
Proof.
  cbn zeta. rewrite addExpense_expenses. repeat split.
  unfold addExpense, addToLedger. cbn [set_activeTab set_showAddForm set_notifications
    set_expenses notifications expenses settings].
  destruct (checkLimit _ (settings s)) as [msg|] eqn:E.
  - left. apply checkLimit_some_iff in E as [Hlt ->]. done.
  - right. apply checkLimit_none_iff in E. done.
Qed.

(** C12: the reset button leaves the page in its pre-registration state:
    no user, an empty ledger, the default settings; the reload it
    triggers immediately writes the empty ledger and the default
    settings back, so only the user key stays absent. *)
Theorem reset_effect (now : Z) (s : AppState) (store : Store) :
  exists store', handle tzo (ResetApp now) s store = Running (initialState now) store' /\
    getItem USER_KEY store' = None /\
    getItem STORAGE_KEY store' = Some (JsonText (JArr [])) /\
    getItem SETTINGS_KEY store' = Some (JsonText (encode_settings defaultSettings)).
Proof.
  simpl. rewrite mount_fresh by apply getItem_clear. eexists. split; [done|].
  destruct (saveEffect_mirror (initialState now) (clear store)) as (Hu & Hl & Hs);
    [intros _; apply getItem_clear|].
  done.
Qed.

(** C13: a ledger key holding text that is not JSON makes the load
    effect throw: the page crashes instead of starting with an empty
    ledger. *)
Theorem malformed_ledger_crashes (now : Z) (store : Store) (txt : string) :
  getItem USER_KEY store = None -> getItem STORAGE_KEY store = Some (OtherText txt) ->
  txt <> "" -> mount tzo now store = Crashed (ParseError STORAGE_KEY) store.
Proof.
  intros Hu Hl Htxt. unfold mount, loadEffect. rewrite Hu, Hl.
  unfold parseStored. simpl. apply string_truthy_iff in Htxt. by rewrite Htxt.
Qed.
(** C19: the weekly-limit field stores whatever number is typed,
    negative ones included, and writes it to storage at once; with a
    negative limit, every later [addExpense] of a non-negative amount to
    a ledger of non-negative amounts raises the alert. *)
Theorem negative_limit_always_alerts (v : Q) (newId : string) (now : Z) (exp : PartialExpense)
    (s : AppState) (store : Store) :
  v < 0 -> Forall (fun e => 0 <= amount e) (expenses s) ->
  (forall q, p_amount exp = Some q -> 0 <= q) ->
  let s1 := editWeeklyLimit (Some v) s in
  exists store', handle tzo (EditWeeklyLimit (Some v)) s store = Running s1 store' /\
    getItem SETTINGS_KEY store' = Some (JsonText (encode_settings (settings s1))) /\
    weeklyLimit (settings s1) = v /\
    notifications (addExpense newId now exp s1) = alertMessage (settings s1) :: notifications s.
Proof.
  intros Hv Hl Hq s1. eexists. split; [done|]. split; [apply getItem_setItem_eq|]. split; [done|].
  unfold addExpense, addToLedger. cbn [set_activeTab set_showAddForm set_notifications].
  rewrite (proj2 (checkLimit_some_iff _ _ (alertMessage (settings s1)))); [done|]. split; [|done].
  unfold currentWeekTotal. simpl weeklyLimit.
  assert (Hall : Forall (fun e => 0 <= amount e) (fullExpense newId (toISOString now) exp :: expenses s))
    by (constructor; [by apply fullExpense_amount_nonneg|done]).
  pose proof (reduce_sum_nonneg amount _ Hall).
  change (weeklyLimit (settings s1)) with v. change (expenses s1) with (expenses s). lra.
Qed.
End Actions.

Module ScenarioFacts.
Import Scenarios.

Lemma overLimit_run : run ist firstVisit overLimitRun = Some (Running overLimit overLimitStore).
Proof. vm_compute. reflexivity. Qed.

Lemma negative_run : run ist firstVisit negativeRun = Some (Running negative negativeStore).
Proof. vm_compute. reflexivity. Qed.

Lemma overLimit_reachable (env : Phase LocalStore -> Event -> Prop) :
  env_along ist env firstVisit overLimitRun -> reachable ist env (Running overLimit overLimitStore).
Proof. intros He. eapply run_reachable; [exact He|apply reach_init|apply overLimit_run]. Qed.

Lemma overLimit_fresh : env_along ist uuid_fresh firstVisit overLimitRun.
Proof. vm_compute. repeat split. apply not_elem_of_nil. Qed.

Example scenario3_alert :
  notifications overLimit = ["ALERT: Weekly limit of ₹5000 exceeded! SMS sent to +91 9876543210"].
Proof. vm_compute. reflexivity. Qed.
End ScenarioFacts.


(** ** Findings and witnesses *)

Import Scenarios ScenarioFacts.

(** C14: the specification requires non-negative amounts, but the add
    form's amount input has no [min] and [addExpense] keeps any truthy
    number: a ledger entry with a negative amount is reachable. *)
Theorem negative_amount_reachable :
  exists s store e, reachable ist (fun _ _ => True) (Running s store) /\
    In e (expenses s) /\ amount e < 0.
Proof.
  exists negative, negativeStore.
  exists {| id := "id-1"; amount := -5; category := "Other"; date := "2024-06-10";
            description := "" |}.
  split; [|split].
  - eapply run_reachable; [apply env_along_true|apply reach_init|apply negative_run].
  - vm_compute. by left.
  - vm_compute. reflexivity.
Qed.

(** C15: the add form's default date is the UTC calendar date
    ([toISOString().split('T')[0]]), which [parseISO] reads as local
    midnight: at every instant [t] and every offset from UTC to less
    than a day east of it, the date the form proposes is read as the
    local midnight that starts [t]'s local day, except in the first
    [tzo] minutes of that local day, while UTC is still on the day
    before, where it is read as the midnight one day earlier (in India,
    from 00:00 to 05:30 the form proposes yesterday). *)
Theorem emptyForm_date_is_utc (tzo t : Z) :
  (0 <= tzo < 1440)%Z -> (0 <= c_year (civil_of_ms t) <= 9999)%Z ->
  let off := (tzo * ms_per_minute)%Z in
  let midnight := (t - (t + off) mod ms_per_day)%Z in
  exists d, p_date (emptyForm t) = Some d /\
    parseISO tzo d = Some (if ((t + off) mod ms_per_day <? off)%Z
                           then (midnight - ms_per_day)%Z else midnight).
Proof.
  intros Htz Hy off midnight. eexists. split; [reflexivity|].
  rewrite parseISO_date_of_toISOString by (done || lia). f_equal.
  subst off midnight. unfold ms_per_day, ms_per_minute in *.
  destruct (Z.ltb_spec ((t + tzo * 60000) mod 86400000) (tzo * 60000)); zlia.
Qed.

Lemma emptyForm_date_is_utc_witness :
  exists d, p_date (emptyForm 1717965000000) = Some d /\ parseISO 330 d = Some 1717871400000%Z.
Proof.
  destruct (emptyForm_date_is_utc 330 1717965000000) as (d & Hd & Hp);
    [lia | vm_compute; split; discriminate |].
  exists d. split; [exact Hd|]. rewrite Hp. vm_compute. reflexivity.
Defined.

Lemma reachable_store_mirror_witness :
  exists s store, Running overLimit overLimitStore = Running s store /\ store_mirror store s.
Proof.
  apply (reachable_store_mirror ist (fun _ _ => True)).
  apply overLimit_reachable, env_along_true.
Defined.

Lemma reachable_categories_nonempty_witness : "Food" <> "".
Proof.
  apply (reachable_categories_nonempty ist (fun _ _ => True) overLimit overLimitStore
    {| id := "id-1"; amount := 6000; category := "Food"; date := "2024-06-10";
       description := "" |}).
  - apply overLimit_reachable, env_along_true.
  - vm_compute. by left.
Defined.

Lemma reload_restores_witness :
  exists s' store', handle ist (Reload now0) overLimit overLimitStore = Running s' store' /\
    user s' = user overLimit /\ settings s' = settings overLimit /\
    expenses s' = retainRecent ist now0 (expenses overLimit) /\
    notifications s' = [] /\ showAddForm s' = false /\ activeTab s' = DASHBOARD.
Proof.
  apply (reload_restores ist (fun _ _ => True) overLimit overLimitStore now0).
  apply overLimit_reachable, env_along_true.
Defined.

Lemma reload_idempotent_witness :
  exists s1 st1 st2, handle ist (Reload now0) overLimit overLimitStore = Running s1 st1 /\
    handle ist (Reload now0) s1 st1 = Running s1 st2.
Proof.
  apply (reload_idempotent ist (fun _ _ => True) overLimit overLimitStore now0).
  apply overLimit_reachable, env_along_true.
Defined.

Lemma reachable_ids_NoDup_witness : NoDup (ids (expenses overLimit)).
Proof.
  apply (reachable_ids_NoDup ist (Running overLimit overLimitStore)
           (overLimit_reachable _ overLimit_fresh) overLimit overLimitStore).
  reflexivity.
Defined.

Lemma malformed_ledger_crashes_witness :
  mount ist now0 (<[STORAGE_KEY := OtherText "{oops"]> (∅ : LocalStore)) =
  Crashed (ParseError STORAGE_KEY) (<[STORAGE_KEY := OtherText "{oops"]> ∅).
Proof.
  apply (malformed_ledger_crashes ist now0 _ "{oops"); [reflexivity|reflexivity|discriminate].
Defined.


Lemma register_effect_witness :
  exists store', handle ist (Register asha) (initialState now0) (∅ : LocalStore) =
    Running (handleRegister asha (initialState now0)) store' /\
    user (handleRegister asha (initialState now0)) = Some asha /\
    settings (handleRegister asha (initialState now0)) =
      {| weeklyLimit := weeklyLimit (settings (initialState now0));
         phoneNumber := "+91 " +:+ mobile asha |} /\
    expenses (handleRegister asha (initialState now0)) = expenses (initialState now0) /\
    getItem USER_KEY store' = Some (JsonText (encode_user asha)).
Proof. apply (register_effect ist asha (initialState now0) ∅). Defined.

Lemma reset_effect_witness :
  exists store', handle ist (ResetApp now0) overLimit overLimitStore =
    Running (initialState now0) store' /\
    getItem USER_KEY store' = None /\
    getItem STORAGE_KEY store' = Some (JsonText (JArr [])) /\
    getItem SETTINGS_KEY store' = Some (JsonText (encode_settings defaultSettings)).
Proof. apply (reset_effect ist now0 overLimit overLimitStore). Defined.

Lemma negative_limit_always_alerts_witness :
  exists store', handle ist (EditWeeklyLimit (Some (-1))) (initialState now0) (∅ : LocalStore) =
    Running (editWeeklyLimit (Some (-1)) (initialState now0)) store' /\
    getItem SETTINGS_KEY store' =
      Some (JsonText (encode_settings (settings (editWeeklyLimit (Some (-1)) (initialState now0))))) /\
    weeklyLimit (settings (editWeeklyLimit (Some (-1)) (initialState now0))) = -1 /\
    notifications (addExpense "x" now0 (Build_PartialExpense None (Some 0) None None None)
                     (editWeeklyLimit (Some (-1)) (initialState now0))) =
      alertMessage (settings (editWeeklyLimit (Some (-1)) (initialState now0))) ::
        notifications (initialState now0).
Proof.
  apply (negative_limit_always_alerts ist (-1) "x" now0 (Build_PartialExpense None (Some 0) None None None)
           (initialState now0) ∅).
  - reflexivity.
  - vm_compute. constructor.
  - intros q [= <-]. apply Qle_refl.
Defined.
