(* ===== verification/View.v ===== *)
(** * View: what the [App] component renders (lines 111-325 of [src/App.tsx])

    [render] is the JSX of [App] as a function of its state: the
    registration form without a user, and otherwise the header (the
    greeting and the bell's red dot), the banner with the first
    notification and its Dismiss button, the panel of the active tab,
    the floating add button, the bottom navigation and the modal add
    form.  The only expression of the markup that can throw is
    [format(parseISO(exp.date), 'MMM d, yyyy')] in the History list:
    date-fns's [format] throws a [RangeError] on an invalid date, and
    [render] is then [None] (React unmounts the whole tree, as there is
    no error boundary).

    The History rows show [exp.category[0]], [exp.description ||
    exp.category], the date in the form [MMM d, yyyy] of the en-US
    locale in local time, and [-₹] followed by
    [exp.amount.toLocaleString('en-IN')]: the amount rounded half away
    from zero to at most three decimals, with the Indian grouping of
    the integer part (the last three digits, then groups of two).

    [controls] lists the controls of a rendered page a user can reach:
    while the modal add form is open it covers everything below it
    (z-index 60 over the navigation's 50), so only its own inputs are
    reachable, while a mounted bill scanner may still deliver its
    result.  The theorems show that [enabled] of [App.v], the guard of
    the step relation, is exactly the set of events the rendered page
    offers, and when rendering throws; which day a History row shows
    for the form's default date (its UTC day) and for a date picked in
    the date input (that very date); and how amounts are printed. *)

From S2P Require Import Prelude Types Calendar DateFns Ledger Storage JsonText App.
From stdpp Require Import pretty.
From Stdlib Require Import Ascii ZArith Qabs.

Local Open Scope Z_scope.

(** ** date-fns [format(date, 'MMM d, yyyy')] *)

(** The abbreviated month names of the en-US locale, indexed by
    [getMonth()]. *)
Definition month_abbreviations : list string :=
  ["Jan"; "Feb"; "Mar"; "Apr"; "May"; "Jun"; "Jul"; "Aug"; "Sep"; "Oct"; "Nov"; "Dec"].

Fixpoint zeros (k : nat) : string :=
  match k with O => EmptyString | S k' => String "0" (zeros k') end.

(** [String.prototype.padStart(len, "0")]. *)
Definition padStart (len : nat) (s : string) : string := zeros (len - String.length s) +:+ s.

(** date-fns's [addLeadingZeros(number, targetLength)]. *)
Definition addLeadingZeros (n : Z) (len : nat) : string :=
  (if n <? 0 then "-" else "") +:+ padStart len (pretty (Z.abs n)).

(** The [y] token prints the year of the era: a year [y <= 0] is
    [1 - y] before Christ. *)
Definition year_of_era (y : Z) : Z := if 0 <? y then y else 1 - y.

(** The pattern [MMM d, yyyy] on a local date. *)
Definition format_ymd (y m d : Z) : string :=
  nth (Z.to_nat (m - 1)) month_abbreviations "" +:+ " " +:+
  addLeadingZeros d 1 +:+ ", " +:+ addLeadingZeros (year_of_era y) 4.

Definition format_MMM_d_yyyy (tzo t : Z) : string :=
  let c := local_civil tzo t in format_ymd (c_year c) (c_month c) (c_day c).

(** [format] throws [RangeError('Invalid time value')] on an invalid
    date. *)
Definition format_date (tzo : Z) (d : option Z) : option string :=
  t ← d; Some (format_MMM_d_yyyy tzo t).

(** ** [Number.prototype.toLocaleString('en-IN')] *)

(** [|q|] in thousandths, rounded half away from zero (the default
    [maximumFractionDigits] is 3, the rounding mode [halfExpand]). *)
Definition round_thousandths (q : Q) : Z :=
  let r := Qred (Qabs q * 1000) in
  (2 * Qnum r + Zpos (Qden r)) / (2 * Zpos (Qden r)).

(** Groups of two digits above the thousands: [fuel] bounds the number
    of groups. *)
Fixpoint group2 (fuel : nat) (m : Z) : string :=
  match fuel with
  | O => pretty m
  | S f => if m <? 100 then pretty m else group2 f (m / 100) +:+ "," +:+ pad_digits 2 (m mod 100)
  end.

(** The integer part with the Indian grouping [#,##,##0]. *)
Definition indian_group (n : Z) : string :=
  if n <? 1000 then pretty n
  else group2 (String.length (pretty n)) (n / 1000) +:+ "," +:+ pad_digits 3 (n mod 1000).

(** The fraction digits without trailing zeros. *)
Definition fraction_digits (f : Z) : string :=
  if f =? 0 then EmptyString
  else if f mod 100 =? 0 then "." +:+ pad_digits 1 (f / 100)
  else if f mod 10 =? 0 then "." +:+ pad_digits 2 (f / 10)
  else "." +:+ pad_digits 3 f.

Definition toLocaleString_en_IN (q : Q) : string :=
  let n := round_thousandths q in
  (if negb (Qle_bool 0 q) then "-" else "") +:+ indian_group (n / 1000) +:+ fraction_digits (n mod 1000).

(** ** The History list (lines 180-204) *)

Record Row := {
  row_key : string;       (** [key={exp.id}] *)
  row_initial : string;   (** [exp.category[0]] *)
  row_title : string;     (** [exp.description || exp.category] *)
  row_date : string;      (** [format(parseISO(exp.date), 'MMM d, yyyy')] *)
  row_amount : string;    (** [-₹{exp.amount.toLocaleString('en-IN')}] *)
}.

(** [s[0]]: the first code unit, or [undefined], which renders nothing. *)
Definition first_char (s : string) : string :=
  match s with String c _ => String c EmptyString | EmptyString => EmptyString end.

Definition history_row (tzo : Z) (e : Expense) : option Row :=
  d ← format_date tzo (parseISO tzo (date e));
  Some {| row_key := id e; row_initial := first_char (category e);
          row_title := Some (description e) ||? category e; row_date := d;
          row_amount := "-₹" +:+ toLocaleString_en_IN (amount e) |}.

(** ** The rendered page *)

Record NavItem := {
  nav_tab : AppTab;
  nav_label : string;
  nav_active : bool;      (** [activeTab === tab]: the highlighted button *)
}.

(** The bottom navigation (lines 258-266). *)
Definition nav_items (active : AppTab) : list NavItem :=
  (fun '(t, l) => {| nav_tab := t; nav_label := l; nav_active := bool_decide (active = t) |}) <$>
  [(DASHBOARD, "Dashboard"); (HISTORY, "History"); (SCANNER, "Scan Bill");
   (EDITOR, "AI Editor"); (SETTINGS, "Settings")].

(** The panel of the active tab (lines 173-244). *)
Inductive Panel :=
  | DashboardPanel (l : list Expense) (st : AppSettings)  (** [<Dashboard expenses settings/>] *)
  | ScannerPanel                                           (** [<BillScanner .../>] *)
  | EditorPanel                                            (** [<ImageEditor/>] *)
  | HistoryEmpty                                           (** No expenses found. *)
  | HistoryList (rows : list Row)
  | SettingsPanel (limit : string) (phone : string).       (** the two inputs' values *)

Definition render_panel (tzo : Z) (s : AppState) : option Panel :=
  match activeTab s with
  | DASHBOARD => Some (DashboardPanel (expenses s) (settings s))
  | SCANNER => Some ScannerPanel
  | EDITOR => Some EditorPanel
  | HISTORY =>
      match expenses s with
      | [] => Some HistoryEmpty
      | l => HistoryList <$> mapM (history_row tzo) l
      end
  | SETTINGS => Some (SettingsPanel (number_to_string (weeklyLimit (settings s)))
                                    (phoneNumber (settings s)))
  end.

(** The modal add form (lines 268-325): the values of its inputs. *)
Record FormView := {
  form_amount : string;                (** [newExpense.amount || ''] *)
  form_category : option string;
  form_options : list string;          (** [CATEGORIES.map(c => <option .../>)] *)
  form_description : option string;
  form_date : option string;
}.

Definition form_view (f : PartialExpense) : FormView :=
  {| form_amount := match p_amount f with
                    | Some q => if truthy q then number_to_string q else ""
                    | None => "" end;
     form_category := p_category f; form_options := CATEGORIES;
     form_description := p_description f; form_date := p_date f |}.

Record Page := {
  greeting : string;                   (** [Hi, {user.name}] *)
  bell_dot : bool;                     (** [notifications.length > 0] *)
  banner : list string;                (** [notifications.slice(0, 1)] *)
  panel : Panel;
  add_button : bool;                   (** [activeTab !== AppTab.EDITOR] *)
  nav : list NavItem;
  add_form : option FormView;          (** [showAddForm && ...] *)
}.

Inductive View :=
  | RegistrationView                   (** [<RegistrationForm onRegister={handleRegister}/>] *)
  | PageView (p : Page).

Definition render (tzo : Z) (s : AppState) : option View :=
  match user s with
  | None => Some RegistrationView
  | Some u =>
      p ← render_panel tzo s;
      Some (PageView {| greeting := "Hi, " +:+ name u;
                        bell_dot := bool_decide (notifications s <> []);
                        banner := take 1 (notifications s);
                        panel := p;
                        add_button := bool_decide (activeTab s <> EDITOR);
                        nav := nav_items (activeTab s);
                        add_form := if showAddForm s then Some (form_view (newExpense s)) else None |})
  end.

(** ** The controls of a rendered page *)

Inductive Control :=
  | CRegister                          (** the registration form's submit *)
  | CNav (t : AppTab)                  (** a [NavButton] *)
  | CDismiss                           (** the banner's Dismiss *)
  | CScanner                           (** the mounted [BillScanner]'s callback *)
  | CLimit | CReset                    (** the settings panel *)
  | CAdd                               (** the floating add button *)
  | CCancel | CAmount | COption (c : string) | CDescription | CDate
  | CSubmit.                           (** the add form *)

#[export] Instance Control_eq_dec : EqDecision Control.
Proof. solve_decision. Defined.

Definition panel_controls (p : Panel) : list Control :=
  match p with
  | ScannerPanel => [CScanner]
  | SettingsPanel _ _ => [CLimit; CReset]
  | _ => []
  end.

Definition scanner_control (p : Panel) : list Control :=
  match p with ScannerPanel => [CScanner] | _ => [] end.

(** The modal form covers the page: only its own controls and a mounted
    scanner's callback remain.  Its submit passes the browser's check of
    the [required] amount input when the input is not empty. *)
Definition controls (v : View) : list Control :=
  match v with
  | RegistrationView => [CRegister]
  | PageView p =>
      match add_form p with
      | Some f =>
          [CCancel; CAmount] ++ (COption <$> form_options f) ++ [CDescription; CDate] ++
          (if bool_decide (form_amount f = "") then [] else [CSubmit]) ++
          scanner_control (panel p)
      | None =>
          ((fun n => CNav (nav_tab n)) <$> nav p) ++
          (if bool_decide (banner p = []) then [] else [CDismiss]) ++
          panel_controls (panel p) ++ (if add_button p then [CAdd] else [])
      end
  end.

(** The control an event comes from; a page load needs none. *)
Definition control_of (ev : Event) : option Control :=
  match ev with
  | Reload _ => None
  | Register _ => Some CRegister
  | ScannerExtract _ _ _ => Some CScanner
  | SubmitManual _ _ => Some CSubmit
  | OpenAddForm => Some CAdd
  | CancelAddForm => Some CCancel
  | EditAmount _ => Some CAmount
  | EditCategory c => Some (COption c)
  | EditDescription _ => Some CDescription
  | EditDate _ => Some CDate
  | SelectTab t => Some (CNav t)
  | EditWeeklyLimit _ => Some CLimit
  | Dismiss => Some CDismiss
  | ResetApp _ => Some CReset
  end.

(** The events a rendered page offers: a page load always, the
    registration form's submit only with a mobile number matching
    [INDIAN_MOBILE_REGEX], any other event when its control is there. *)
Definition offered (v : View) (ev : Event) : bool :=
  match control_of ev with
  | None => true
  | Some c =>
      bool_decide (c ∈ controls v) &&
      match ev with Register p => INDIAN_MOBILE_REGEX (mobile p) | _ => true end
  end.

(** ** The page with its render

    A render that throws unmounts the tree before the commit: the
    state update and the effects of that render are lost, the storage
    keeps what the last commit wrote, and the blank page can only be
    reloaded. *)

Section Screens.
Context {Store : Type} `{KVStoreLaws Store}.
Variable tzo : Z.

Inductive Screen :=
  | Shown (ph : Phase Store)
  | Blank (store : Store).

(** The outcome of a handler run on [store]: the page it renders, or a
    blank page when that render throws. *)
Definition settle (store : Store) (ph : Phase Store) : Screen :=
  match ph with
  | Running s _ => match render tzo s with Some _ => Shown ph | None => Blank store end
  | Crashed _ _ => Shown ph
  end.

Inductive screen_step : Screen -> Event -> Screen -> Prop :=
  | screen_running s store v ev :
      render tzo s = Some v -> enabled s ev = true ->
      screen_step (Shown (Running s store)) ev (settle store (handle tzo ev s store))
  | screen_crashed e store now :
      screen_step (Shown (Crashed e store)) (Reload now) (settle store (mount tzo now store))
  | screen_blank store now :
      screen_step (Blank store) (Reload now) (settle store (mount tzo now store)).

Fixpoint run_screen (sc : Screen) (evs : list Event) : option Screen :=
  match evs with
  | [] => Some sc
  | ev :: rest =>
      match sc with
      | Shown (Running s store) =>
          match render tzo s with
          | Some v => if offered v ev then run_screen (settle store (handle tzo ev s store)) rest
                      else None
          | None => None
          end
      | Shown (Crashed _ store) | Blank store =>
          match ev with Reload now => run_screen (settle store (mount tzo now store)) rest | _ => None end
      end
  end.

(** The pages reachable from a first visit. *)
Inductive screen_reachable : Screen -> Prop :=
  | screen_init now : screen_reachable (settle emptyStore (mount tzo now emptyStore))
  | screen_next sc ev sc' : screen_reachable sc -> screen_step sc ev sc' -> screen_reachable sc'.

(** A shown page satisfies the invariant of [App.v]; a blank page's
    storage mirrors a state that satisfies it. *)
Definition screen_inv (sc : Screen) : Prop :=
  match sc with
  | Shown ph => app_inv ph
  | Blank store => exists s, app_inv (Running s store)
  end.
End Screens.

Arguments Screen : clear implicits.

(** ** Concrete pages for the witnesses *)

Module Pages.
Import Scenarios.

(** A registered user on the bill scanner's tab. *)
Definition scannerRun : list Event := [Register asha; SelectTab SCANNER].
Definition scannerPage : AppState := state_of (run ist firstVisit scannerRun).
Definition scannerStore : LocalStore := store_of (run ist firstVisit scannerRun).

(** What a scanner may read off an Indian bill: a [DD/MM/YYYY] date. *)
Definition badScan : PartialExpense :=
  {| p_id := None; p_amount := Some 450%Q; p_category := Some "Food";
     p_date := Some "15/03/2024"; p_description := Some "Bill" |}.

(** 2026-11-08T20:00:00Z, 01:30 on November 9 in India. *)
Definition lateEvening : Z := 1794168000000.
Definition formExpense : Expense :=
  {| id := "e1"; amount := 120%Q; category := "Food";
     date := split_T_first (toISOString lateEvening); description := "" |}.
(** The page of a first visit. *)
Definition firstScreen : Screen LocalStore := settle ist emptyStore (mount ist now0 emptyStore).
End Pages.

(** ** The rendered controls are the enabled events *)

Lemma number_to_string_nonempty (q : Q) : number_to_string q <> "".
Proof. by destruct (number_to_string_head q) as (c & t & -> & _). Qed.

Lemma form_amount_empty (f : PartialExpense) :
  bool_decide (form_amount (form_view f) = "") = negb (truthy (p_amount f ||? 0%Q)).
Proof.
  cbn [form_view form_amount]. destruct (p_amount f) as [q|]; [|done].
  unfold js_or. destruct (truthy q) eqn:E; [|done].
  rewrite E. apply bool_decide_eq_false_2, number_to_string_nonempty.
Qed.

(** The panel's controls depend on the active tab only. *)
Lemma render_panel_controls (tzo : Z) (s : AppState) (p : Panel) :
  render_panel tzo s = Some p ->
  panel_controls p = match activeTab s with
                     | SCANNER => [CScanner] | SETTINGS => [CLimit; CReset] | _ => [] end /\
  scanner_control p = if bool_decide (activeTab s = SCANNER) then [CScanner] else [].
Proof.
  unfold render_panel. destruct (activeTab s); try by intros [= <-].
  destruct (expenses s); [by intros [= <-]|].
  destruct (mapM _ _); by intros [= <-].
Qed.

Lemma elem_of_COption (c : string) (l1 l2 : list Control) :
  (forall x, COption x ∉ l1) -> (forall x, COption x ∉ l2) ->
  COption c ∈ l1 ++ (COption <$> CATEGORIES) ++ l2 <-> c ∈ CATEGORIES.
Proof.
  intros H1 H2. rewrite !elem_of_app, list_elem_of_fmap.
  split; [intros [?|[(x & [= ->] & ?)|?]]; naive_solver | naive_solver].
Qed.

Lemma offered_enabled (tzo : Z) (s : AppState) (v : View) (ev : Event) :
  render tzo s = Some v -> offered v ev = enabled s ev.
Proof.
  intros Hr. symmetry. revert Hr.
  unfold render. destruct (user s) as [u|] eqn:Hu.
  2: { intros [= <-]. unfold enabled, offered. rewrite Hu. destruct ev; reflexivity. }
  destruct (render_panel tzo s) as [p|] eqn:Hp; [|done]. intros [= <-].
  destruct (render_panel_controls _ _ _ Hp) as [Hpc Hsc].
  unfold offered, enabled, controls. cbn [add_form panel nav banner add_button]. rewrite Hu.
  destruct (showAddForm s) eqn:Hf.
  - rewrite form_amount_empty, Hsc. cbn [form_options form_view].
    destruct ev; cbn [control_of];
      destruct (activeTab s), (truthy (p_amount (newExpense s) ||? 0%Q)); try reflexivity;
      (apply Bool.eq_iff_eq_true; rewrite !andb_true_iff, !bool_decide_eq_true,
        (elem_of_COption c [CCancel; CAmount]); [naive_solver | set_solver | cbn; set_solver]).
  - rewrite Hpc. destruct ev; cbn [control_of];
      destruct (activeTab s), (notifications s); try (destruct t); reflexivity.
Qed.

(** The guard [enabled] of the step relation is exactly what the
    rendered page offers: an event is enabled in a state whose render
    succeeds if and only if its control is on the page (a page load
    always is), the registration form's submit with a valid mobile
    number only. *)
Theorem enabled_offered (tzo : Z) (s : AppState) (v : View) (ev : Event) :
  render tzo s = Some v -> enabled s ev = offered v ev.
Proof. intros Hr. symmetry. exact (offered_enabled tzo s v ev Hr). Qed.

(** ** When rendering throws *)

Lemma mapM_None {A B} (f : A -> option B) (l : list A) :
  mapM f l = None <-> Exists (fun x => f x = None) l.
Proof.
  induction l as [|x l IH]; cbn; [split; [done|inversion 1]|].
  rewrite Exists_cons, <- IH. destruct (f x); cbn; [|naive_solver].
  destruct (mapM f l); cbn; naive_solver.
Qed.

Lemma history_row_None (tzo : Z) (e : Expense) :
  history_row tzo e = None <-> parseISO tzo (date e) = None.
Proof. unfold history_row. by destruct (parseISO tzo (date e)). Qed.

(** C22: rendering throws exactly on the History tab of a registered
    user whose ledger holds an expense whose date [parseISO] cannot
    read: date-fns's [format] throws [RangeError] on the Invalid Date,
    and with no error boundary the whole page unmounts. *)
Theorem render_fails (tzo : Z) (s : AppState) :
  render tzo s = None <->
  user s <> None /\ activeTab s = HISTORY /\ Exists (fun e => parseISO tzo (date e) = None) (expenses s).
Proof.
  unfold render, render_panel. destruct (user s); [|naive_solver].
  destruct (activeTab s); try naive_solver. destruct (expenses s) as [|e l].
  - split; [done|]. intros (_ & _ & H). inversion H.
  - assert (Hx : Exists (fun e => history_row tzo e = None) (e :: l) <->
                 Exists (fun e => parseISO tzo (date e) = None) (e :: l))
      by (split; intros H; (eapply Exists_impl; [exact H | intros x; apply history_row_None])).
    rewrite <- Hx, <- mapM_None. destruct (mapM _ _); naive_solver.
Qed.

(** ** The History rows *)

(** C23: an expense dated by the add form's default date (the [YYYY-MM-DD]
    prefix of [toISOString] at the instant [t] the form was reset) is
    listed under the UTC day of [t], in every time zone (an offset of
    less than a day, as every real one is): [parseISO]
    reads the date as local midnight and [format] prints that local day
    back, so east of UTC an expense added after local midnight but
    before the offset shows the previous day. *)
Theorem history_date_utc (tzo t : Z) (e : Expense) :
  -1440 < tzo < 1440 -> 0 <= c_year (civil_of_ms t) <= 9999 ->
  date e = split_T_first (toISOString t) ->
  exists r, history_row tzo e = Some r /\
    row_date r = format_ymd (c_year (civil_of_ms t)) (c_month (civil_of_ms t)) (c_day (civil_of_ms t)).
Proof.
  intros Htz Hy He. unfold history_row. rewrite He, parseISO_date_of_toISOString by done.
  eexists; split; [reflexivity|]. cbn [row_date].
  unfold format_MMM_d_yyyy, local_civil, civil_of_ms.
  replace ((t / ms_per_day * ms_per_day - tzo * ms_per_minute + tzo * ms_per_minute) / ms_per_day)
    with (t / ms_per_day) by (unfold ms_per_day; zlia).
  by destruct (civil_from_days (t / ms_per_day)) as [[y m] d].
Qed.

(** C30: a date picked in the add form's date input (its value is
    [YYYY-MM-DD]) is kept as typed by [handleManualAdd], and the History
    row of the new expense shows exactly that date, in every time zone
    of an offset less than a day: unlike the form's default date (C23),
    a date the user chooses is never shifted by a day. *)
Theorem history_date_input (tzo y m d now : Z) (newId : string) (s : AppState) :
  -1440 < tzo < 1440 -> 0 <= y <= 9999 -> valid_date y m d = true ->
  let ds := pad_digits 4 y +:+ "-" +:+ pad_digits 2 m +:+ "-" +:+ pad_digits 2 d in
  exists e r, expenses (handleManualAdd newId now (editDate ds s)) = e :: expenses s /\
    date e = ds /\ history_row tzo e = Some r /\ row_date r = format_ymd y m d.
Proof.
  intros Htz Hy Hv ds. eexists _, _. split; [reflexivity|].
  assert (Hds : date (fullExpense newId (toISOString now) (newExpense (editDate ds s))) = ds).
  { cbn. apply js_or_some, truthy_length. unfold ds. rewrite string_length_app, pad_digits_length. lia. }
  split; [exact Hds|]. unfold history_row. rewrite Hds. unfold ds.
  rewrite parseISO_local_date by done. split; [reflexivity|]. cbn [row_date].
  unfold format_MMM_d_yyyy. rewrite local_civil_instant_of_local by (done || (cbn; unfold ms_per_day; lia)).
  reflexivity.
Qed.

Lemma round_thousandths_div (q : Q) :
  let r := Qred (Qabs q * 1000) in
  2 * Zpos (Qden r) * round_thousandths q <= 2 * Qnum r + Zpos (Qden r) <
  2 * Zpos (Qden r) * round_thousandths q + 2 * Zpos (Qden r).
Proof.
  cbn zeta. unfold round_thousandths. set (r := Qred _).
  pose proof (Z.mul_div_le (2 * Qnum r + Zpos (Qden r)) (2 * Zpos (Qden r)) ltac:(lia)).
  pose proof (Z.mod_pos_bound (2 * Qnum r + Zpos (Qden r)) (2 * Zpos (Qden r)) ltac:(lia)).
  pose proof (Z.div_mod (2 * Qnum r + Zpos (Qden r)) (2 * Zpos (Qden r)) ltac:(lia)). lia.
Qed.

(** The amount a History row shows is [|amount|] rounded to the
    nearest thousandth: the thousandths [toLocaleString('en-IN')]
    prints differ from [1000 * |amount|] by at most one half. *)
Theorem round_thousandths_bound (q : Q) :
  (Qabs (Qabs q * 1000 - inject_Z (round_thousandths q)) <= 1 # 2)%Q.
Proof.
  pose proof (round_thousandths_div q) as Hd. cbn zeta in Hd.
  rewrite <- (Qred_correct (Qabs q * 1000)).
  destruct (Qred (Qabs q * 1000)) as [a b]. cbn [Qnum Qden] in Hd.
  apply Qabs_Qle_condition. unfold Qle, Qminus, Qplus, Qopp, inject_Z. cbn. split; nia.
Qed.

(** C25: a negative amount, which the add form accepts, is listed with
    two minus signs: the row prints [-₹] before the localized number,
    which carries its own sign ([-₹-5] for an expense of [-5]). *)
Theorem history_row_negative (tzo : Z) (e : Expense) (r : Row) :
  history_row tzo e = Some r -> (amount e < 0)%Q ->
  exists rest, row_amount r = "-₹-" +:+ rest.
Proof.
  unfold history_row. destruct (format_date tzo (parseISO tzo (date e))); [|done].
  intros [= <-] Hneg. cbn [row_amount]. unfold toLocaleString_en_IN.
  assert (Hb : Qle_bool 0 (amount e) = false).
  { apply not_true_iff_false. rewrite Qle_bool_iff. intros Hle. exact (Qlt_not_le _ _ Hneg Hle). }
  rewrite Hb. cbn [negb]. eexists. rewrite <- string_app_assoc. reflexivity.
Qed.

(** *** The Indian grouping of the integer part *)

Lemma pretty_N_char_digit (d : Z) : 0 <= d < 10 -> pretty_N_char (Z.to_N d) = digit_char d.
Proof.
  intros Hd. assert (d = 0 \/ d = 1 \/ d = 2 \/ d = 3 \/ d = 4 \/ d = 5 \/ d = 6 \/ d = 7 \/
                     d = 8 \/ d = 9) as Hc by lia.
  by destruct Hc as [->|[->|[->|[->|[->|[->|[->|[->|[->| ->]]]]]]]]].
Qed.

Lemma pretty_Z_pos (z : Z) : 0 < z -> pretty z = pretty_N_go (Z.to_N z) "".
Proof. intros Hz. destruct z as [|p|p]; try lia. reflexivity. Qed.

(** Appending a digit to a positive number appends its character. *)
Lemma pretty_step (m d : Z) : 0 < m -> 0 <= d < 10 ->
  pretty (m * 10 + d) = pretty m +:+ String (digit_char d) "".
Proof.
  intros Hm Hd. rewrite !pretty_Z_pos by lia.
  rewrite (pretty_N_go_step (Z.to_N (m * 10 + d))) by lia.
  replace (Z.to_N (m * 10 + d) `div` 10)%N with (Z.to_N m) by (apply N2Z.inj; rewrite N2Z.inj_div; zlia).
  replace (Z.to_N (m * 10 + d) `mod` 10)%N with (Z.to_N d) by (apply N2Z.inj; rewrite N2Z.inj_mod; zlia).
  by rewrite pretty_N_go_app, pretty_N_char_digit.
Qed.

Lemma pretty_split (k : nat) (a b : Z) : 0 < a -> 0 <= b < 10 ^ Z.of_nat k ->
  pretty (a * 10 ^ Z.of_nat k + b) = pretty a +:+ pad_digits k b.
Proof.
  revert b. induction k as [|k IH]; intros b Ha Hb.
  - cbn in *. replace b with 0 by lia. rewrite string_app_nil_r. f_equal. lia.
  - rewrite Nat2Z.inj_succ, Z.pow_succ_r in * by lia.
    replace (a * (10 * 10 ^ Z.of_nat k) + b) with ((a * 10 ^ Z.of_nat k + b / 10) * 10 + b mod 10)
      by zlia.
    pose proof (Z.pow_pos_nonneg 10 (Z.of_nat k) ltac:(lia) ltac:(lia)).
    rewrite pretty_step, IH by (try split; zlia || nia).
    cbn [pad_digits]. by rewrite string_app_assoc.
Qed.

Lemma pretty_digit (d : Z) : 0 < d < 10 -> pretty d = String (digit_char d) "".
Proof.
  intros Hd. rewrite pretty_Z_pos by lia. rewrite pretty_N_go_step by lia.
  replace (Z.to_N d `div` 10)%N with 0%N by (apply N2Z.inj; rewrite N2Z.inj_div; zlia).
  replace (Z.to_N d `mod` 10)%N with (Z.to_N d) by (apply N2Z.inj; rewrite N2Z.inj_mod; zlia).
  by rewrite pretty_N_go_0, pretty_N_char_digit by lia.
Qed.

(** A number below 100 prints one or two digits. *)
Lemma pretty_length_small (m : Z) : 0 < m < 100 -> (1 <= String.length (pretty m) <= 2)%nat.
Proof.
  intros Hm. destruct (Z.lt_ge_cases m 10).
  - rewrite pretty_digit by lia. cbn. lia.
  - replace m with ((m / 10) * 10 ^ Z.of_nat 1 + m mod 10) by (cbn; zlia).
    rewrite pretty_split by (cbn; zlia). rewrite pretty_digit by zlia.
    rewrite string_length_app, pad_digits_length. cbn. lia.
Qed.

Lemma foldr_app_tail (f : string -> string -> string)
    (Hf : forall g a t, f g a +:+ t = f g (a +:+ t)) (l : list string) (t : string) :
  foldr f "" l +:+ t = foldr f t l.
Proof. induction l as [|g l IH]; cbn; [done|]. by rewrite Hf, IH. Qed.

(** Appending one more group to a joined and to a concatenated layout. *)
Lemma join_groups_snoc (first x : string) (l : list string) :
  (first +:+ foldr (fun g acc => "," +:+ g +:+ acc) "" l) +:+ "," +:+ x =
  first +:+ foldr (fun g acc => "," +:+ g +:+ acc) "" (l ++ [x]).
Proof.
  rewrite foldr_app. cbn [foldr]. rewrite string_app_nil_r, !string_app_assoc, foldr_app_tail; [done|].
  intros. by rewrite !string_app_assoc.
Qed.

Lemma concat_groups_snoc (first x : string) (l : list string) :
  (first +:+ foldr String.append "" l) +:+ x = first +:+ foldr String.append "" (l ++ [x]).
Proof.
  rewrite foldr_app. cbn [foldr]. rewrite string_app_nil_r, string_app_assoc, foldr_app_tail; [done|].
  intros. apply string_app_assoc.
Qed.

(** The group of two digits above the thousands, on fuel enough for the
    digits: the first group has one or two digits, every other group
    two, and the digits are those of the number. *)
Lemma group2_layout (F : nat) (m : Z) :
  0 < m -> (String.length (pretty m) <= F)%nat ->
  exists first mids,
    group2 F m = first +:+ foldr (fun g acc => "," +:+ g +:+ acc) "" mids /\
    pretty m = first +:+ foldr String.append "" mids /\
    (1 <= String.length first <= 2)%nat /\ Forall (fun g => String.length g = 2%nat) mids.
Proof.
  revert m. induction F as [|F IH]; intros m Hm HF.
  { destruct (pretty_Z_head m ltac:(lia)) as (c & t & Ht & _). rewrite Ht in HF. cbn in HF. lia. }
  cbn [group2]. destruct (Z.ltb_spec m 100) as [Hlt|Hge].
  - exists (pretty m), []. cbn. rewrite !string_app_nil_r. split; [done|split; [done|]].
    split; [by apply pretty_length_small|constructor].
  - assert (Hsplit : pretty m = pretty (m / 100) +:+ pad_digits 2 (m mod 100)).
    { rewrite <- pretty_split by (cbn; zlia). f_equal. cbn. zlia. }
    assert (Hlen : (String.length (pretty (m / 100)%Z) <= F)%nat).
    { rewrite Hsplit, string_length_app, pad_digits_length in HF. lia. }
    destruct (IH (m / 100) ltac:(zlia) Hlen) as (first & mids & Hg & Hp & Hf & Hmids).
    exists first, (mids ++ [pad_digits 2 (m mod 100)]).
    rewrite Hsplit, Hg, Hp, join_groups_snoc, concat_groups_snoc.
    repeat split; [lia|lia|]. apply Forall_app; split; [done|].
    constructor; [apply pad_digits_length|constructor].
Qed.

(** C29: the integer part of an amount of at least a thousand is printed
    in the Indian grouping [#,##,##0]: a first group of one or two
    digits, groups of two digits, and a last group of three digits,
    separated by commas, and the digits read without the commas are
    exactly the decimal digits of the number. *)
Theorem indian_group_layout (n : Z) : 1000 <= n ->
  exists first mids last,
    indian_group n = first +:+ foldr (fun g acc => "," +:+ g +:+ acc) "" (mids ++ [last]) /\
    pretty n = first +:+ foldr String.append "" (mids ++ [last]) /\
    (1 <= String.length first <= 2)%nat /\
    Forall (fun g => String.length g = 2%nat) mids /\ String.length last = 3%nat.
Proof.
  intros Hn. unfold indian_group. destruct (Z.ltb_spec n 1000) as [|_]; [lia|].
  assert (Hsplit : pretty n = pretty (n / 1000) +:+ pad_digits 3 (n mod 1000)).
  { rewrite <- pretty_split by (cbn; zlia). f_equal. cbn. zlia. }
  destruct (group2_layout (String.length (pretty n)) (n / 1000)) as (first & mids & Hg & Hp & Hf & Hm).
  { zlia. }
  { rewrite Hsplit, string_length_app. lia. }
  exists first, mids, (pad_digits 3 (n mod 1000)).
  rewrite Hg, Hsplit, Hp, join_groups_snoc, concat_groups_snoc.
  repeat split; try lia. done.
Qed.

Lemma indian_group_layout_witness :
  indian_group 1234567 = "12,34,567" /\
  exists first mids last,
    indian_group 1234567 = first +:+ foldr (fun g acc => "," +:+ g +:+ acc) "" (mids ++ [last]) /\
    pretty 1234567 = first +:+ foldr String.append "" (mids ++ [last]) /\
    (1 <= String.length first <= 2)%nat /\
    Forall (fun g => String.length g = 2%nat) mids /\ String.length last = 3%nat.
Proof. split; [vm_compute; reflexivity|]. apply (indian_group_layout 1234567). lia. Defined.

(** ** A scanned date [parseISO] cannot read *)

Lemma render_not_history (tzo : Z) (s : AppState) :
  activeTab s <> HISTORY -> exists v, render tzo s = Some v.
Proof.
  intros Ht. unfold render, render_panel. destruct (user s); [|by eexists].
  destruct (activeTab s); try done; by eexists.
Qed.

Lemma render_history_invalid (tzo : Z) (s : AppState) (e : Expense) :
  user s <> None -> activeTab s = HISTORY -> e ∈ expenses s -> parseISO tzo (date e) = None ->
  render tzo s = None.
Proof.
  intros Hu Ht He Hd. unfold render, render_panel. destruct (user s); [|done]. rewrite Ht.
  destruct (expenses s) as [|x l]; [by apply elem_of_nil in He|].
  assert (Hm : mapM (history_row tzo) (x :: l) = None).
  { apply mapM_None, Exists_exists. exists e. split; [exact He|].
    by apply history_row_None. }
  by rewrite Hm.
Qed.

Section Scanner.
Context {Store : Type} `{KVStoreLaws Store}.
Variable tzo : Z.

(** C24: when the bill scanner delivers a date [parseISO] cannot read
    (say [15/03/2024]), [addExpense] puts the record in the ledger and
    saves it; opening the History tab then throws in [format] and
    blanks the page, and the reload that follows drops the record at
    the retention filter: the scanned expense is lost. *)
Theorem scanner_invalid_date_lost (s : AppState) (store : Store) (exp : PartialExpense)
    (newId d : string) (now now' : Z) :
  enabled s (ScannerExtract exp newId now) = true -> p_date exp = Some d -> d <> "" ->
  parseISO tzo d = None ->
  let s1 := addExpense newId now exp s in
  run_screen tzo (Shown (Running s store)) [ScannerExtract exp newId now; SelectTab HISTORY]
    = Some (Blank (saveEffect s1 store)) /\
  fullExpense newId (toISOString now) exp ∈ expenses s1 /\
  exists s2 store2,
    run_screen tzo (Blank (saveEffect s1 store)) [Reload now'] = Some (Shown (Running s2 store2)) /\
    fullExpense newId (toISOString now) exp ∉ expenses s2.
Proof.
  intros Hen Hd Hne Hp s1.
  pose proof Hen as Hen'. cbn in Hen'. apply andb_true_iff in Hen' as [Hu Ht].
  apply bool_decide_eq_true in Hu, Ht.
  assert (Hfe : date (fullExpense newId (toISOString now) exp) = d).
  { cbn. rewrite Hd. apply js_or_some. unfold truthy, string_truthy.
    destruct (String.eqb_spec d ""); done. }
  assert (Hs1 : user s1 = user s /\ showAddForm s1 = false /\ activeTab s1 = DASHBOARD /\
                expenses s1 = fullExpense newId (toISOString now) exp :: expenses s) by done.
  destruct Hs1 as (Hu1 & Hf1 & Ht1 & Hl1).
  assert (Hin : fullExpense newId (toISOString now) exp ∈ expenses s1) by (rewrite Hl1; left).
  split; [|split; [done|]].
  - destruct (render_not_history tzo s) as [v Hv]; [by rewrite Ht|].
    destruct (render_not_history tzo s1) as [v1 Hv1]; [by rewrite Ht1|].
    cbn [run_screen]. rewrite Hv, (offered_enabled _ _ _ _ Hv), Hen.
    cbn [handle]. unfold commit. cbn [settle run_screen]. fold s1.
    rewrite Hv1. cbn beta match. rewrite Hv1, (offered_enabled _ _ _ _ Hv1).
    cbn [enabled]. rewrite Hu1, Hf1, bool_decide_eq_true_2 by done. cbn [andb negb].
    rewrite (render_history_invalid tzo _ (fullExpense newId (toISOString now) exp));
      [reflexivity | cbn; congruence | reflexivity | exact Hin | congruence].
  - assert (Hm : store_mirror (saveEffect s1 store) s1)
      by (apply saveEffect_mirror; rewrite Hu1; done).
    destruct (mount_mirror tzo now' _ _ Hm) as (store2 & Hmount & _).
    exists (reloadState tzo now' s1), store2. split.
    + cbn [run_screen]. rewrite Hmount. cbn [settle].
      by destruct (render_not_history tzo (reloadState tzo now' s1)) as [v2 ->].
    + cbn [reloadState expenses set_settings set_expenses]. rewrite list_elem_of_In, retainRecent_In.
      intros [_ (t & Ht' & _)]. congruence.
Qed.
End Scanner.

(** ** Witnesses *)

Lemma history_date_utc_witness :
  exists r, history_row Scenarios.ist Pages.formExpense = Some r /\ row_date r = "Nov 8, 2026".
Proof.
  destruct (history_date_utc Scenarios.ist Pages.lateEvening Pages.formExpense) as (r & Hr & Hd);
    [unfold Scenarios.ist; lia | vm_compute; split; discriminate | reflexivity |].
  exists r. split; [exact Hr|]. rewrite Hd. vm_compute. reflexivity.
Defined.

Lemma history_date_input_witness :
  exists e r, expenses (handleManualAdd "id-2" 1718000000000 (editDate "2024-03-01" Scenarios.overLimit)) =
    e :: expenses Scenarios.overLimit /\ date e = "2024-03-01" /\
    history_row Scenarios.ist e = Some r /\ row_date r = "Mar 1, 2024".
Proof.
  destruct (history_date_input Scenarios.ist 2024 3 1 1718000000000 "id-2" Scenarios.overLimit)
    as (e & r & He & Hd & Hr & Hrd); [unfold Scenarios.ist; lia | lia | reflexivity |].
  exists e, r. split; [exact He|]. split; [exact Hd|]. split; [exact Hr|]. rewrite Hrd. vm_compute. reflexivity.
Defined.

Lemma history_row_negative_witness :
  exists r, history_row Scenarios.ist (hd Pages.formExpense (expenses Scenarios.negative)) = Some r /\
    (amount (hd Pages.formExpense (expenses Scenarios.negative)) < 0)%Q /\
    row_amount r = "-₹-5".
Proof.
  eexists. split; [vm_compute; reflexivity|]. split; [vm_compute; reflexivity|].
  destruct (history_row_negative Scenarios.ist (hd Pages.formExpense (expenses Scenarios.negative))
              _ ltac:(vm_compute; reflexivity) ltac:(vm_compute; reflexivity)) as [rest Hr].
  vm_compute. reflexivity.
Defined.

Lemma scanner_invalid_date_lost_witness :
  let s1 := addExpense "scan-1" 1718000100000 Pages.badScan Pages.scannerPage in
  run_screen Scenarios.ist (Shown (Running Pages.scannerPage Pages.scannerStore))
    [ScannerExtract Pages.badScan "scan-1" 1718000100000; SelectTab HISTORY]
    = Some (Blank (saveEffect s1 Pages.scannerStore)) /\
  fullExpense "scan-1" (toISOString 1718000100000) Pages.badScan ∈ expenses s1 /\
  exists s2 store2,
    run_screen Scenarios.ist (Blank (saveEffect s1 Pages.scannerStore)) [Reload 1718000200000]
      = Some (Shown (Running s2 store2)) /\
    fullExpense "scan-1" (toISOString 1718000100000) Pages.badScan ∉ expenses s2.
Proof.
  apply (scanner_invalid_date_lost Scenarios.ist Pages.scannerPage Pages.scannerStore Pages.badScan
           "scan-1" "15/03/2024" 1718000100000 1718000200000);
    [vm_compute; reflexivity | reflexivity | discriminate | vm_compute; reflexivity].
Defined.

(** ** Every reachable page recovers by a reload *)

Section Recovery.
Context {Store : Type} `{KVStoreLaws Store}.
Variable tzo : Z.

Lemma settle_inv (s0 : AppState) (store : Store) (ph : Phase Store) :
  app_inv (Running s0 store) -> app_inv ph -> screen_inv (settle tzo store ph).
Proof.
  intros Hs0 Hph. destruct ph as [s st|]; [|done]. cbn [settle].
  destruct (render tzo s); [done|]. by exists s0.
Qed.

Lemma screen_reachable_inv (sc : Screen Store) : screen_reachable tzo sc -> screen_inv sc.
Proof.
  induction 1 as [now|sc ev sc' _ IH Hstep].
  - pose proof (mount_empty_inv tzo now) as Hi.
    rewrite mount_fresh in * by apply getItem_empty. done.
  - destruct Hstep as [s store v ev' _ _|e store now|store now]; cbn [screen_inv] in IH.
    + apply (settle_inv s); [done|]. by apply handle_inv.
    + done.
    + destruct IH as [s Hs]. apply (settle_inv s); [done|].
      exact (handle_inv tzo (Reload now) s store Hs).
Qed.

(** C27: every page reachable from a first visit is either a running
    page whose storage holds exactly its user, ledger and settings, or a
    blank page (a render threw) whose storage holds those of the last
    page shown; from a blank page a reload shows a running page again,
    with its storage mirroring it. *)
Theorem reachable_page_recovers (sc : Screen Store) :
  screen_reachable tzo sc ->
  match sc with
  | Shown ph => exists s st, ph = Running s st /\ store_mirror st s
  | Blank st =>
      exists s, store_mirror st s /\
      forall now, exists s' st', screen_step tzo sc (Reload now) (Shown (Running s' st')) /\
        store_mirror st' s'
  end.
Proof.
  intros Hr. pose proof (screen_reachable_inv sc Hr) as Hi.
  destruct sc as [[s st|]|st]; cbn [screen_inv app_inv] in Hi; [|done|].
  - destruct Hi as [Hm _]. eauto.
  - destruct Hi as (s & Hm & _). exists s. split; [done|]. intros now.
    destruct (mount_mirror tzo now st s Hm) as (st' & Hmount & Hm').
    exists (reloadState tzo now s), st'. split; [|done].
    replace (Shown (Running (reloadState tzo now s) st')) with (settle tzo st (mount tzo now st));
      [constructor|].
    rewrite Hmount. cbn [settle].
    by destruct (render_not_history tzo (reloadState tzo now s)) as [v ->].
Qed.
End Recovery.

Lemma reachable_page_recovers_witness :
  screen_reachable Scenarios.ist Pages.firstScreen /\
  match Pages.firstScreen with
  | Shown ph => exists s st, ph = Running s st /\ store_mirror st s
  | Blank st =>
      exists s, store_mirror st s /\
      forall now, exists s' st', screen_step Scenarios.ist Pages.firstScreen (Reload now)
        (Shown (Running s' st')) /\ store_mirror st' s'
  end.
Proof.
  split; [constructor|].
  exact (reachable_page_recovers Scenarios.ist _ (screen_init Scenarios.ist Scenarios.now0)).
Defined.
