(* ===== verification/Liveness.v ===== *)
(** * Liveness: the limit alert is eventually raised

    The specification's threshold property (section 4.2) is a safety
    statement about one [addExpense]; this file states its progress
    side on the whole page: a user who keeps adding expenses of a
    positive amount through the add form (open the form, type the
    amount, save) gets the alert once the amounts added push the
    ledger's total past the weekly limit, within the number of rounds
    the arithmetic gives.  [add_rounds] is the run of events of those
    rounds, executed by [App.run]; [alert_after_rounds] bounds the
    rounds needed. *)

From S2P Require Import Prelude Types Calendar Ledger Storage App.
From Stdlib Require Import ZArith.

Local Open Scope Q_scope.

(** One round through the add form: the floating button, the amount
    input, the submit button. *)
Definition add_round (newId : string) (now : Z) (a : Q) : list Event :=
  [OpenAddForm; EditAmount (Some a); SubmitManual newId now].

Definition add_rounds (ids : list string) (now : Z) (a : Q) : list Event :=
  ids ≫= fun newId => add_round newId now a.

(** The page the rounds start from: a registered user, the add form
    closed, a tab showing the add button. *)
Definition round_ready (s : AppState) : Prop :=
  user s <> None /\ showAddForm s = false /\ activeTab s <> EDITOR.

(** The state after one round. *)
Definition after_round (newId : string) (now : Z) (a : Q) (s : AppState) : AppState :=
  handleManualAdd newId now (editAmount (Some a) (set_showAddForm true s)).

(** A registered user on the dashboard, with the default limit 5000. *)
Definition registered : AppState :=
  Scenarios.state_of (run Scenarios.ist Scenarios.firstVisit [Register Scenarios.asha]).
Definition registeredStore : Scenarios.LocalStore :=
  Scenarios.store_of (run Scenarios.ist Scenarios.firstVisit [Register Scenarios.asha]).

(** ** One round *)

Section Rounds.
Context {Store : Type} `{KVStoreLaws Store}.
Variable tzo : Z.

Lemma run_add_round (newId : string) (now : Z) (a : Q) (s : AppState) (store : Store)
    (rest : list Event) :
  round_ready s -> ~ a == 0 ->
  run tzo (Running s store) (add_round newId now a ++ rest) =
  run tzo (Running (after_round newId now a s) (saveEffect (after_round newId now a s) store)) rest.
Proof.
  intros (Hu & Hf & Ht) Ha. cbn [add_round app run].
  assert (Hen : enabled s OpenAddForm = true).
  { cbn. rewrite Hf. apply andb_true_iff; split; [by apply bool_decide_eq_true_2|].
    cbn. by apply bool_decide_eq_true_2. }
  rewrite Hen. cbn [handle]. cbn [enabled showAddForm set_showAddForm].
  rewrite bool_decide_eq_true_2 by done. cbn [andb handle].
  cbn [enabled showAddForm editAmount set_newExpense set_showAddForm user newExpense p_amount].
  rewrite bool_decide_eq_true_2 by done. cbn [andb].
  unfold js_or, truthy, number_truthy. cbn [jsNumber default].
  destruct (Qeq_bool a 0) eqn:E; [apply Qeq_bool_iff in E; contradiction|].
  cbn [Datatypes.id]. rewrite E. cbn [negb]. rewrite E. reflexivity.
Qed.

Lemma after_round_fields (newId : string) (now : Z) (a : Q) (s : AppState) :
  ~ a == 0 ->
  user (after_round newId now a s) = user s /\ showAddForm (after_round newId now a s) = false /\
  activeTab (after_round newId now a s) = DASHBOARD /\
  settings (after_round newId now a s) = settings s /\
  currentWeekTotal (expenses (after_round newId now a s)) == a + currentWeekTotal (expenses s) /\
  notifications (after_round newId now a s) =
    match checkLimit (expenses (after_round newId now a s)) (settings s) with
    | Some msg => msg :: notifications s | None => notifications s end.
Proof.
  intros Ha. unfold after_round, handleManualAdd, addExpense, addToLedger.
  destruct (checkLimit _ _); (repeat split; [done..|]); cbn [expenses set_newExpense set_activeTab
    set_showAddForm set_notifications set_expenses editAmount];
    unfold currentWeekTotal; rewrite reduce_sum_cons; cbn [amount fullExpense newExpense p_amount];
    unfold js_or, truthy, number_truthy, jsNumber;
    cbn [jsNumber default Datatypes.id newExpense p_amount editAmount set_newExpense set_showAddForm];
    (destruct (Qeq_bool a 0) eqn:E; [apply Qeq_bool_iff in E; contradiction|]); reflexivity.
Qed.

Lemma inject_length_cons {A} (x : A) (l : list A) :
  inject_Z (Z.of_nat (length (x :: l))) == 1 + inject_Z (Z.of_nat (length l)).
Proof. rewrite length_cons, Nat2Z.inj_succ, <- Z.add_1_l, inject_Z_plus. reflexivity. Qed.

Lemma rounds_alert (now : Z) (a : Q) (ids : list string) :
  forall (s : AppState) (store : Store), round_ready s -> 0 < a ->
  notifications s <> [] \/
    (ids <> [] /\ weeklyLimit (settings s) <
       currentWeekTotal (expenses s) + inject_Z (Z.of_nat (length ids)) * a) ->
  exists s' store', run tzo (Running s store) (add_rounds ids now a) = Some (Running s' store') /\
    notifications s' <> [].
Proof.
  induction ids as [|newId rest IH]; intros s store Hr Ha Hn.
  - exists s, store. split; [done|]. naive_solver.
  - assert (Ha0 : ~ a == 0) by (intros E; rewrite E in Ha; apply (Qlt_irrefl 0), Ha).
    change (add_rounds (newId :: rest) now a) with (add_round newId now a ++ add_rounds rest now a).
    rewrite run_add_round by done.
    destruct (after_round_fields newId now a s Ha0) as (Hu & Hf & Ht & Hs & Htot & Hno).
    destruct Hr as (Hu0 & _ & _).
    apply IH; [split; [congruence|split; [done|by rewrite Ht]]|done|].
    rewrite Hno, Hs.
    destruct Hn as [Hn|[_ Hlt]].
    + unfold checkLimit. destruct (js_gt _ _); [left; discriminate|by left].
    + rewrite inject_length_cons in Hlt. destruct rest as [|x rest'].
      * left. unfold checkLimit. rewrite (proj2 (js_gt_iff _ _)); [discriminate|].
        rewrite Htot. change (inject_Z (Z.of_nat (length []))) with 0 in Hlt. lra.
      * right. split; [discriminate|]. rewrite Htot. lra.
Qed.
End Rounds.

Section Alert.
Context {Store : Type} `{KVStoreLaws Store}.
Variable tzo : Z.

(** C26: from a registered page with the add form closed, adding
    expenses of a positive amount [a] through the form eventually
    raises the alert: any number of rounds [n] with
    [total + n * a > weeklyLimit] runs to a page with a notification. *)
Theorem alert_after_rounds (s : AppState) (store : Store) (a : Q) (ids : list string) (now : Z) :
  round_ready s -> 0 < a -> ids <> [] ->
  weeklyLimit (settings s) < currentWeekTotal (expenses s) + inject_Z (Z.of_nat (length ids)) * a ->
  exists s' store', run tzo (Running s store) (add_rounds ids now a) = Some (Running s' store') /\
    notifications s' <> [].
Proof. intros Hr Ha Hne Hlt. apply rounds_alert; auto. Qed.
End Alert.

Lemma alert_after_rounds_witness :
  exists s' store', run Scenarios.ist (Running registered registeredStore)
      (add_rounds ["a1"; "a2"; "a3"; "a4"; "a5"; "a6"] Scenarios.now0 1000) = Some (Running s' store') /\
    notifications s' <> [].
Proof.
  apply (alert_after_rounds Scenarios.ist registered registeredStore 1000
           ["a1"; "a2"; "a3"; "a4"; "a5"; "a6"] Scenarios.now0).
  - split; [discriminate|split; [reflexivity|discriminate]].
  - reflexivity.
  - discriminate.
  - vm_compute. reflexivity.
Defined.
