(* ===== verification/TextStore.v ===== *)
(** * TextStore: [localStorage] as a map from keys to strings

    The application model of [App.v] is proved against the [KVStore]
    interface of [Storage.v], whose values are the JSON values the texts
    denote.  Here [localStorage] holds what it really holds, strings: the
    instance [text_KVStore] writes [JSON.stringify] of a value
    ([stringify], [JsonText.v]) and reads a text back through
    [JSON.parse] ([JSON_parse_text]).  [abs_store] maps a string store to
    the store of [Storage.v].  The theorems show that this abstraction is
    sound: the load effect observes the same on both, the save effect
    commutes with the abstraction up to writing numbers in lowest terms,
    and a page load after a save restores the saved state with its
    numbers in lowest terms.  Numbers are assumed to print exactly
    ([js_exact]): every amount and limit typed as a decimal of at most 39
    fractional digits. *)

From S2P Require Import Prelude Types Calendar Ledger Storage JsonText App.
From Stdlib Require Import ZArith.

Local Open Scope Q_scope.

(** The value [localStorage.getItem] returns, seen by the load effect. *)
Definition stored_of_text (t : string) : StoredText :=
  match JSON_parse_text t with Some v => JsonText v | None => OtherText t end.

(** The text [localStorage.setItem] stores. *)
Definition text_of_stored (t : StoredText) : string :=
  match t with JsonText v => stringify v | OtherText s => s end.

#[export] Instance text_KVStore : KVStore (gmap string string) := {
  getItem k s := stored_of_text <$> s !! k;
  setItem k v s := <[k := text_of_stored v]> s;
  clear _ := ∅;
  emptyStore := ∅;
}.

Definition abs_store (s : gmap string string) : gmap string StoredText := stored_of_text <$> s.

(** Numbers in lowest terms, as [JSON.parse] returns them. *)
Definition norm_expense (e : Expense) : Expense :=
  {| id := id e; amount := Qred (amount e); category := category e; date := date e;
     description := description e |}.

Definition norm_settings (st : AppSettings) : AppSettings :=
  {| weeklyLimit := Qred (weeklyLimit st); phoneNumber := phoneNumber st |}.

Definition norm_state (s : AppState) : AppState :=
  set_settings (norm_settings (settings s)) (set_expenses (norm_expense <$> expenses s) s).

(** Every saved number prints exactly. *)
Definition state_exact (s : AppState) : bool :=
  forallb (fun e => js_exact (amount e)) (expenses s) && js_exact (weeklyLimit (settings s)).

(** A state with two numbers not in lowest terms, for the witnesses. *)
Definition demo_state : AppState :=
  set_settings {| weeklyLimit := Qmake 15 2; phoneNumber := "+91 9876543210" |}
    (set_expenses [{| id := "e1"; amount := Qmake 250 4; category := "Food";
                      date := "2026-11-01"; description := "lunch" |}]
       (set_user (Some {| name := "Asha"; mobile := "9876543210" |}) (initialState 0))).

(** ** The encoders print exactly *)

Lemma encode_user_exact (u : UserProfile) :
  json_exact (encode_user u) = true /\ json_norm (encode_user u) = encode_user u.
Proof. by destruct u. Qed.

Lemma encode_settings_exact (st : AppSettings) :
  json_exact (encode_settings st) = js_exact (weeklyLimit st) /\
  json_norm (encode_settings st) = encode_settings (norm_settings st).
Proof. destruct st. simpl. by rewrite andb_true_r. Qed.

Lemma encode_expenses_exact (l : list Expense) :
  json_exact (encode_expenses l) = forallb (fun e => js_exact (amount e)) l /\
  json_norm (encode_expenses l) = encode_expenses (norm_expense <$> l).
Proof.
  unfold encode_expenses. induction l as [|e l [IH1 IH2]]; [done|].
  cbn [json_exact json_norm fmap list_fmap forallb map] in *.
  destruct e; cbn. rewrite andb_true_r, IH1. split; [done|]. by injection IH2 as ->.
Qed.

Lemma stored_of_text_stringify (v : json) :
  json_exact v = true -> stored_of_text (stringify v) = JsonText (json_norm v).
Proof. intros Hv. unfold stored_of_text. by rewrite JSON_parse_text_stringify. Qed.

(** ** The abstraction of a string store *)

Lemma getItem_text (k : string) (s : gmap string string) :
  @getItem _ text_KVStore k s = @getItem _ gmap_KVStore k (abs_store s).
Proof. simpl. unfold abs_store. by rewrite lookup_fmap. Qed.

Lemma abs_store_setItem (k : string) (v : StoredText) (s : gmap string string) :
  abs_store (@setItem _ text_KVStore k v s) = <[k := stored_of_text (text_of_stored v)]> (abs_store s).
Proof. unfold abs_store. simpl. by rewrite fmap_insert. Qed.

Lemma text_saveEffect (st : AppState) (s : gmap string string) :
  state_exact st = true ->
  abs_store (saveEffect st s) = saveEffect (norm_state st) (abs_store s).
Proof.
  intros Hex. unfold state_exact in Hex. apply andb_true_iff in Hex as [Hl Hs].
  destruct (encode_expenses_exact (expenses st)) as [El Nl].
  destruct (encode_settings_exact (settings st)) as [Es Ns].
  unfold saveEffect. cbn [norm_state set_settings set_expenses user expenses settings].
  destruct (user st) as [u|]; [destruct (encode_user_exact u) as [Eu Nu]|];
    rewrite !abs_store_setItem; cbn [text_of_stored];
    rewrite !stored_of_text_stringify by congruence; rewrite ?Nu, Nl, Ns; reflexivity.
Qed.

Lemma text_loadEffect (tzo now : Z) (s : gmap string string) (s0 : AppState) :
  loadEffect tzo now s s0 = loadEffect tzo now (abs_store s) s0.
Proof. unfold loadEffect. by rewrite !getItem_text. Qed.

(** ** Normal forms *)

Lemma Qred_idem (q : Q) : Qred (Qred q) = Qred q.
Proof. apply Qred_complete, Qred_correct. Qed.

Lemma js_exact_Qred (q : Q) : js_exact (Qred q) = js_exact q.
Proof. unfold js_exact. by rewrite Qred_idem. Qed.

Lemma norm_expense_idem (e : Expense) : norm_expense (norm_expense e) = norm_expense e.
Proof. unfold norm_expense; cbn. by rewrite Qred_idem. Qed.

Lemma norm_expenses_idem (l : list Expense) :
  norm_expense <$> (norm_expense <$> l) = norm_expense <$> l.
Proof.
  rewrite <- list_fmap_compose.
  apply (list_fmap_ext _ norm_expense _ (fun _ e _ => norm_expense_idem e)).
Qed.

Lemma retainRecent_norm (tzo now : Z) (l : list Expense) :
  retainRecent tzo now (norm_expense <$> l) = norm_expense <$> retainRecent tzo now l.
Proof.
  unfold retainRecent. induction l as [|e l IH]; [done|]. cbn in *.
  destruct (isAfter _ _); cbn; by rewrite IH.
Qed.

Lemma retainRecent_forallb (P : Expense -> bool) (tzo now : Z) (l : list Expense) :
  forallb P l = true -> forallb P (retainRecent tzo now l) = true.
Proof.
  unfold retainRecent. rewrite !forallb_forall. intros H x Hx.
  apply filter_In in Hx as [Hx _]. auto.
Qed.

Lemma norm_state_idem (st : AppState) : norm_state (norm_state st) = norm_state st.
Proof.
  destruct st as [u l [w p] tab sf ne ns]. unfold norm_state, norm_settings; cbn.
  by rewrite Qred_idem, norm_expenses_idem.
Qed.

Lemma norm_state_exact (st : AppState) : state_exact (norm_state st) = state_exact st.
Proof.
  destruct st as [u l [w p] tab sf ne ns]. unfold state_exact; cbn.
  rewrite js_exact_Qred. f_equal. induction l as [|e l IH]; [done|]. cbn.
  by rewrite js_exact_Qred, IH.
Qed.

Lemma norm_reloadState (tzo now : Z) (st : AppState) :
  norm_state (reloadState tzo now (norm_state st)) = reloadState tzo now (norm_state st).
Proof.
  rewrite <- (norm_state_idem st) at 2. destruct st as [u l [w p] tab sf ne ns].
  unfold reloadState, norm_state, norm_settings.
  cbn [set_settings set_expenses set_user expenses settings user weeklyLimit phoneNumber].
  by rewrite !retainRecent_norm, Qred_idem, norm_expenses_idem.
Qed.

Lemma reloadState_exact (tzo now : Z) (st : AppState) :
  state_exact st = true -> state_exact (reloadState tzo now st) = true.
Proof.
  unfold state_exact. intros [Hl Hs]%andb_true_iff. cbn. by rewrite retainRecent_forallb.
Qed.

(** A page load on a text store whose abstraction mirrors a state in
    normal form shows that state reloaded, and leaves a store whose
    abstraction mirrors the shown state again. *)
Lemma text_mount (tzo now : Z) (ts : gmap string string) (st : AppState) :
  store_mirror (abs_store ts) st -> norm_state st = st -> state_exact st = true ->
  exists ts', mount tzo now ts = Running (reloadState tzo now st) ts' /\
    store_mirror (abs_store ts') (reloadState tzo now st).
Proof.
  intros Hm Hn Hx. unfold mount. rewrite text_loadEffect, (loadEffect_mirror _ _ _ st) by done.
  eexists; split; [reflexivity|].
  rewrite !text_saveEffect by (apply reloadState_exact || reflexivity; done).
  replace (norm_state (reloadState tzo now st)) with (reloadState tzo now st)
    by (rewrite <- Hn at 2; rewrite norm_reloadState; by rewrite Hn).
  apply saveEffect_mirror. intros Hu. rewrite getItem_saveEffect_user.
  destruct Hm as [Hmu _]. simpl user in Hu |- *. by rewrite Hmu, Hu.
Qed.

(** ** Saving and reloading through the text store *)

(** C20: a page load after the save effect on a [localStorage] of texts
    shows the saved user, the saved settings and the saved expenses that
    fall in the retention window, each number in lowest terms (the value
    [JSON.parse] gives back for the text [JSON.stringify] wrote); the
    storage the load leaves mirrors the page it shows.  The numbers are
    those a JavaScript number prints exactly, and without a user the user
    key holds nothing. *)
Theorem text_reload_restores (tzo now : Z) (st : AppState) (ts : gmap string string) :
  state_exact st = true -> (user st = None -> getItem USER_KEY ts = None) ->
  exists ts', mount tzo now (saveEffect st ts) = Running (reloadState tzo now (norm_state st)) ts' /\
    store_mirror (abs_store ts') (reloadState tzo now (norm_state st)).
Proof.
  intros Hx Hu. apply text_mount.
  - rewrite text_saveEffect by done. apply saveEffect_mirror. simpl user.
    intros Hn. rewrite <- getItem_text. auto.
  - apply norm_state_idem.
  - by rewrite norm_state_exact.
Qed.

Lemma text_reload_restores_witness :
  exists ts', mount 0 1793000000000 (saveEffect demo_state (∅ : gmap string string)) =
    Running (reloadState 0 1793000000000 (norm_state demo_state)) ts' /\
    store_mirror (abs_store ts') (reloadState 0 1793000000000 (norm_state demo_state)).
Proof. apply (text_reload_restores 0 1793000000000 demo_state ∅); [vm_compute; reflexivity | done]. Defined.
