(* ===== verification/Refinement.v ===== *)
(** * Refinement: the page over a store of texts refines the page over
    a store of JSON values

    [App.v] runs the page over any [KVStore]; its invariants are proved
    for the store of [StoredText] values of [Storage.v], where a saved
    value is read back unchanged.  The browser's [localStorage] holds
    texts ([TextStore.v]), and reading back what [JSON.stringify] wrote
    gives every number in lowest terms.  This file relates the two
    machines: [phase_rel] says that the page states agree up to numbers
    in lowest terms ([state_equiv], an equivalence respected by every
    handler and by [enabled]) and that the text store, read through
    [abs_store], is the abstract store with its numbers in lowest terms
    ([norm_store]).  Every event keeps the two runs related; the numbers
    involved are those a JavaScript number prints exactly ([event_exact],
    [state_exact], [store_exact]). *)

From S2P Require Import Prelude Types Calendar Ledger Storage JsonText App TextStore.
From Stdlib Require Import ZArith.

Local Open Scope Q_scope.

Definition norm_stored (t : StoredText) : StoredText :=
  match t with JsonText v => JsonText (json_norm v) | OtherText s => OtherText s end.

Definition norm_store (a : gmap string StoredText) : gmap string StoredText :=
  norm_stored <$> a.

Definition stored_exact (t : StoredText) : bool :=
  match t with JsonText v => json_exact v | OtherText _ => true end.

Definition store_exact (a : gmap string StoredText) : Prop :=
  map_Forall (fun _ t => stored_exact t = true) a.

Definition opt_exact (v : option Q) : bool :=
  match v with Some q => js_exact q | None => true end.

(** The amount the add form holds. *)
Definition form_exact (s : AppState) : bool := opt_exact (p_amount (newExpense s)).

(** The numbers an event carries: the scanner's amount and the values
    of the number inputs. *)
Definition event_exact (ev : Event) : bool :=
  match ev with
  | ScannerExtract exp _ _ => opt_exact (p_amount exp)
  | EditAmount v | EditWeeklyLimit v => opt_exact v
  | _ => true
  end.

Definition state_equiv (s1 s2 : AppState) : Prop := norm_state s1 = norm_state s2.

Definition phase_rel (pt : Phase (gmap string string)) (pa : Phase (gmap string StoredText))
    : Prop :=
  match pt, pa with
  | Running st t, Running sa a =>
      state_equiv st sa /\ abs_store t = norm_store a /\
      state_exact sa && form_exact sa = true /\ store_exact a
  | Crashed et t, Crashed ea a => et = ea /\ abs_store t = norm_store a /\ store_exact a
  | _, _ => False
  end.

(** A first session: register, set the limit to 12.5, add an expense of
    300/4 through the form, and reload the page. *)
Definition demoRun : list Event :=
  [Register {| name := "Asha"; mobile := "9876543210" |}; SelectTab SETTINGS;
   EditWeeklyLimit (Some (Qmake 25 2)); SelectTab DASHBOARD; OpenAddForm;
   EditAmount (Some (Qmake 300 4)); SubmitManual "e1" 1000; Reload 2000].

#[export] Instance state_equiv_equiv : Equivalence state_equiv.
Proof. unfold state_equiv. split; [done | by intros ?? -> | by intros ??? -> ->]. Qed.

(** ** The stores *)

Lemma norm_store_setItem (k : string) (v : StoredText) (a : gmap string StoredText) :
  norm_store (setItem k v a) = setItem k (norm_stored v) (norm_store a).
Proof. unfold norm_store. simpl. by rewrite fmap_insert. Qed.

Lemma norm_store_saveEffect (s : AppState) (a : gmap string StoredText) :
  norm_store (saveEffect s a) = saveEffect (norm_state s) (norm_store a).
Proof.
  destruct (encode_expenses_exact (expenses s)) as [_ Nl].
  destruct (encode_settings_exact (settings s)) as [_ Ns].
  unfold saveEffect. cbn [norm_state set_settings set_expenses user expenses settings].
  destruct (user s) as [u|]; [destruct (encode_user_exact u) as [_ Nu]|];
    rewrite !norm_store_setItem; cbn [norm_stored]; by rewrite ?Nu, Nl, Ns.
Qed.

Lemma store_exact_saveEffect (s : AppState) (a : gmap string StoredText) :
  state_exact s = true -> store_exact a -> store_exact (saveEffect s a).
Proof.
  unfold state_exact. intros [Hl Hs]%andb_true_iff Ha.
  destruct (encode_expenses_exact (expenses s)) as [El _].
  destruct (encode_settings_exact (settings s)) as [Es _].
  unfold saveEffect, store_exact. simpl setItem.
  repeat apply map_Forall_insert_2; cbn [stored_exact]; try congruence.
  destruct (user s) as [u|]; [|done]. apply map_Forall_insert_2; [|done].
  apply encode_user_exact.
Qed.

Lemma norm_store_clear (a : gmap string StoredText) : norm_store (clear a) = clear a.
Proof. apply fmap_empty. Qed.

Lemma abs_store_clear (t : gmap string string) : abs_store (clear t) = clear (abs_store t).
Proof. apply fmap_empty. Qed.

Lemma store_exact_clear (a : gmap string StoredText) : store_exact (clear a).
Proof. apply map_Forall_empty. Qed.

(** ** Reading numbers in lowest terms *)

Lemma obj_get_norm (k : string) (fs : list (string * json)) :
  obj_get k (map (fun kv => (kv.1, json_norm kv.2)) fs) = json_norm <$> obj_get k fs.
Proof.
  induction fs as [|[k' v] fs IH]; [done|]. cbn. rewrite IH.
  destruct (obj_get k fs); [done|]. by case_decide.
Qed.

Lemma str_field_norm (k : string) (fs : list (string * json)) :
  str_field k (map (fun kv => (kv.1, json_norm kv.2)) fs) = str_field k fs.
Proof. unfold str_field. rewrite obj_get_norm. by destruct (obj_get k fs) as [[]|]. Qed.

Lemma num_field_norm (k : string) (fs : list (string * json)) :
  num_field k (map (fun kv => (kv.1, json_norm kv.2)) fs) = Qred <$> num_field k fs.
Proof. unfold num_field. rewrite obj_get_norm. by destruct (obj_get k fs) as [[]|]. Qed.

Create Rewrite HintDb norm_rw.
#[local] Hint Rewrite str_field_norm num_field_norm : norm_rw.

Lemma decode_user_or_null_norm (v : json) :
  decode_user_or_null (json_norm v) = decode_user_or_null v.
Proof.
  destruct v as [| | | | |fs]; try done. cbn [json_norm decode_user_or_null].
  unfold decode_user; cbn [as_obj mbind option_bind]. by autorewrite with norm_rw.
Qed.

Lemma decode_expense_norm (v : json) :
  decode_expense (json_norm v) = norm_expense <$> decode_expense v.
Proof.
  destruct v as [| | | | |fs]; try done. unfold decode_expense; cbn [json_norm as_obj mbind option_bind].
  autorewrite with norm_rw.
  destruct (str_field "id" fs), (num_field "amount" fs), (str_field "category" fs),
    (str_field "date" fs), (str_field "description" fs); done.
Qed.

Lemma decode_expenses_norm (v : json) :
  decode_expenses (json_norm v) = (fun l : list Expense => norm_expense <$> l) <$> decode_expenses v.
Proof.
  destruct v as [| | | |xs|]; try done. cbn [json_norm decode_expenses].
  induction xs as [|x xs IH]; [done|]. cbn [map mapM]. rewrite decode_expense_norm, IH.
  destruct (decode_expense x); [|done]. cbn. by destruct (mapM decode_expense xs).
Qed.

Lemma decode_settings_norm (v : json) :
  decode_settings (json_norm v) = norm_settings <$> decode_settings v.
Proof.
  destruct v as [| | | | |fs]; try done. unfold decode_settings; cbn [json_norm as_obj mbind option_bind].
  autorewrite with norm_rw.
  by destruct (num_field "weeklyLimit" fs), (str_field "phoneNumber" fs).
Qed.

Lemma parseStored_norm {A} (key : string) (dec : json -> option A) (g : A -> A)
    (Hdec : forall v, dec (json_norm v) = g <$> dec v) (t : option StoredText) :
  parseStored key dec (norm_stored <$> t) =
  match parseStored key dec t with inl e => inl e | inr o => inr (g <$> o) end.
Proof.
  unfold parseStored. destruct t as [[v|s]|]; cbn; [|by destruct (truthy s)|done].
  rewrite Hdec. by destruct (dec v).
Qed.

Lemma getItem_norm_store (k : string) (a : gmap string StoredText) :
  getItem k (norm_store a) = norm_stored <$> getItem k a.
Proof. apply lookup_fmap. Qed.

Lemma loadEffect_norm_store (tzo now : Z) (a : gmap string StoredText) :
  loadEffect tzo now (norm_store a) (initialState now) =
  match loadEffect tzo now a (initialState now) with
  | inl e => inl e
  | inr (s, c) => inr (norm_state s, c)
  end.
Proof.
  unfold loadEffect. rewrite !getItem_norm_store.
  rewrite (parseStored_norm _ _ (fun o => o)) by
    (intros v; rewrite decode_user_or_null_norm; by destruct (decode_user_or_null v)).
  rewrite (parseStored_norm _ _ _ decode_expenses_norm), (parseStored_norm _ _ _ decode_settings_norm).
  destruct (parseStored USER_KEY _ _) as [e|ou]; [done|].
  destruct (parseStored STORAGE_KEY _ _) as [e|ol]; [done|].
  destruct (parseStored SETTINGS_KEY _ _) as [e|ost]; [done|].
  destruct ou, ol, ost; cbn [fmap option_fmap option_map]; rewrite ?retainRecent_norm; reflexivity.
Qed.

(** ** Loaded numbers are exact when the stored ones are *)

Lemma obj_get_exact (k : string) (fs : list (string * json)) (w : json) :
  obj_get k fs = Some w -> forallb (fun kv => json_exact kv.2) fs = true -> json_exact w = true.
Proof.
  induction fs as [|[k' v] fs IH]; [done|]. cbn. intros Hg [Hv Hfs]%andb_true_iff.
  destruct (obj_get k fs); [injection Hg as <-; auto|]. case_decide; congruence.
Qed.

Lemma num_field_exact (k : string) (fs : list (string * json)) (q : Q) :
  num_field k fs = Some q -> forallb (fun kv => json_exact kv.2) fs = true -> js_exact q = true.
Proof.
  unfold num_field. destruct (obj_get k fs) as [w|] eqn:E; [|done].
  destruct w; cbn; try done. intros [= <-] Hfs. exact (obj_get_exact _ _ _ E Hfs).
Qed.

Lemma decode_expenses_exact (v : json) (l : list Expense) :
  decode_expenses v = Some l -> json_exact v = true -> forallb (fun e => js_exact (amount e)) l = true.
Proof.
  destruct v as [| | | |xs|]; try done. cbn. revert l.
  induction xs as [|x xs IH]; intros l; cbn; [by intros [= <-]|].
  destruct (decode_expense x) as [e|] eqn:Ex; [|done].
  destruct (mapM decode_expense xs) as [l'|]; [|done]. intros [= <-] [Hx Hxs]%andb_true_iff.
  cbn. rewrite (IH l'); [|done..]. rewrite andb_true_r.
  destruct x as [| | | | |fs]; try done. revert Ex. unfold decode_expense; cbn [as_obj mbind option_bind].
  destruct (str_field "id" fs), (num_field "amount" fs) eqn:Ea, (str_field "category" fs),
    (str_field "date" fs), (str_field "description" fs); try done.
  intros [= <-]. exact (num_field_exact _ _ _ Ea Hx).
Qed.

Lemma decode_settings_exact (v : json) (st : AppSettings) :
  decode_settings v = Some st -> json_exact v = true -> js_exact (weeklyLimit st) = true.
Proof.
  destruct v as [| | | | |fs]; try done. unfold decode_settings; cbn [as_obj mbind option_bind].
  destruct (num_field "weeklyLimit" fs) eqn:E, (str_field "phoneNumber" fs); try done.
  intros [= <-] Hx. exact (num_field_exact _ _ _ E Hx).
Qed.

Lemma parseStored_exact {A} (key : string) (dec : json -> option A) (P : A -> bool)
    (HP : forall v x, dec v = Some x -> json_exact v = true -> P x = true)
    (t : option StoredText) (x : A) :
  parseStored key dec t = inr (Some x) -> from_option stored_exact true t = true -> P x = true.
Proof.
  unfold parseStored. destruct t as [[v|s]|]; cbn; [|by destruct (truthy s)|done].
  destruct (dec v) eqn:E; [|done]. intros [= <-]. eauto.
Qed.

Lemma getItem_exact (k : string) (a : gmap string StoredText) :
  store_exact a -> from_option stored_exact true (getItem k a) = true.
Proof. intros Ha. simpl. destruct (a !! k) eqn:E; [exact (Ha _ _ E)|done]. Qed.

Lemma loadEffect_exact (tzo now : Z) (a : gmap string StoredText) (s : AppState) (c : bool) :
  store_exact a -> loadEffect tzo now a (initialState now) = inr (s, c) ->
  state_exact s && form_exact s = true.
Proof.
  intros Ha. unfold loadEffect.
  destruct (parseStored USER_KEY _ _) as [e|ou]; [done|].
  destruct (parseStored STORAGE_KEY _ _) as [e|ol] eqn:El; [done|].
  destruct (parseStored SETTINGS_KEY _ _) as [e|ost] eqn:Es; [done|].
  intros [= <- _]. unfold state_exact.
  destruct ol as [l|], ost as [st|], ou; cbn;
    rewrite ?(parseStored_exact _ _ _ decode_settings_exact _ _ Es (getItem_exact _ _ Ha)),
      ?(retainRecent_forallb _ _ _ _ (parseStored_exact _ _ _ decode_expenses_exact _ _ El
          (getItem_exact _ _ Ha))); reflexivity.
Qed.

(** ** A page load keeps the two machines related *)

Lemma initialState_exact (now : Z) :
  state_exact (initialState now) && form_exact (initialState now) = true.
Proof. reflexivity. Qed.

Lemma mount_rel (tzo now : Z) (t : gmap string string) (a : gmap string StoredText) :
  abs_store t = norm_store a -> store_exact a -> phase_rel (mount tzo now t) (mount tzo now a).
Proof.
  intros Habs Ha. unfold mount. rewrite text_loadEffect, Habs, loadEffect_norm_store.
  destruct (loadEffect tzo now a (initialState now)) as [e|[s c]] eqn:E; [done|].
  pose proof (loadEffect_exact _ _ _ _ _ Ha E) as Hs.
  pose proof (initialState_exact now) as H0. apply andb_true_iff in Hs as [Hs Hf], H0 as [H0 _].
  cbn [phase_rel]. split; [apply norm_state_idem|]. split; [|split; [by rewrite Hs, Hf|]].
  - assert (Hn : state_exact (norm_state s) = true) by by rewrite norm_state_exact.
    destruct c; rewrite !text_saveEffect, !norm_store_saveEffect, ?norm_state_idem by done;
      congruence.
  - destruct c; repeat apply store_exact_saveEffect; done.
Qed.

(** ** The handlers respect [state_equiv] *)

Lemma number_to_string_Qeq (q1 q2 : Q) : q1 == q2 -> number_to_string q1 = number_to_string q2.
Proof. intros E. unfold number_to_string. by rewrite (Qred_complete _ _ E). Qed.

Lemma checkLimit_Qeq (l1 l2 : list Expense) (st1 st2 : AppSettings) :
  currentWeekTotal l1 == currentWeekTotal l2 -> weeklyLimit st1 == weeklyLimit st2 ->
  phoneNumber st1 = phoneNumber st2 -> checkLimit l1 st1 = checkLimit l2 st2.
Proof.
  intros El Ew Ep. unfold checkLimit, alertMessage. rewrite (js_gt_proper _ _ El _ _ Ew).
  by rewrite (number_to_string_Qeq _ _ Ew), Ep.
Qed.

Lemma currentWeekTotal_norm (e : Expense) (l : list Expense) :
  currentWeekTotal (e :: (norm_expense <$> l)) == currentWeekTotal (e :: l).
Proof.
  unfold currentWeekTotal. rewrite !reduce_sum_cons. apply Qplus_comp; [reflexivity|].
  induction l as [|x l IH]; [reflexivity|]. rewrite fmap_cons, !reduce_sum_cons, IH.
  cbn. by rewrite Qred_correct.
Qed.

Lemma state_equiv_norm (s : AppState) : state_equiv (norm_state s) s.
Proof. apply norm_state_idem. Qed.

(** A handler whose result, up to lowest terms, depends on its argument
    only up to lowest terms respects [state_equiv]. *)
Lemma proper_of_norm (h : AppState -> AppState)
    (Hh : forall s, state_equiv (h (norm_state s)) (h s)) :
  Proper (state_equiv ==> state_equiv) h.
Proof. intros s1 s2 E. rewrite <- Hh, E. apply Hh. Qed.

Ltac norm_handler :=
  apply proper_of_norm; intros [? ? [? ?] ? ? ? ?];
  unfold state_equiv, norm_state, norm_settings; cbn;
  rewrite ?Qred_idem, ?norm_expenses_idem; try reflexivity.

#[export] Instance handleRegister_proper (p : UserProfile) :
  Proper (state_equiv ==> state_equiv) (handleRegister p).
Proof. norm_handler. Qed.

#[export] Instance editWeeklyLimit_proper (v : option Q) :
  Proper (state_equiv ==> state_equiv) (editWeeklyLimit v).
Proof. norm_handler. Qed.

Lemma state_equiv_fields (s1 s2 : AppState) :
  state_equiv s1 s2 ->
  user s1 = user s2 /\ activeTab s1 = activeTab s2 /\ showAddForm s1 = showAddForm s2 /\
  newExpense s1 = newExpense s2 /\ notifications s1 = notifications s2.
Proof.
  intros E. repeat split;
    [apply (f_equal user) in E | apply (f_equal activeTab) in E | apply (f_equal showAddForm) in E
    | apply (f_equal newExpense) in E | apply (f_equal notifications) in E]; exact E.
Qed.

#[export] Instance set_newExpense_proper (p : PartialExpense) :
  Proper (state_equiv ==> state_equiv) (set_newExpense p).
Proof. norm_handler. Qed.

#[export] Instance set_showAddForm_proper (b : bool) :
  Proper (state_equiv ==> state_equiv) (set_showAddForm b).
Proof. norm_handler. Qed.

#[export] Instance set_activeTab_proper (t : AppTab) :
  Proper (state_equiv ==> state_equiv) (set_activeTab t).
Proof. norm_handler. Qed.

#[export] Instance set_notifications_proper (n : list string) :
  Proper (state_equiv ==> state_equiv) (set_notifications n).
Proof. norm_handler. Qed.

#[export] Instance addExpense_proper (newId : string) (now : Z) (exp : PartialExpense) :
  Proper (state_equiv ==> state_equiv) (addExpense newId now exp).
Proof.
  apply proper_of_norm. intros [u l [w ph] tab sf ne ns].
  unfold state_equiv, norm_state, norm_settings, addExpense, addToLedger; cbn.
  rewrite (checkLimit_Qeq _ (_ :: l) {| weeklyLimit := Qred w; phoneNumber := ph |}
    {| weeklyLimit := w; phoneNumber := ph |} (currentWeekTotal_norm _ _) (Qred_correct w) eq_refl).
  by rewrite Qred_idem, norm_expenses_idem.
Qed.

#[export] Instance handleManualAdd_proper (newId : string) (now : Z) :
  Proper (state_equiv ==> state_equiv) (handleManualAdd newId now).
Proof.
  intros s1 s2 E. unfold handleManualAdd. destruct (state_equiv_fields _ _ E) as (_ & _ & _ & -> & _).
  by rewrite E.
Qed.

#[export] Instance editAmount_proper (v : option Q) :
  Proper (state_equiv ==> state_equiv) (editAmount v).
Proof. norm_handler. Qed.

#[export] Instance editCategory_proper (c : string) :
  Proper (state_equiv ==> state_equiv) (editCategory c).
Proof. norm_handler. Qed.

#[export] Instance editDescription_proper (d : string) :
  Proper (state_equiv ==> state_equiv) (editDescription d).
Proof. norm_handler. Qed.

#[export] Instance editDate_proper (d : string) :
  Proper (state_equiv ==> state_equiv) (editDate d).
Proof. norm_handler. Qed.

Lemma enabled_equiv (s1 s2 : AppState) (ev : Event) :
  state_equiv s1 s2 -> enabled s1 ev = enabled s2 ev.
Proof.
  intros E. destruct (state_equiv_fields _ _ E) as (Hu & Ht & Hs & Hn & Hno).
  unfold enabled. by rewrite Hu, Ht, Hs, Hn, Hno.
Qed.

(** ** The handlers keep the numbers exact *)

Lemma js_or_exact (o : option Q) : opt_exact o = true -> js_exact (o ||? 0) = true.
Proof. destruct o as [q|]; cbn; [|done]. unfold js_or. by destruct (truthy q). Qed.

Lemma jsNumber_exact (v : option Q) : opt_exact v = true -> js_exact (jsNumber v) = true.
Proof. by destruct v. Qed.

Lemma addExpense_exact (newId : string) (now : Z) (exp : PartialExpense) (s : AppState) :
  state_exact s = true -> opt_exact (p_amount exp) = true ->
  state_exact (addExpense newId now exp s) = true.
Proof.
  unfold state_exact. intros [Hl Hs]%andb_true_iff He. unfold addExpense, addToLedger.
  destruct (checkLimit _ _); cbn; by rewrite Hl, Hs, js_or_exact.
Qed.

(** ** Every event keeps the two machines related *)

Lemma commit_rel (st sa : AppState) (t : gmap string string) (a : gmap string StoredText) :
  state_equiv st sa -> abs_store t = norm_store a -> state_exact sa && form_exact sa = true ->
  store_exact a -> phase_rel (commit st t) (commit sa a).
Proof.
  intros E Habs Hx Ha. pose proof Hx as [Hs _]%andb_true_iff.
  assert (Ht : state_exact st = true) by (rewrite <- norm_state_exact, E, norm_state_exact; done).
  unfold commit. cbn [phase_rel]. split; [done|]. split; [|split; [done|]].
  - by rewrite text_saveEffect, norm_store_saveEffect, E, Habs.
  - by apply store_exact_saveEffect.
Qed.

Lemma running_rel (st sa : AppState) (t : gmap string string) (a : gmap string StoredText) :
  state_equiv st sa -> abs_store t = norm_store a -> state_exact sa && form_exact sa = true ->
  store_exact a -> phase_rel (Running st t) (Running sa a).
Proof. done. Qed.

Lemma handle_rel (tzo : Z) (ev : Event) (st sa : AppState) (t : gmap string string)
    (a : gmap string StoredText) :
  phase_rel (Running st t) (Running sa a) -> event_exact ev = true ->
  phase_rel (handle tzo ev st t) (handle tzo ev sa a).
Proof.
  intros (E & Habs & Hx & Ha) Hev. pose proof Hx as [Hs Hf]%andb_true_iff.
  pose proof Hs as [Hl Hw]%andb_true_iff.
  destruct ev; cbn [handle event_exact] in *;
    [by apply mount_rel | apply commit_rel | apply commit_rel | apply commit_rel
    | apply running_rel | apply running_rel | apply running_rel | apply running_rel
    | apply running_rel | apply running_rel | apply running_rel
    | apply commit_rel | apply running_rel |
     apply mount_rel; [by rewrite abs_store_clear, norm_store_clear | apply store_exact_clear]];
    try (by rewrite E); try done; apply andb_true_iff; split; try done.
  - by apply addExpense_exact.
  - by apply addExpense_exact.
  - by apply jsNumber_exact.
  - unfold state_exact. cbn. by rewrite Hl, jsNumber_exact.
Qed.

Lemma run_rel (tzo : Z) (evs : list Event) :
  forall pt pa, phase_rel pt pa -> forallb event_exact evs = true ->
  option_Forall2 phase_rel (run tzo pt evs) (run tzo pa evs).
Proof.
  induction evs as [|ev evs IH]; intros pt pa Hr Hev; [by constructor|].
  apply andb_true_iff in Hev as [He Hevs].
  destruct pt as [st t|et t], pa as [sa a|ea a]; try done; cbn [run].
  - rewrite (enabled_equiv st sa ev) by apply Hr.
    destruct (enabled sa ev); [|constructor]. apply IH; [by apply handle_rel|done].
  - destruct Hr as (-> & Habs & Ha). destruct ev; try constructor.
    apply IH; [by apply mount_rel|done].
Qed.

Lemma norm_store_mirror (a : gmap string StoredText) (s : AppState) :
  store_mirror a s -> store_mirror (norm_store a) (norm_state s).
Proof.
  intros (Hu & Hl & Hs). unfold store_mirror. rewrite !getItem_norm_store, Hu, Hl, Hs.
  cbn [fmap option_fmap option_map norm_stored norm_state set_settings set_expenses
    user expenses settings].
  destruct (encode_expenses_exact (expenses s)) as [_ ->].
  destruct (encode_settings_exact (settings s)) as [_ ->].
  split; [|done]. destruct (user s) as [u|]; [|done].
  destruct (encode_user_exact u) as [_ Nu]. cbn [fmap option_fmap option_map norm_stored].
  by rewrite Nu.
Qed.

Lemma abs_store_empty : abs_store (emptyStore : gmap string string) = norm_store emptyStore.
Proof. reflexivity. Qed.

(** ** The text machine refines the abstract machine *)

(** From a first visit, the page over [localStorage] texts and the
    page over stored JSON values accept the same events and stay related
    at every step: the page states agree up to numbers in lowest terms,
    and the texts, read back by [JSON.parse], are the stored values with
    their numbers in lowest terms (for the numbers a JavaScript number
    prints exactly). *)
Theorem text_run_refines (tzo now : Z) (evs : list Event) :
  forallb event_exact evs = true ->
  option_Forall2 phase_rel (run tzo (mount tzo now (emptyStore : gmap string string)) evs)
    (run tzo (mount tzo now (emptyStore : gmap string StoredText)) evs).
Proof.
  intros Hev. apply run_rel; [|done]. apply mount_rel; [apply abs_store_empty|].
  apply map_Forall_empty.
Qed.

(** C21: on [localStorage] texts, every run of the page from a first
    visit is a running page (no load throws on what the page wrote), and
    reading the three keys back with [JSON.parse] gives exactly its
    user, its ledger and its settings, numbers in lowest terms. *)
Theorem text_run_mirror (tzo now : Z) (evs : list Event) (ph : Phase (gmap string string)) :
  forallb event_exact evs = true -> run tzo (mount tzo now emptyStore) evs = Some ph ->
  exists st t, ph = Running st t /\ store_mirror (abs_store t) (norm_state st).
Proof.
  intros Hev Hrun. pose proof (run_rel tzo evs _ _
    (mount_rel tzo now emptyStore emptyStore abs_store_empty (map_Forall_empty _)) Hev) as Hr.
  rewrite Hrun in Hr. inversion Hr as [? pa Hph Hpa|]; subst.
  assert (Hi : app_inv pa).
  { apply (reachable_inv tzo (fun _ _ => True)).
    apply (run_reachable tzo _ evs (mount tzo now emptyStore)); [apply env_along_true|constructor|done]. }
  destruct ph as [st t|], pa as [sa a|]; try done. destruct Hph as (E & Habs & _), Hi as [Hm _].
  exists st, t. split; [done|]. rewrite Habs, E. by apply norm_store_mirror.
Qed.

Lemma text_run_mirror_witness :
  exists ph, run 0 (mount 0 0 (emptyStore : gmap string string)) demoRun = Some ph /\
    exists st t, ph = Running st t /\ store_mirror (abs_store t) (norm_state st).
Proof.
  eexists. split; [vm_compute; reflexivity|].
  apply (text_run_mirror 0 0 demoRun); [reflexivity | vm_compute; reflexivity].
Defined.
