(* ===== verification/Dashboard.v ===== *)
(** * Dashboard: the weekly and monthly summaries

    [App.tsx] line 170 renders [<Dashboard expenses={expenses}
    settings={settings} />] on the dashboard tab.  The component's source
    ([components/Dashboard]) is not in the repository, so this file
    models the contract the specification gives it (section 4.3) over
    the types of [types.ts] ([WeeklyData], [MonthlySummary]) and the
    constant [DAYS_OF_WEEK]:

    - [weeklyBreakdown] buckets the ledger by the local weekday of each
      expense's date, over a recent window of days, one [WeeklyData] per
      label of [DAYS_OF_WEEK] in that order;
    - [monthlySummary] buckets the ledger by local calendar month, one
      [MonthlySummary] per month the ledger touches, with
      [savings] a function of the month's total and the settings.

    What the specification leaves open is a [Variable] of the section:
    the window of local day numbers ([window]) and the savings formula
    ([savings_of]); every theorem holds for every choice.  Dates are
    read with the [parseISO] of [Calendar.v]; an expense whose date it
    cannot read falls in no bucket.

    The theorems: the weekly rows are exactly the days of
    [DAYS_OF_WEEK] and their amounts add up to the ledger's in-window
    total; the months are distinct, cover every dated expense, and their
    totals add up to the dated part of the ledger; and an [addExpense]
    (the callback of both the add form and the scanner) grows exactly
    the bucket of the new record's weekday by its amount. *)

From S2P Require Import Prelude Types Calendar DateFns Ledger Storage App View.
From stdpp Require Import finite.

Local Open Scope Q_scope.

(** ** Weekdays *)

Inductive Weekday := Monday | Tuesday | Wednesday | Thursday | Friday | Saturday | Sunday.

#[export] Instance Weekday_eq_dec : EqDecision Weekday.
Proof. solve_decision. Defined.

#[export] Program Instance Weekday_finite : Finite Weekday :=
  {| enum := [Monday; Tuesday; Wednesday; Thursday; Friday; Saturday; Sunday] |}.
Next Obligation. apply NoDup_ListNoDup. repeat constructor; cbn; intuition discriminate. Qed.
Next Obligation. intros []; set_solver. Qed.

(** The label [DAYS_OF_WEEK] gives each day. *)
Definition weekday_label (wd : Weekday) : string :=
  match wd with
  | Monday => "Monday" | Tuesday => "Tuesday" | Wednesday => "Wednesday"
  | Thursday => "Thursday" | Friday => "Friday" | Saturday => "Saturday"
  | Sunday => "Sunday"
  end.

(** Day 0, 1970-01-01, was a Thursday. *)
Definition weekday_of_day (z : Z) : Weekday :=
  match Z.to_nat ((z + 3) mod 7)%Z with
  | 0%nat => Monday | 1%nat => Tuesday | 2%nat => Wednesday | 3%nat => Thursday
  | 4%nat => Friday | 5%nat => Saturday | _ => Sunday
  end.

(** The local day number of an instant, on the day count of
    [civil_of_ms]. *)
Definition local_day (tzo t : Z) : Z := ((t + tzo * ms_per_minute) / ms_per_day)%Z.

(** [format(date, 'MMM yyyy')] of a (year, month) key. *)
Definition month_label (k : Z * Z) : string :=
  nth (Z.to_nat (k.2 - 1)) month_abbreviations "" +:+ " " +:+
  addLeadingZeros (year_of_era k.1) 4.

Section Summaries.

Variable tzo : Z.
(** The recent window of the weekly chart, on local day numbers. *)
Variable window : Z -> bool.
(** The savings of a month from the settings and the month's total. *)
Variable savings_of : AppSettings -> Q -> Q.

Definition expense_day (e : Expense) : option Z := local_day tzo <$> parseISO tzo (date e).

(** The weekday bucket of an expense, if its date is readable and in
    the window. *)
Definition expense_weekday (e : Expense) : option Weekday :=
  match expense_day e with
  | Some z => if window z then Some (weekday_of_day z) else None
  | None => None
  end.

Definition day_total (l : list Expense) (wd : Weekday) : Q :=
  reduce_sum amount (List.filter (fun e => bool_decide (expense_weekday e = Some wd)) l).

Definition weeklyBreakdown (l : list Expense) : list WeeklyData :=
  (fun wd => {| day := weekday_label wd; wd_amount := day_total l wd |}) <$> enum Weekday.

Definition month_key (e : Expense) : option (Z * Z) :=
  (fun t => let c := local_civil tzo t in (c_year c, c_month c)) <$> parseISO tzo (date e).

(** The months the ledger touches, each once. *)
Definition month_keys (l : list Expense) : list (Z * Z) := remove_dups (omap month_key l).

Definition month_total (l : list Expense) (k : Z * Z) : Q :=
  reduce_sum amount (List.filter (fun e => bool_decide (month_key e = Some k)) l).

Definition monthlySummary (st : AppSettings) (l : list Expense) : list MonthlySummary :=
  (fun k => let t := month_total l k in
            {| month := month_label k; Types.total := t; savings := savings_of st t |}) <$> month_keys l.

(** The props of [<Dashboard expenses={expenses} settings={settings} />]. *)
Definition dashboard (s : AppState) : list WeeklyData * list MonthlySummary :=
  (weeklyBreakdown (expenses s), monthlySummary (settings s) (expenses s)).

End Summaries.

(** ** Sums over buckets *)

Lemma reduce_sum_ext {A} (g h : A -> Q) (xs : list A) :
  (forall x, x ∈ xs -> g x == h x) -> reduce_sum g xs == reduce_sum h xs.
Proof.
  induction xs as [|x xs IH]; intros H; [reflexivity|].
  rewrite !reduce_sum_cons, H, IH by set_solver. reflexivity.
Qed.

Lemma reduce_sum_plus {A} (g h : A -> Q) (xs : list A) :
  reduce_sum (fun x => g x + h x) xs == reduce_sum g xs + reduce_sum h xs.
Proof.
  induction xs as [|x xs IH]; [reflexivity|]. rewrite !reduce_sum_cons, IH. lra.
Qed.

Lemma reduce_sum_zero {A} (xs : list A) : reduce_sum (fun _ => 0) xs == 0.
Proof. induction xs as [|x xs IH]; [reflexivity|]. rewrite reduce_sum_cons, IH. lra. Qed.

Lemma reduce_sum_filter_cons {A} (f : A -> Q) (p : A -> bool) (x : A) (xs : list A) :
  reduce_sum f (List.filter p (x :: xs)) == (if p x then f x else 0) + reduce_sum f (List.filter p xs).
Proof. cbn [List.filter]. destruct (p x); rewrite ?reduce_sum_cons; lra. Qed.

(** Summing an indicator over a list without duplicates picks the one
    key present, if any. *)
Lemma reduce_sum_indicator {B} `{EqDecision B} (k : option B) (c : Q) (ks : list B) :
  NoDup ks -> (forall b, k = Some b -> b ∈ ks) ->
  reduce_sum (fun b => if bool_decide (k = Some b) then c else 0) ks ==
  if bool_decide (is_Some k) then c else 0.
Proof.
  induction 1 as [|b ks Hb Hks IH]; intros Hin.
  - destruct k as [b|]; [|reflexivity]. exfalso. eapply elem_of_nil, Hin, eq_refl.
  - rewrite reduce_sum_cons. destruct (decide (k = Some b)) as [->|Hkb].
    + rewrite (reduce_sum_ext _ (fun _ => 0)), reduce_sum_zero.
      { rewrite !bool_decide_true by eauto. lra. }
      intros b' Hb'. rewrite bool_decide_false; [reflexivity|]. intros [= ->]. done.
    + rewrite (bool_decide_false (k = Some b)) by done. rewrite IH. { lra. }
      intros b' ->. specialize (Hin b' eq_refl).
      apply elem_of_cons in Hin as [->|]; [done|done].
Qed.

(** Bucketing by a key and summing the buckets adds up the keyed part
    of the list, when the keys cover every key present and are
    distinct. *)
Lemma reduce_sum_buckets {A B} `{EqDecision B} (key : A -> option B) (f : A -> Q)
    (ks : list B) (xs : list A) :
  NoDup ks -> (forall x b, x ∈ xs -> key x = Some b -> b ∈ ks) ->
  reduce_sum (fun b => reduce_sum f (List.filter (fun x => bool_decide (key x = Some b)) xs)) ks ==
  reduce_sum f (List.filter (fun x => bool_decide (is_Some (key x))) xs).
Proof.
  intros Hnd. induction xs as [|x xs IH]; intros Hcov.
  - apply reduce_sum_zero.
  - etransitivity.
    { apply reduce_sum_ext. intros b _. apply reduce_sum_filter_cons. }
    rewrite reduce_sum_plus. rewrite IH by set_solver.
    rewrite reduce_sum_filter_cons. rewrite reduce_sum_indicator by set_solver. reflexivity.
Qed.

Lemma reduce_sum_fmap {A B} (g : B -> Q) (h : A -> B) (xs : list A) :
  reduce_sum g (h <$> xs) == reduce_sum (fun x => g (h x)) xs.
Proof. induction xs as [|x xs IH]; [reflexivity|]. cbn [fmap list_fmap]. by rewrite !reduce_sum_cons, IH. Qed.

Lemma weekday_label_inj (a b : Weekday) : weekday_label a = weekday_label b -> a = b.
Proof. destruct a, b; cbn; congruence. Qed.

(** One more record grows the bucket of its weekday by its amount. *)
Lemma day_total_cons (tzo : Z) (window : Z -> bool) (e : Expense) (l : list Expense) (wd : Weekday) :
  day_total tzo window (e :: l) wd ==
  (if bool_decide (expense_weekday tzo window e = Some wd) then amount e else 0) +
  day_total tzo window l wd.
Proof. exact (reduce_sum_filter_cons amount _ e l). Qed.

(** ** The weekly chart *)

(** Whatever the ledger, the weekly breakdown has one [WeeklyData]
    per day, labelled with the days of [DAYS_OF_WEEK] in their order, and
    the amounts of the seven rows add up to the total of the expenses
    whose date is readable and falls in the window. *)
Theorem weeklyBreakdown_shape (tzo : Z) (window : Z -> bool) (l : list Expense) :
  day <$> weeklyBreakdown tzo window l = DAYS_OF_WEEK /\
  reduce_sum wd_amount (weeklyBreakdown tzo window l) ==
  reduce_sum amount (List.filter (fun e => bool_decide (is_Some (expense_weekday tzo window e))) l).
Proof.
  split; [reflexivity|]. unfold weeklyBreakdown. rewrite reduce_sum_fmap.
  apply reduce_sum_buckets; [apply NoDup_enum|]. intros. apply elem_of_enum.
Qed.

(** ** The monthly summary *)

(** The monthly summary the dashboard receives from the page's
    state has one row per calendar month the ledger touches, each month
    once; every expense with a readable date has its month among them;
    the totals of the rows add up to the total of the expenses with a
    readable date; and each row's savings is the savings formula applied
    to the settings and its total. *)
Theorem monthlySummary_partition (tzo : Z) (window : Z -> bool)
    (savings_of : AppSettings -> Q -> Q) (s : AppState) :
  NoDup (month_keys tzo (expenses s)) /\
  (forall e k, e ∈ expenses s -> month_key tzo e = Some k -> k ∈ month_keys tzo (expenses s)) /\
  reduce_sum Types.total (dashboard tzo window savings_of s).2 ==
    reduce_sum amount (List.filter (fun e => bool_decide (is_Some (month_key tzo e))) (expenses s)) /\
  Forall (fun r => savings r = savings_of (settings s) (Types.total r))
    (dashboard tzo window savings_of s).2.
Proof.
  assert (Hcov : forall e k, e ∈ expenses s -> month_key tzo e = Some k ->
                   k ∈ month_keys tzo (expenses s)).
  { intros e k He Hk. apply elem_of_remove_dups, list_elem_of_omap. eauto. }
  split; [apply NoDup_remove_dups|split; [done|split]]; cbn [dashboard fst snd].
  - unfold monthlySummary. rewrite reduce_sum_fmap.
    apply reduce_sum_buckets; [apply NoDup_remove_dups|done].
  - apply Forall_fmap, Forall_forall. done.
Qed.

(** ** The dashboard after an add *)

(** [addExpense], the callback of the add form and of the scanner,
    changes the weekly chart the dashboard shows next by exactly the new
    record: when its date (the form's date, or the current instant)
    reads as an instant [t] whose local day is in the window, the row of
    that weekday grows by the record's amount ([exp.amount || 0]) and
    every other row keeps its label and amount. *)
Theorem addExpense_weekly (tzo : Z) (window : Z -> bool) (newId : string) (now t : Z)
    (exp : PartialExpense) (s : AppState) :
  parseISO tzo (p_date exp ||? toISOString now) = Some t ->
  window (local_day tzo t) = true ->
  Forall2 (fun r r' => day r' = day r /\
      wd_amount r' == wd_amount r +
        (if bool_decide (day r = weekday_label (weekday_of_day (local_day tzo t)))
         then p_amount exp ||? 0 else 0))
    (weeklyBreakdown tzo window (expenses s))
    (weeklyBreakdown tzo window (expenses (addExpense newId now exp s))).
Proof.
  intros Ht Hw. rewrite addExpense_expenses. unfold weeklyBreakdown.
  apply Forall2_fmap, Forall_Forall2_diag, Forall_forall. intros wd _.
  cbn [day wd_amount]. split; [done|]. rewrite day_total_cons.
  assert (He : expense_weekday tzo window (fullExpense newId (toISOString now) exp) =
               Some (weekday_of_day (local_day tzo t))).
  { unfold expense_weekday, expense_day. cbn [date fullExpense]. rewrite Ht. cbn. by rewrite Hw. }
  rewrite He. cbn [amount fullExpense].
  destruct (decide (weekday_of_day (local_day tzo t) = wd)) as [<-|Hne].
  - rewrite !bool_decide_true by done. lra.
  - rewrite (bool_decide_false (Some _ = Some wd)) by congruence.
    rewrite bool_decide_false by (intros Heq%weekday_label_inj; congruence). lra.
Qed.

