(* ===== verification/Registration.v ===== *)
(** * Registration: the form in front of the page

    While there is no user, [App] renders only
    [<RegistrationForm onRegister={handleRegister} />] (App.tsx lines
    123-125).  The form's source ([components/RegistrationForm]) is not
    in the repository; its contract from the specification (section 6,
    "Registration flow", and section 7) is modelled here: the form
    collects a name and a mobile number, and its submit either calls
    [onRegister({name, mobile})] when the mobile passes
    [INDIAN_MOBILE_REGEX], or flags the error and keeps the user on the
    form.  The exact message is the implementation's choice, so the
    model keeps only a flag.

    [reg_step] composes the form with the page of [App.v]: [onRegister]
    is the [Register] event of [App.handle], which runs [handleRegister]
    and the save effect; once a user is set the form is unmounted and
    its events no longer reach the page.  The theorem: whatever is typed
    and submitted, the page either stays exactly as it was or is
    registered with a profile whose mobile passes the pattern and was
    typed into the form, the profile being saved at once. *)

From S2P Require Import Prelude Types Calendar Ledger Storage App.

(** The form's state: the two inputs and the error flag. *)
Record RegForm := {
  rf_name : string;
  rf_mobile : string;
  rf_invalid : bool;
}.

Definition emptyRegForm : RegForm := {| rf_name := ""; rf_mobile := ""; rf_invalid := false |}.

Inductive FormEvent :=
  | TypeName (n : string)      (** the name input's [onChange] *)
  | TypeMobile (m : string)    (** the mobile input's [onChange] *)
  | Submit.                    (** the form's [onSubmit] *)

(** The submit handler: [onRegister] with the typed profile when the
    mobile passes the pattern, the error flag otherwise. *)
Definition form_submit (f : RegForm) : RegForm * option UserProfile :=
  if INDIAN_MOBILE_REGEX (rf_mobile f)
  then (f, Some {| name := rf_name f; mobile := rf_mobile f |})
  else ({| rf_name := rf_name f; rf_mobile := rf_mobile f; rf_invalid := true |}, None).

Definition form_step (f : RegForm) (ev : FormEvent) : RegForm * option UserProfile :=
  match ev with
  | TypeName n => ({| rf_name := n; rf_mobile := rf_mobile f; rf_invalid := rf_invalid f |}, None)
  | TypeMobile m => ({| rf_name := rf_name f; rf_mobile := m; rf_invalid := rf_invalid f |}, None)
  | Submit => form_submit f
  end.

Section Page.
Context {Store : Type} `{KVStoreLaws Store}.
Variable tzo : Z.

(** One event of the form on the page: the form is mounted while the
    page runs without a user, and [onRegister] is [Register]. *)
Definition reg_step (f : RegForm) (ph : Phase Store) (ev : FormEvent) : RegForm * Phase Store :=
  match ph with
  | Running s store =>
      if bool_decide (user s = None) then
        let '(f', out) := form_step f ev in
        match out with
        | Some p => (f', handle tzo (Register p) s store)
        | None => (f', ph)
        end
      else (f, ph)
  | Crashed _ _ => (f, ph)
  end.

Fixpoint reg_run (f : RegForm) (ph : Phase Store) (evs : list FormEvent) : RegForm * Phase Store :=
  match evs with
  | [] => (f, ph)
  | ev :: evs' => let '(f', ph') := reg_step f ph ev in reg_run f' ph' evs'
  end.

End Page.

Module Examples.
Abbreviation LocalStore := (gmap string StoredText).

(** A mistyped mobile submitted, then corrected and submitted again. *)
Definition ashaTyping : list FormEvent :=
  [TypeName "Asha"; TypeMobile "12345"; Submit; TypeMobile "9876543210"; Submit].

Definition blankPage : Phase LocalStore := Running (initialState Scenarios.now0) ∅.
End Examples.

Section PageFacts.
Context {Store : Type} `{KVStoreLaws Store}.
Variable tzo : Z.

(** Once registered, the form is gone: nothing it receives changes the page. *)
Lemma reg_run_registered (f : RegForm) (s : AppState) (store : Store) (evs : list FormEvent) :
  user s <> None -> reg_run tzo f (Running s store) evs = (f, Running s store).
Proof.
  intros Hu. revert f. induction evs as [|ev evs IH]; intros f; [done|].
  cbn [reg_run reg_step]. rewrite bool_decide_false by done. apply IH.
Qed.

(** A submit either registers the typed profile, whose mobile passes
    the pattern, or leaves the page alone; typing only edits the form. *)
Lemma form_step_cases (f : RegForm) (ev : FormEvent) :
  match form_step f ev with
  | (f', Some p) => ev = Submit /\ INDIAN_MOBILE_REGEX (mobile p) = true /\ mobile p = rf_mobile f
  | (f', None) => rf_mobile f' = rf_mobile f \/ ev = TypeMobile (rf_mobile f')
  end.
Proof.
  destruct ev as [n|m|]; cbn; auto.
  unfold form_submit. destruct (INDIAN_MOBILE_REGEX (rf_mobile f)) eqn:E; cbn; auto.
Qed.

(** The registration form is the only way in, and it lets in
    only valid mobiles: from a page without a user, whatever is typed
    into the form and submitted, the page either stays exactly as it
    was, or it runs for the profile of a submitted form whose mobile
    passes [INDIAN_MOBILE_REGEX] and was typed into the form (or was
    there from the start), the profile being saved to [localStorage]
    at once.  A mobile that fails the pattern never creates a profile. *)
Theorem registration_only_valid (f : RegForm) (s : AppState) (store : Store)
    (evs : list FormEvent) :
  user s = None ->
  (reg_run tzo f (Running s store) evs).2 = Running s store \/
  exists p store', (reg_run tzo f (Running s store) evs).2 = Running (handleRegister p s) store' /\
    INDIAN_MOBILE_REGEX (mobile p) = true /\
    (mobile p = rf_mobile f \/ TypeMobile (mobile p) ∈ evs) /\
    getItem USER_KEY store' = Some (JsonText (encode_user p)).
Proof.
  intros Hu. revert f. induction evs as [|ev evs IH]; intros f; [by left|].
  cbn [reg_run reg_step]. rewrite bool_decide_true by done.
  pose proof (form_step_cases f ev) as Hc.
  destruct (form_step f ev) as [f' [p|]].
  - destruct Hc as (-> & Hre & Hm). right.
    exists p, (saveEffect (handleRegister p s) store). cbn [handle]. unfold commit.
    rewrite reg_run_registered by done. cbn.
    split; [done|split; [done|split; [by left|]]]. by rewrite getItem_saveEffect_user.
  - destruct (IH f') as [->|(p & store' & Hr & Hre & Hm & Hg)]; [by left|right].
    exists p, store'. split; [done|split; [done|split; [|done]]].
    destruct Hm as [Hm|Hm]; [|right; by apply elem_of_cons; right].
    destruct Hc as [Hc|Hc]; [left; congruence|right; apply elem_of_cons; left; congruence].
Qed.

End PageFacts.

